(** * KL-G2 label printer utility: a model of [klg2.c]

    The program talks to the printer over two USB bulk endpoints.  The
    model keeps the C program's shape: every [printer_*] function is a
    computation in a small monad [M] that threads the observable state
    of the process (the frames handed to the OUT endpoint, the number of
    IN transfers made, the memory errors committed) and that can stop
    in [abort()].  The device and everything else the C code does not
    control are collected in one record, [host].

    Integers are in [Z], with the wrap-around of the C types written
    out ([u8], [u32]); buffers are lists of bytes.  An access outside a
    buffer is recorded in the world and the run goes on, so that what
    the control flow does next can still be stated.  Left out: the
    diagnostics on stderr, the work of libc's [getopt] and [atoi] on the
    command line ([handle_options] takes their results), the failure of
    [calloc], and a bulk transfer that never completes: the transfers
    are made without a timeout, so that a device that stops answering
    hangs the process, while the host of the model always answers. *)

From stdpp Require Import list.
From Stdlib Require Import ZArith Lia.

Local Open Scope Z_scope.

(** ** Constants and enumerations *)

Definition KLG2_EPSIZE : Z := 0x40.

(** Valid output endpoint transfer sizes. *)
Inductive EPSIZE_T := EPSIZE_1 | EPSIZE_16 | EPSIZE_64.

Definition epsize_val (e : EPSIZE_T) : Z :=
  match e with EPSIZE_1 => 1 | EPSIZE_16 => 16 | EPSIZE_64 => 64 end.

Inductive TAPECODE_T :=
  | TAPECODE_NOTAPE | TAPECODE_6MM | TAPECODE_9MM
  | TAPECODE_12MM | TAPECODE_18MM | TAPECODE_24MM.

Definition tapecode_val (t : TAPECODE_T) : Z :=
  match t with
  | TAPECODE_NOTAPE => 0x0000
  | TAPECODE_6MM => 0x8100
  | TAPECODE_9MM => 0x8500
  | TAPECODE_12MM => 0x8303
  | TAPECODE_18MM => 0x8703
  | TAPECODE_24MM => 0x8603
  end.

Inductive MARGINCODE_T :=
  | MARGINCODE_SMALL | MARGINCODE_MEDIUM | MARGINCODE_LARGE | MARGINCODE_NOFEED.

Definition margincode_val (m : MARGINCODE_T) : Z :=
  match m with
  | MARGINCODE_SMALL => 0x40
  | MARGINCODE_MEDIUM => 0x80
  | MARGINCODE_LARGE => 0x02
  | MARGINCODE_NOFEED => 0x01
  end.

Inductive DENSITYCODE_T :=
  | DENSITYCODE_1 | DENSITYCODE_2 | DENSITYCODE_3 | DENSITYCODE_4 | DENSITYCODE_5.

Definition densitycode_val (d : DENSITYCODE_T) : Z :=
  match d with
  | DENSITYCODE_1 => 0xFE
  | DENSITYCODE_2 => 0xFF
  | DENSITYCODE_3 => 0x00
  | DENSITYCODE_4 => 0x01
  | DENSITYCODE_5 => 0x02
  end.

Inductive CUTTERCODE_T := CUTTERCODE_FULLCUT | CUTTERCODE_HALFCUT | CUTTERCODE_NOCUT.

Definition cuttercode_val (c : CUTTERCODE_T) : Z :=
  match c with
  | CUTTERCODE_FULLCUT => 0x00
  | CUTTERCODE_HALFCUT => 1
  | CUTTERCODE_NOCUT => 0xFF
  end.

Inductive OPERMODE_T :=
  | OPERATION_PRINT | OPERATION_FEED | OPERATION_CUT | OPERATION_HALFCUT.

(** The option globals, as [handle_options] leaves them. *)
Record options := {
  opt_density : DENSITYCODE_T;
  opt_margin : MARGINCODE_T;
  opt_tape : TAPECODE_T;
  opt_cutter : CUTTERCODE_T;
  opt_operation : OPERMODE_T
}.

Definition default_options : options :=
  {| opt_density := DENSITYCODE_3; opt_margin := MARGINCODE_SMALL;
     opt_tape := TAPECODE_12MM; opt_cutter := CUTTERCODE_HALFCUT;
     opt_operation := OPERATION_PRINT |}.

Definition PRINTER_ACK : Z := 0x06.
Definition PRINTER_NAK : Z := 0x1E.
Definition PRINTER_STX : Z := 0x02.

Definition IMAGE_ROWS : Z := 128.

(** C integer conversions that the code relies on. *)
Definition u8 (z : Z) : Z := z mod 256.
Definition u32 (z : Z) : Z := z mod 2 ^ 32.

(** ** The world outside the program *)

(** What the process cannot decide: the outcome of each bulk transfer
    and the content of memory it reads without having written it. *)
Record host := {
  (** [bulk_out k frame]: return code and byte count of the [k]-th
      transfer to the OUT endpoint *)
  bulk_out : nat → list Z → Z * Z;
  (** [bulk_in k]: return code and bytes of the [k]-th transfer from
      the IN endpoint *)
  bulk_in : nat → Z * list Z;
  (** content of the uninitialised [block] array of
      [printer_send_raster], by index *)
  stack_cell : Z → Z;
  (** what a read past the end of the pattern buffer yields, by index *)
  beyond : Z → Z;
  (** libc's [fscanf(fin, "%u %u\n", &w, &h)] on the bytes left in the
      stream: the two numbers and the rest of the stream when both
      conversions succeed *)
  scan_dims : list Z → option (Z * Z * list Z);
  (** results of [libusb_init], [libusb_open_device_with_vid_pid] (is
      the handle non-null) and [libusb_claim_interface] *)
  usb_init : Z;
  usb_open : bool;
  usb_claim : Z
}.

(** Memory errors (undefined behaviour in C) are recorded, not hidden. *)
Inductive fault :=
  | OobRead (index : Z)
  | OobWrite (index : Z).

Record world := {
  sent : list (list Z);   (* frames submitted to the OUT endpoint, oldest first *)
  received : nat;         (* number of IN transfers made *)
  faults : list fault     (* out-of-bounds accesses, oldest first *)
}.

Definition boot : world := {| sent := []; received := 0; faults := [] |}.

(** How a computation ends: it returns, the process dies in [abort()],
    or it never returns. *)
Inductive outcome (A : Type) :=
  | Ret (a : A) (w : world)
  | Abort (w : world)
  | Diverge.
Arguments Ret {A} a w.
Arguments Abort {A} w.
Arguments Diverge {A}.

Definition M (A : Type) : Type := world → outcome A.

#[global] Instance M_ret : MRet M := λ A a w, Ret a w.
#[global] Instance M_bind : MBind M := λ A B f m w,
  match m w with
  | Ret a w' => f a w'
  | Abort w' => Abort w'
  | Diverge => Diverge
  end.

Definition abort {A} : M A := λ w, Abort w.
Definition diverge {A} : M A := λ _, Diverge.

Definition world_of {A} (o : outcome A) (dflt : world) : world :=
  match o with Ret _ w => w | Abort w => w | Diverge => dflt end.

Definition push_frame (f : list Z) (w : world) : world :=
  {| sent := sent w ++ [f]; received := received w; faults := faults w |}.

Definition log_fault (x : fault) : M unit :=
  λ w, Ret () {| sent := sent w; received := received w; faults := faults w ++ [x] |}.

Section Printer.

Variable hw : host.

(** ** Frame transport *)

(** [recv_from_printer]: the bytes received (at most 64); their number
    is the C function's return value. *)
Definition recv_from_printer : M (list Z) :=
  λ w,
    let '(rc, bytes) := bulk_in hw (received w) in
    let w' := {| sent := sent w; received := S (received w); faults := faults w |} in
    if rc =? 0 then Ret (take 64 bytes) w' else Abort w'.

(** The buffer [out] that [send_to_printer] hands to libusb: 64 zeroed
    bytes, the first [cnt] overwritten with [d], of which [epsize] are
    transferred. *)
Definition out_frame (d : list Z) (cnt : Z) (epsize : EPSIZE_T) : list Z :=
  take (Z.to_nat (epsize_val epsize))
       (take (Z.to_nat cnt) d ++ replicate (Z.to_nat (KLG2_EPSIZE - cnt)) 0).

Definition send_to_printer (d : list Z) (cnt : Z) (epsize : EPSIZE_T) : M Z :=
  if epsize_val epsize <? cnt then abort
  else
    let out := out_frame d cnt epsize in
    λ w,
      let '(rc, txcnt) := bulk_out hw (length (sent w)) out in
      let w' := push_frame out w in
      if negb (rc =? 0) then Abort w'
      else if negb (txcnt =? epsize_val epsize) then Abort w'
      else Ret txcnt w'.

(** ** Commands *)

Definition printer_check_status : M Z :=
  _ ← send_to_printer [PRINTER_STX; 0x1D] 2 EPSIZE_16;
  rsp ← recv_from_printer;
  if negb (Z.of_nat (length rsp) =? 6) then mret 1
  else if negb (rsp !!! 0%nat =? PRINTER_STX) || negb (rsp !!! 1%nat =? 0x80)
          || negb (rsp !!! 2%nat =? 0x02) || negb (rsp !!! 3%nat =? 0x00)
          || negb (rsp !!! 4%nat =? 0x00) || negb (rsp !!! 5%nat =? 0xa6)
  then mret 1
  else mret 0.

(** Common case for receive PRINTER_ACK (the message goes to stderr and
    is not modelled). *)
Definition printer_recv_ack : M Z :=
  rsp ← recv_from_printer;
  if negb (Z.of_nat (length rsp) =? 1) || negb (rsp !!! 0%nat =? PRINTER_ACK)
  then mret 1
  else mret 0.

Definition printer_reset : M Z :=
  _ ← send_to_printer [0x02; 0x01] 2 EPSIZE_16;
  printer_recv_ack.

Definition printer_tape_cut : M Z :=
  _ ← send_to_printer [0x08] 1 EPSIZE_1;
  printer_recv_ack.

Definition printer_tape_halfcut : M Z :=
  _ ← send_to_printer [0x09] 1 EPSIZE_1;
  printer_recv_ack.

Definition printer_tape_feed : M Z :=
  _ ← send_to_printer [0x0A] 1 EPSIZE_1;
  printer_recv_ack.

Definition printer_cancel_job : M Z :=
  _ ← send_to_printer [0x18] 1 EPSIZE_1;
  (* No answer expected *)
  mret 0.

Definition printer_prejob : M Z :=
  _ ← send_to_printer [PRINTER_STX; 0x02; 0x04; 0x00; 0x00; 0x09; 0x09; 0x01] 8 EPSIZE_16;
  a ← printer_recv_ack;
  if negb (a =? 0) then mret 1
  else
    _ ← send_to_printer [PRINTER_STX; 0x82] 2 EPSIZE_16;
    rsp ← recv_from_printer;
    if negb (Z.of_nat (length rsp) =? 5) then mret 1
    else if negb (rsp !!! 0%nat =? PRINTER_STX) || negb (rsp !!! 1%nat =? 0x80)
            || negb (rsp !!! 2%nat =? 0x01) || negb (rsp !!! 3%nat =? 0x00)
            || negb (rsp !!! 4%nat =? 0x01)
    then mret 1
    else mret 0.

Definition printer_set_speed : M Z :=
  _ ← send_to_printer [PRINTER_STX; 0x1C; 0x01; 0x00; 0x00] 5 EPSIZE_16;
  printer_recv_ack.

Definition printer_check_tape (tapeid : TAPECODE_T) : M Z :=
  let mtc := [PRINTER_STX; 0x17; 0x02; 0x00; 0x00; 0x00] in
  let mtc := <[4%nat := u8 (Z.shiftr (tapecode_val tapeid) 8)]> mtc in
  let mtc := <[5%nat := u8 (Z.land (tapecode_val tapeid) 0xFF)]> mtc in
  _ ← send_to_printer mtc 6 EPSIZE_16;
  printer_recv_ack.

Definition printer_set_margin (marginid : MARGINCODE_T) : M Z :=
  let afs := [PRINTER_STX; 0x0d; 0x01; 0x00; 0x00] in
  let afs := <[4%nat := u8 (margincode_val marginid)]> afs in
  _ ← send_to_printer afs 5 EPSIZE_16;
  printer_recv_ack.

Definition printer_set_density (densityid : DENSITYCODE_T) : M Z :=
  let dms := [PRINTER_STX; 0x09; 0x06; 0x00; 0x00; 0x00; 0x01; 0x00; 0x00; 0x00] in
  let dms := <[8%nat := u8 (densitycode_val densityid)]> dms in
  _ ← send_to_printer dms 10 EPSIZE_16;
  printer_recv_ack.

Definition printer_set_cutter (cutterid : CUTTERCODE_T) : M Z :=
  let cms := [PRINTER_STX; 0x19; 0x01; 0x00; 0x00] in
  let cms := <[4%nat := u8 (cuttercode_val cutterid)]> cms in
  _ ← send_to_printer cms 5 EPSIZE_16;
  printer_recv_ack.

(** [printer_get_tape]: the return code and the value left in [*tapeid]. *)
Definition printer_get_tape : M (Z * TAPECODE_T) :=
  _ ← send_to_printer [PRINTER_STX; 0x1A] 2 EPSIZE_16;
  rsp ← recv_from_printer;
  if Z.of_nat (length rsp) =? 5 then
    let b := rsp !!! 4%nat in
    mret (0,
          if b =? 0x81 then TAPECODE_6MM
          else if b =? 0x85 then TAPECODE_9MM
          else if b =? 0x83 then TAPECODE_12MM
          else if b =? 0x87 then TAPECODE_18MM
          else if b =? 0x86 then TAPECODE_24MM
          else TAPECODE_NOTAPE)
  else mret (1, TAPECODE_NOTAPE).

Definition printer_prefeed_tape (amount : Z) : M Z :=
  let feed := [PRINTER_STX; 0x1B; 0x01; 0x00; 0x00] in
  let feed := <[4%nat := u8 amount]> feed in
  _ ← send_to_printer feed 5 EPSIZE_16;
  printer_recv_ack.

Definition printer_raster_end : M Z :=
  _ ← send_to_printer [PRINTER_STX; 0x04] 2 EPSIZE_16;
  printer_recv_ack.

Definition printer_print_page : M Z :=
  _ ← send_to_printer [0x0C] 1 EPSIZE_1;
  printer_recv_ack.

(** [printer_raster_block] writes the header into the caller's buffer;
    the updated buffer is returned with the return code.  [blksize] is a
    [uint8_t], and so is the count passed on to [send_to_printer]. *)
Definition printer_raster_block (blk : list Z) (blksize : Z) : M (Z * list Z) :=
  let blk := <[0%nat := PRINTER_STX]> blk in
  let blk := <[1%nat := 0xFE]> blk in
  let blk := <[2%nat := blksize]> blk in
  let blk := <[3%nat := 0]> blk in
  _ ← send_to_printer blk (u8 (blksize + 4)) EPSIZE_64;
  rc ← printer_recv_ack;
  mret (rc, blk).

(** ** Raster streaming *)

(** [raw[i]]: a read past the end of the buffer is recorded and yields
    whatever the host has there. *)
Definition read_raw (raw : list Z) (i : Z) : M Z :=
  match raw !! Z.to_nat i with
  | Some b => mret b
  | None => _ ← log_fault (OobRead i); mret (beyond hw i)
  end.

(** [buf[i] = v]: a write past the end of the buffer is recorded and
    leaves the buffer as it is. *)
Definition store (buf : list Z) (i : Z) (v : Z) : M (list Z) :=
  if i <? Z.of_nat (length buf) then mret (<[Z.to_nat i := v]> buf)
  else _ ← log_fault (OobWrite i); mret buf.

(** The locals of [printer_send_raster]. *)
Record raster_vars := {
  sent_size : Z;
  page_size : Z;
  block_size : Z;
  block : list Z
}.

(** A loop body either falls through to the loop test or returns from
    the function. *)
Inductive flow :=
  | Continue (v : raster_vars)
  | Return (rc : Z).

(** One pass through the body of the do-while loop. *)
Definition raster_iter (raw : list Z) (rawsize : Z) (v : raster_vars) : M flow :=
  b ← read_raw raw (sent_size v);
  blk ← store (block v) (u32 (4 + block_size v)) b;
  let bs := u32 (block_size v + 1) in
  let ss := u32 (sent_size v + 1) in
  let ps := u32 (page_size v + 1) in
  if (bs =? 60) || (ps =? 8192) || (ss =? rawsize) then
    '(rc, blk) ← printer_raster_block blk (u8 bs);
    if negb (rc =? 0) then mret (Return 1)
    else
      let bs := 0 in
      rc ← (if ss =? rawsize then printer_raster_end else mret 0);
      if negb (rc =? 0) then mret (Return 1)
      else if (ps =? 8192) || (ss =? rawsize) then
        rc ← printer_print_page;
        if negb (rc =? 0) then mret (Return 1)
        else mret (Continue {| sent_size := ss; page_size := 0;
                               block_size := bs; block := blk |})
      else mret (Continue {| sent_size := ss; page_size := ps;
                             block_size := bs; block := blk |})
  else mret (Continue {| sent_size := ss; page_size := ps;
                         block_size := bs; block := blk |}).

(** The do-while loop: the body runs before the test.  [fuel] bounds
    the number of further passes; [printer_send_raster_ends] below shows
    that [rawsize] passes are always enough, so that [Diverge] is never
    the outcome. *)
Fixpoint raster_loop (fuel : nat) (raw : list Z) (rawsize : Z)
    (v : raster_vars) : M Z :=
  f ← raster_iter raw rawsize v;
  match f with
  | Return rc => mret rc
  | Continue v' =>
      if sent_size v' <? rawsize then
        match fuel with
        | O => diverge
        | S fuel' => raster_loop fuel' raw rawsize v'
        end
      else mret 0
  end.

Definition printer_send_raster (raw : list Z) (rawsize : Z) : M Z :=
  raster_loop (Z.to_nat rawsize) raw rawsize
    {| sent_size := 0; page_size := 0; block_size := 0;
       block := stack_cell hw <$> seqZ 0 64 |}.

(** ** PBM loader *)

(** [getc]: the next byte of the stream, [EOF] (-1) at its end. *)
Definition getc (fin : list Z) : Z * list Z :=
  match fin with
  | [] => (-1, [])
  | c :: rest => (c, rest)
  end.

(** The comment loop of [load_image], from [ch = getc(fin)] to the
    final [ch] and the stream behind it.  [in_comment] tells whether the
    inner do-while is running.  At the end of the stream [getc] keeps
    answering [EOF], which is 0xFF in the [uint8_t ch] and never a
    newline: inside a comment the loop does not end ([None]). *)
Fixpoint skip_comments (in_comment : bool) (fin : list Z) : option (Z * list Z) :=
  match fin with
  | [] => if in_comment then None else Some (u8 (-1), [])
  | c :: rest =>
      if in_comment then skip_comments (negb (u8 c =? 10)) rest
      else if u8 c =? 35 then skip_comments true rest
      else Some (u8 c, rest)
  end.

(** [fread(buf, size, 1, fin)]: the item, when a whole one was read. *)
Definition fread (size : Z) (fin : list Z) : option (list Z * list Z) :=
  if (size =? 0) || (Z.of_nat (length fin) <? size) then None
  else Some (take (Z.to_nat size) fin, drop (Z.to_nat size) fin).

(** The loop that reads the rows into [image_stripes[i+pad_h]], started
    at row [i] with [n] rows to go; [None] when the file ends early. *)
Fixpoint read_rows (n : nat) (i : Z) (pad_h img_w : Z)
    (stripes : list (list Z)) (fin : list Z) : option (list (list Z) * list Z) :=
  match n with
  | O => Some (stripes, fin)
  | S n' =>
      match fread img_w fin with
      | None => None
      | Some (row, fin') =>
          read_rows n' (i + 1) pad_h img_w
            (<[Z.to_nat (u32 (i + pad_h)) := row]> stripes) fin'
      end
  end.

(** [pattern[idx] |= mask] on a buffer of [length p] bytes. *)
Definition or_cell (p : list Z) (idx mask : Z) : list Z * list fault :=
  match p !! Z.to_nat idx with
  | Some old => (<[Z.to_nat idx := Z.lor old mask]> p, [])
  | None => (p, [OobWrite idx])
  end.

(** The innermost statement of the transposition, for bit [b] of the
    byte [cell] of row [i]; the state is [x], the pattern and the memory
    errors so far. *)
Definition transpose_bit (i cell : Z) (st : Z * list Z * list fault) (b : nat)
    : Z * list Z * list fault :=
  let '(x, p, fl) := st in
  let '(p, fl) :=
    if negb (Z.land (Z.shiftl cell (Z.of_nat b)) 0x80 =? 0) then
      let '(p', f') := or_cell p (u32 (x * (IMAGE_ROWS / 8) + i / 8))
                         (Z.shiftl 1 (i mod 8)) in
      (p', fl ++ f')
    else (p, fl) in
  (u32 (x + 1), p, fl).

Definition transpose_byte (i : Z) (row : list Z) (st : Z * list Z * list fault)
    (w : nat) : Z * list Z * list fault :=
  foldl (transpose_bit i (row !!! w)) st (seq 0 8).

Definition transpose_row (img_w : Z) (stripes : list (list Z))
    (acc : list Z * list fault) (i : nat) : list Z * list fault :=
  let '(p, fl) := acc in
  let '(_, p, fl) :=
    foldl (transpose_byte (Z.of_nat i) (stripes !!! i)) (0, p, fl)
          (seq 0 (Z.to_nat img_w)) in
  (p, fl).

(** The loop nest under "Transpose to pattern". *)
Definition transpose (img_w : Z) (stripes : list (list Z)) (p : list Z)
    : list Z * list fault :=
  foldl (transpose_row img_w stripes) (p, []) (seq 0 (Z.to_nat IMAGE_ROWS)).

(** The globals that [load_image] fills in. *)
Record image := {
  image_w : Z;
  image_stripes : list (list Z);
  pattern_size : Z;
  pattern : list Z
}.

Inductive loaded :=
  | LoadError               (* [load_image] returned 1 *)
  | Loaded (img : image).   (* [load_image] returned 0 *)

(** [load_image] after the header: lines from the height check to the
    end.  [calloc] is taken to succeed. *)
Definition load_pixels (img_w img_h : Z) (fin : list Z) : M loaded :=
  let img_h := if IMAGE_ROWS <? img_h then IMAGE_ROWS else img_h in
  let pad_h := u32 (IMAGE_ROWS - img_h) / 2 in
  let image_w := img_w in
  let img_w := u32 (image_w + 7) / 8 in
  let stripes := replicate (Z.to_nat IMAGE_ROWS) (replicate (Z.to_nat img_w) 0) in
  match read_rows (Z.to_nat img_h) 0 pad_h img_w stripes fin with
  | None => mret LoadError
  | Some (stripes, _) =>
      let pattern_size := u32 (IMAGE_ROWS / 8 * image_w) in
      let pattern := replicate (Z.to_nat pattern_size) 0 in
      let '(pattern, fl) := transpose img_w stripes pattern in
      λ w, Ret (Loaded {| image_w := image_w; image_stripes := stripes;
                          pattern_size := pattern_size; pattern := pattern |})
               {| sent := sent w; received := received w;
                  faults := faults w ++ fl |}
  end.

Definition load_image (fin : list Z) : M loaded :=
  let '(c, fin) := getc fin in
  if negb (c =? 80) then mret LoadError
  else
    let '(c, fin) := getc fin in
    if negb (c =? 52) then mret LoadError
    else
      let '(c, fin) := getc fin in
      if negb (c =? 10) then mret LoadError
      else
        match skip_comments false fin with
        | None => diverge
        | Some (ch, fin) =>
            let fin := ch :: fin in   (* ungetc *)
            match scan_dims hw fin with
            | None => mret LoadError
            | Some (img_w, img_h, fin) => load_pixels (u32 img_w) (u32 img_h) fin
            end
        end.

(** ** Main *)

(** [if (!need_cancel) need_cancel = step();] *)
Definition unless (need_cancel : bool) (step : M Z) : M bool :=
  if negb need_cancel then rc ← step; mret (negb (rc =? 0))
  else mret need_cancel.

(** [main] after [handle_options]; the process exit status is returned.
    Releasing and closing the device leave no trace in the model. *)
Definition main (opts : options) (fin : list Z) : M Z :=
  let need_cancel := false in
  if usb_init hw <? 0 then mret (usb_init hw)
  else if negb (usb_open hw) then mret 1
  else if negb (usb_claim hw =? 0) then mret 1
  else
    _ ← printer_check_status;
    _ ← printer_reset;
    match opt_operation opts with
    | OPERATION_FEED => _ ← printer_tape_feed; mret 0
    | OPERATION_CUT => _ ← printer_tape_cut; mret 0
    | OPERATION_HALFCUT => _ ← printer_tape_halfcut; mret 0
    | OPERATION_PRINT =>
        l ← load_image fin;
        match l with
        | LoadError => mret 1
        | Loaded img =>
            need_cancel ← unless need_cancel printer_prejob;
            need_cancel ← unless need_cancel (printer_check_tape (opt_tape opts));
            need_cancel ← unless need_cancel printer_reset;
            need_cancel ← unless need_cancel printer_set_speed;
            need_cancel ← unless need_cancel (printer_set_margin (opt_margin opts));
            need_cancel ← unless need_cancel (printer_set_density (opt_density opts));
            need_cancel ← unless need_cancel (printer_set_cutter (opt_cutter opts));
            need_cancel ← unless need_cancel printer_check_status;
            need_cancel ← unless need_cancel
                            (printer_send_raster (pattern img) (pattern_size img));
            (* The standard program does this even in the success case *)
            _ ← printer_cancel_job;
            mret 0
        end
    end.

End Printer.

(** ** Option handling *)

(** How [handle_options] ends: in [exit(status)], or by returning with
    [dump_comm] and the option globals set. *)
Inductive parsed :=
  | Exit (status : Z)
  | Parsed (dump_comm : bool) (opts : options).

Definition set_operation (x : OPERMODE_T) (o : options) : options :=
  {| opt_density := opt_density o; opt_margin := opt_margin o;
     opt_tape := opt_tape o; opt_cutter := opt_cutter o; opt_operation := x |}.

Definition set_margin (x : MARGINCODE_T) (o : options) : options :=
  {| opt_density := opt_density o; opt_margin := x;
     opt_tape := opt_tape o; opt_cutter := opt_cutter o;
     opt_operation := opt_operation o |}.

Definition set_cutter (x : CUTTERCODE_T) (o : options) : options :=
  {| opt_density := opt_density o; opt_margin := opt_margin o;
     opt_tape := opt_tape o; opt_cutter := x;
     opt_operation := opt_operation o |}.

Definition set_density (x : DENSITYCODE_T) (o : options) : options :=
  {| opt_density := x; opt_margin := opt_margin o;
     opt_tape := opt_tape o; opt_cutter := opt_cutter o;
     opt_operation := opt_operation o |}.

Definition set_tape (x : TAPECODE_T) (o : options) : options :=
  {| opt_density := opt_density o; opt_margin := opt_margin o;
     opt_tape := x; opt_cutter := opt_cutter o;
     opt_operation := opt_operation o |}.

(** The [switch] in the loop of [handle_options].  [opt] is the
    character that libc's [getopt] returned and [oval] the value of
    [atoi(optarg)]; the messages and the usage text go to stderr. *)
Definition handle_option (dump_comm : bool) (o : options) (opt oval : Z) : parsed :=
  match opt with
  | 118 (* 'v' *) => Parsed true o
  | 70 (* 'F' *) => Parsed dump_comm (set_operation OPERATION_FEED o)
  | 67 (* 'C' *) => Parsed dump_comm (set_operation OPERATION_CUT o)
  | 72 (* 'H' *) => Parsed dump_comm (set_operation OPERATION_HALFCUT o)
  | 109 (* 'm' *) =>
      match oval with
      | 0 => Parsed dump_comm (set_margin MARGINCODE_NOFEED o)
      | 1 => Parsed dump_comm (set_margin MARGINCODE_SMALL o)
      | 2 => Parsed dump_comm (set_margin MARGINCODE_MEDIUM o)
      | 3 => Parsed dump_comm (set_margin MARGINCODE_LARGE o)
      | _ => Exit 1
      end
  | 99 (* 'c' *) =>
      match oval with
      | 0 => Parsed dump_comm (set_cutter CUTTERCODE_NOCUT o)
      | 1 => Parsed dump_comm (set_cutter CUTTERCODE_HALFCUT o)
      | 2 => Parsed dump_comm (set_cutter CUTTERCODE_FULLCUT o)
      | _ => Exit 1
      end
  | 100 (* 'd' *) =>
      match oval with
      | 1 => Parsed dump_comm (set_density DENSITYCODE_1 o)
      | 2 => Parsed dump_comm (set_density DENSITYCODE_2 o)
      | 3 => Parsed dump_comm (set_density DENSITYCODE_3 o)
      | 4 => Parsed dump_comm (set_density DENSITYCODE_4 o)
      | 5 => Parsed dump_comm (set_density DENSITYCODE_5 o)
      | _ => Exit 1
      end
  | 116 (* 't' *) =>
      match oval with
      | 6 => Parsed dump_comm (set_tape TAPECODE_6MM o)
      | 9 => Parsed dump_comm (set_tape TAPECODE_9MM o)
      | 12 => Parsed dump_comm (set_tape TAPECODE_12MM o)
      | 18 => Parsed dump_comm (set_tape TAPECODE_18MM o)
      | 24 => Parsed dump_comm (set_tape TAPECODE_24MM o)
      | _ => Exit 1
      end
  | _ (* 'h', '?' and anything else: usage *) => Exit 1
  end.

(** [handle_options]: the loop runs once for each result of [getopt]
    until that returns -1; [args] are these results in order, each with
    the value of its argument. *)
Fixpoint handle_options (args : list (Z * Z)) (dump_comm : bool) (o : options)
    : parsed :=
  match args with
  | [] => Parsed dump_comm o
  | (opt, oval) :: rest =>
      match handle_option dump_comm o opt oval with
      | Exit status => Exit status
      | Parsed dump_comm o => handle_options rest dump_comm o
      end
  end.

(** The process from its start: [main] with its call of
    [handle_options], the globals at their initial values. *)
Definition program (hw : host) (args : list (Z * Z)) (fin : list Z) : M Z :=
  match handle_options args false default_options with
  | Exit status => mret status
  | Parsed _ opts => main hw opts fin
  end.

(** ** Hosts to run the model on *)

Definition is_blank (c : Z) : bool :=
  (c =? 32) || ((9 <=? c) && (c <=? 13)).

Definition is_digit (c : Z) : bool := (48 <=? c) && (c <=? 57).

Fixpoint skip_blanks (fin : list Z) : list Z :=
  match fin with
  | c :: rest => if is_blank c then skip_blanks rest else fin
  | [] => []
  end.

Fixpoint scan_digits (acc : Z) (fin : list Z) : Z * list Z :=
  match fin with
  | c :: rest => if is_digit c then scan_digits (10 * acc + (c - 48)) rest else (acc, fin)
  | [] => (acc, [])
  end.

(** The conversion [%u]: blanks are skipped, then come an optional sign
    and decimal digits, at least one; a minus sign negates the number,
    which the caller reduces to 32 bits. *)
Definition scan_unsigned (fin : list Z) : option (Z * list Z) :=
  match skip_blanks fin with
  | c :: rest =>
      if is_digit c then Some (scan_digits 0 (c :: rest))
      else if (c =? 43) || (c =? 45) then   (* '+' or '-' *)
        match rest with
        | d :: _ =>
            if is_digit d then
              let '(v, fin') := scan_digits 0 rest in
              Some (if c =? 45 then - v else v, fin')
            else None
        | [] => None
        end
      else None
  | [] => None
  end.

(** What [fscanf] does with the format ["%u %u\n"]: two conversions,
    and, for the newline that ends the format, every blank byte that
    follows the height is taken from the stream, those of the pixel
    data too. *)
Definition scan_plain (fin : list Z) : option (Z * Z * list Z) :=
  match scan_unsigned fin with
  | None => None
  | Some (w, fin) =>
      match scan_unsigned fin with
      | None => None
      | Some (h, fin) => Some (u32 w, u32 h, skip_blanks fin)
      end
  end.

(** A printer that takes every frame whole and answers with [replies];
    the USB set-up succeeds. *)
Definition printer_host (replies : nat → list Z) : host :=
  {| bulk_out := λ _ f, (0, Z.of_nat (length f));
     bulk_in := λ k, (0, replies k);
     stack_cell := λ _, 0xAA;
     beyond := λ _, 0x55;
     scan_dims := scan_plain;
     usb_init := 0;
     usb_open := true;
     usb_claim := 0 |}.

(** It acknowledges whatever it is sent. *)
Definition ack_host : host := printer_host (λ _, [PRINTER_ACK]).

(** It answers the way a working printer does during a print job whose
    raster needs no more than a handful of commands. *)
Definition status_ok : list Z := [PRINTER_STX; 0x80; 0x02; 0x00; 0x00; 0xa6].
Definition prejob_ok : list Z := [PRINTER_STX; 0x80; 0x01; 0x00; 0x01].

Definition job_replies (k : nat) : list Z :=
  match k with
  | 0%nat => status_ok
  | 3%nat => prejob_ok
  | 10%nat => status_ok
  | _ => [PRINTER_ACK]
  end.

Definition job_host : host := printer_host job_replies.

(** The same printer with another tape loaded: it refuses the tape
    check, the fifth answer of a print job. *)
Definition wrong_tape_host : host :=
  printer_host (λ k, if (k =? 4)%nat then [PRINTER_NAK] else job_replies k).

(** The world in which that job finds itself when the tape check has
    been refused. *)
Definition tape_refused : world :=
  {| sent :=
       [[0x02; 0x1D; 0; 0; 0; 0; 0; 0; 0; 0; 0; 0; 0; 0; 0; 0];
        [0x02; 0x01; 0; 0; 0; 0; 0; 0; 0; 0; 0; 0; 0; 0; 0; 0];
        [0x02; 0x02; 0x04; 0; 0; 0x09; 0x09; 0x01; 0; 0; 0; 0; 0; 0; 0; 0];
        [0x02; 0x82; 0; 0; 0; 0; 0; 0; 0; 0; 0; 0; 0; 0; 0; 0];
        [0x02; 0x17; 0x02; 0; 0x83; 0x03; 0; 0; 0; 0; 0; 0; 0; 0; 0; 0]];
     received := 5;
     faults := [] |}.

(** A printer that refuses the second frame it gets. *)
Definition second_refused (k : nat) : list Z :=
  if (k =? 1)%nat then [PRINTER_NAK] else [PRINTER_ACK].

Definition pbm_4x2 : list Z := [80; 52; 10; 52; 32; 50; 10; 0xA0; 0x50].

(** The number that a string of decimal digits denotes. *)
Definition decimal (ds : list Z) : Z := foldl (λ acc c, 10 * acc + (c - 48)) 0 ds.

(** A packed PBM file without comments: the signature, the width and
    the height in decimal digits with a space between them, a newline,
    and the pixel data. *)
Definition pbm_file (dw dh data : list Z) : list Z :=
  [80; 52; 10] ++ dw ++ [32] ++ dh ++ [10] ++ data.

Definition feed_options : options :=
  {| opt_density := DENSITYCODE_3; opt_margin := MARGINCODE_SMALL;
     opt_tape := TAPECODE_12MM; opt_cutter := CUTTERCODE_HALFCUT;
     opt_operation := OPERATION_FEED |}.

(** ** The wire traffic of a raster transfer *)

(** The frame of a raster block with the given pixel bytes. *)
Definition raster_block_frame (payload : list Z) : list Z :=
  [PRINTER_STX; 0xFE; Z.of_nat (length payload); 0] ++ payload
    ++ replicate (60 - length payload) 0.

Definition raster_end_frame : list Z := [PRINTER_STX; 0x04] ++ replicate 14 0.
Definition print_page_frame : list Z := [0x0C].
Definition cancel_frame : list Z := [0x18].

(** The size field of a frame that starts like a raster block. *)
Definition block_payload_size (f : list Z) : option Z :=
  match f with
  | 0x02 :: 0xFE :: size :: _ => Some size
  | _ => None
  end.

(** Fill of the page and of the block once [k] bytes have been taken. *)
Definition page_fill (k : Z) : Z := (k - 1) mod 8192 + 1.
Definition block_fill (k : Z) : Z := ((k - 1) mod 8192) mod 60 + 1.

(** The frames that go out when the [k]-th byte (counted from 1) of a
    pattern of [n] bytes has been taken. *)
Definition emit (raw : list Z) (n k : Z) : list (list Z) :=
  if (block_fill k =? 60) || (page_fill k =? 8192) || (k =? n) then
    raster_block_frame
      (take (Z.to_nat (block_fill k)) (drop (Z.to_nat (k - block_fill k)) raw))
    :: (if k =? n then [raster_end_frame] else [])
    ++ (if (page_fill k =? 8192) || (k =? n) then [print_page_frame] else [])
  else [].

(** The frames for bytes [k+1 .. k+m]. *)
Fixpoint traffic_from (raw : list Z) (n k : Z) (m : nat) : list (list Z) :=
  match m with
  | O => []
  | S m' => emit raw n (k + 1) ++ traffic_from raw n (k + 1) m'
  end.

Definition raster_traffic (raw : list Z) : list (list Z) :=
  traffic_from raw (Z.of_nat (length raw)) 0 (length raw).

Definition ceil_div (a b : Z) : Z := (a + b - 1) / b.

(** Number of frames equal to [f]. *)
Definition count_frame (f : list Z) (fs : list (list Z)) : nat :=
  length (filter (λ g, g = f) fs).

(** [w'] is [w] after the frames [fs] have gone out, with no memory
    error in between. *)
Definition sends (w : world) (fs : list (list Z)) (w' : world) : Prop :=
  sent w' = sent w ++ fs ∧ faults w' = faults w.

(** The host takes every frame whole and acknowledges everything. *)
Definition accepting (hw : host) : Prop :=
  (∀ k f, bulk_out hw k f = (0, Z.of_nat (length f))) ∧
  (∀ k, bulk_in hw k = (0, [PRINTER_ACK])).

(** A computation that plays a script of frames: it returns 0 after all
    of them, or stops earlier because the host refused something. *)
Definition plays (hw : host) (w : world) (script : list (list Z))
    (o : outcome Z) : Prop :=
  match o with
  | Ret rc w' =>
      (rc = 0 ∧ sends w script w') ∨
      (rc = 1 ∧ ¬ accepting hw ∧ ∃ j, sends w (take j script) w')
  | Abort w' => ¬ accepting hw ∧ ∃ j, sends w (take j script) w'
  | Diverge => False
  end.


(** ** ACK-only commands *)

(** The commands whose answer is checked by [printer_recv_ack] alone. *)
Inductive ack_command :=
  | CmdReset | CmdTapeCut | CmdTapeHalfcut | CmdTapeFeed | CmdSetSpeed
  | CmdCheckTape (tapeid : TAPECODE_T)
  | CmdSetMargin (marginid : MARGINCODE_T)
  | CmdSetDensity (densityid : DENSITYCODE_T)
  | CmdSetCutter (cutterid : CUTTERCODE_T)
  | CmdPrefeedTape (amount : Z)
  | CmdRasterEnd | CmdPrintPage.

Definition run_ack_command (hw : host) (c : ack_command) : M Z :=
  match c with
  | CmdReset => printer_reset hw
  | CmdTapeCut => printer_tape_cut hw
  | CmdTapeHalfcut => printer_tape_halfcut hw
  | CmdTapeFeed => printer_tape_feed hw
  | CmdSetSpeed => printer_set_speed hw
  | CmdCheckTape t => printer_check_tape hw t
  | CmdSetMargin m => printer_set_margin hw m
  | CmdSetDensity d => printer_set_density hw d
  | CmdSetCutter c => printer_set_cutter hw c
  | CmdPrefeedTape a => printer_prefeed_tape hw a
  | CmdRasterEnd => printer_raster_end hw
  | CmdPrintPage => printer_print_page hw
  end.

(** The verdict on an answer: 0 for the lone ACK byte, 1 otherwise. *)
Definition ack_verdict (rsp : list Z) : Z :=
  if bool_decide (rsp = [PRINTER_ACK]) then 0 else 1.

(** The frames of a raster transfer: a block of 1 to 60 bytes, a raster
    end or a page end. *)
Definition raster_frame (f : list Z) : Prop :=
  (∃ p, f = raster_block_frame p ∧ (1 ≤ length p ≤ 60)%nat) ∨
  f = raster_end_frame ∨ f = print_page_frame.

(** The value a computation returned, if it did return. *)
Definition returned {A} (o : outcome A) : option A :=
  match o with Ret a _ => Some a | _ => None end.

(** The frames that a run started in [w] added to the log. *)
Definition new_frames {A} (w : world) (o : outcome A) : list (list Z) :=
  drop (length (sent w)) (sent (world_of o w)).

(** The pixel bytes that a raster block carries. *)
Definition block_payload (f : list Z) : list Z :=
  match f with
  | 0x02 :: 0xFE :: size :: _ :: rest => take (Z.to_nat size) rest
  | _ => []
  end.

(** The size field of the last raster block among [fs]. *)
Definition final_block_size (fs : list (list Z)) : option Z :=
  last (omap block_payload_size fs).

(** A command made of one frame and one acknowledgement. *)
Definition exchange (hw : host) (d : list Z) (cnt : Z) (ep : EPSIZE_T) : M Z :=
  _ ← send_to_printer hw d cnt ep; printer_recv_ack hw.

(** What the loop of [printer_send_raster] maintains between passes,
    with [k] bytes taken. *)
Definition raster_inv (raw : list Z) (v : raster_vars) (k : Z) : Prop :=
  sent_size v = k ∧
  page_size v = k mod 8192 ∧
  block_size v = (k mod 8192) mod 60 ∧
  length (block v) = 64%nat ∧
  take (Z.to_nat (block_size v)) (drop 4 (block v)) =
    take (Z.to_nat (block_size v)) (drop (Z.to_nat (k - block_size v)) raw).

(** ** Bitmaps, canvas and pattern *)

(** The first [h] rows of [bw] bytes each at the head of the pixel data. *)
Fixpoint file_rows (bw : nat) (h : nat) (data : list Z) : list (list Z) :=
  match h with
  | O => []
  | S h' => take bw data :: file_rows bw h' (drop bw data)
  end.

(** The canvas that centres the first [min img_h 128] rows of the pixel
    data of a bitmap [img_w] pixels wide: [(128 - h) / 2] zero rows, the
    rows, and zero rows up to 128. *)
Definition centered_canvas (img_w img_h : Z) (data : list Z) : list (list Z) :=
  let h := Z.min img_h 128 in
  let bw := Z.to_nat ((img_w + 7) / 8) in
  replicate (Z.to_nat ((128 - h) / 2)) (replicate bw 0)
  ++ file_rows bw (Z.to_nat h) data
  ++ replicate (Z.to_nat (128 - h - (128 - h) / 2)) (replicate bw 0).

(** The pixel of the canvas at row [i], column [x]: rows are packed
    most significant bit first. *)
Definition canvas_pixel (stripes : list (list Z)) (i x : Z) : bool :=
  Z.testbit ((stripes !!! Z.to_nat i) !!! Z.to_nat (x / 8)) (7 - x mod 8).

(** The inverse map: the pixel that the pattern holds for row [i],
    column [x], bit [i mod 8] of byte [x * 16 + i / 8]. *)
Definition pattern_pixel (p : list Z) (i x : Z) : bool :=
  Z.testbit (p !!! Z.to_nat (x * 16 + i / 8)) (i mod 8).

(** The inverse map on whole bytes: byte [w] of row [i] of the canvas,
    put together most significant bit first from the pattern. *)
Definition untranspose_byte (p : list Z) (image_w i w : Z) : Z :=
  foldl (λ acc b,
           2 * acc
           + (if (8 * w + b <? image_w) && pattern_pixel p i (8 * w + b)
              then 1 else 0))
        0 (seqZ 0 8).

(** The canvas read back from the pattern of an image [image_w] pixels
    wide. *)
Definition untranspose (p : list Z) (image_w : Z) : list (list Z) :=
  (λ i, untranspose_byte p image_w i <$> seqZ 0 ((image_w + 7) / 8))
    <$> seqZ 0 IMAGE_ROWS.

(** A canvas of 128 rows of [bw] bytes. *)
Definition canvas_ok (stripes : list (list Z)) (bw : Z) : Prop :=
  length stripes = 128%nat ∧
  Forall (λ row, length row = Z.to_nat bw ∧ Forall (λ c, 0 ≤ c < 256) row) stripes.

(** The bits that pad the rows of [bw] bytes to whole bytes are clear. *)
Definition padding_clear (stripes : list (list Z)) (image_w bw : Z) : Prop :=
  ∀ i x, 0 ≤ i < IMAGE_ROWS → image_w ≤ x < 8 * bw →
         canvas_pixel stripes i x = false.

(** The same, as a test that runs. *)
Definition padding_clearb (stripes : list (list Z)) (image_w bw : Z) : bool :=
  forallb (λ i, forallb (λ x, negb (canvas_pixel stripes i x))
                        (seqZ image_w (8 * bw - image_w)))
          (seqZ 0 IMAGE_ROWS).

(** What the transposition has established once the rows above [i] and
    the columns of row [i] left of [x] are done: no memory error, and
    in the pattern exactly the pixels met so far. *)
Definition transposed (stripes : list (list Z)) (image_w i x : Z)
    (st : Z * list Z * list fault) : Prop :=
  st.1.1 = x ∧ st.2 = [] ∧ length st.1.2 = Z.to_nat (16 * image_w) ∧
  ∀ c r k, 0 ≤ c < image_w → 0 ≤ r < 16 → 0 ≤ k →
    Z.testbit (st.1.2 !!! Z.to_nat (c * 16 + r)) k
    = (k <? 8) && canvas_pixel stripes (8 * r + k) c
      && ((8 * r + k <? i) || ((8 * r + k =? i) && (c <? x))).

(** ** The job sequence *)

Definition status_frame : list Z := [PRINTER_STX; 0x1D] ++ replicate 14 0.
Definition reset_frame : list Z := [PRINTER_STX; 0x01] ++ replicate 14 0.

(** The frame of the single command of a non-print operation. *)
Definition operation_frame (op : OPERMODE_T) : list (list Z) :=
  match op with
  | OPERATION_FEED => [[0x0A]]
  | OPERATION_CUT => [[0x08]]
  | OPERATION_HALFCUT => [[0x09]]
  | OPERATION_PRINT => []
  end.

(** The steps of a print job that [main] guards with [need_cancel], in
    order. *)
Definition job_steps (hw : host) (opts : options) (img : image) : list (M Z) :=
  [printer_prejob hw;
   printer_check_tape hw (opt_tape opts);
   printer_reset hw;
   printer_set_speed hw;
   printer_set_margin hw (opt_margin opts);
   printer_set_density hw (opt_density opts);
   printer_set_cutter hw (opt_cutter opts);
   printer_check_status hw;
   printer_send_raster hw (pattern img) (pattern_size img)].

(** A chain of [if (!need_cancel) need_cancel = step();], followed by
    the rest [k] of the function. *)
Fixpoint run_steps {A} (steps : list (M Z)) (need_cancel : bool)
    (k : bool → M A) : M A :=
  match steps with
  | [] => k need_cancel
  | step :: rest => nc ← unless need_cancel step; run_steps rest nc k
  end.

(** All of [steps] run from [w] and return 0; the world they leave. *)
Fixpoint pass_all (steps : list (M Z)) (w : world) : option world :=
  match steps with
  | [] => Some w
  | step :: rest =>
      match step w with
      | Ret rc w' => if rc =? 0 then pass_all rest w' else None
      | _ => None
      end
  end.

(** What [main] does before the guarded steps of a print job. *)
Definition job_preamble (hw : host) (fin : list Z) : M loaded :=
  _ ← printer_check_status hw; _ ← printer_reset hw; load_image hw fin.

(** The USB set-up succeeds. *)
Definition usb_ready (hw : host) : Prop :=
  0 ≤ usb_init hw ∧ usb_open hw = true ∧ usb_claim hw = 0.

(** A computation that sends one frame and then returns 0 or 1, unless
    the process aborts. *)
Definition one_frame (m : M Z) (f : list Z) : Prop :=
  ∀ w, match m w with
       | Ret rc w' => (rc = 0 ∨ rc = 1) ∧ sends w [f] w'
       | Abort w' => sends w [f] w'
       | Diverge => False
       end.

(** A computation that only adds frames to the log, none of them the
    cancel command. *)
Definition grows_without_cancel (w w' : world) : Prop :=
  ∃ fs, sent w' = sent w ++ fs ∧ cancel_frame ∉ fs.

Definition no_cancel {A} (m : M A) : Prop :=
  ∀ w, match m w with
       | Ret _ w' | Abort w' => grows_without_cancel w w'
       | Diverge => True
       end.

(** A computation that does not run for ever, and that returns a value
    in [Q] when it returns. *)
Definition ends {A} (m : M A) (Q : A → Prop) : Prop :=
  ∀ w, match m w with
       | Ret a _ => Q a
       | Abort _ => True
       | Diverge => False
       end.

(** ** A printer that answers *)

(** The transport works: the host takes every frame whole, and the
    [k]-th transfer from the IN endpoint delivers [replies k]. *)
Definition transport_ok (hw : host) (replies : nat → list Z) : Prop :=
  (∀ k f, bulk_out hw k f = (0, Z.of_nat (length f))) ∧
  (∀ k, bulk_in hw k = (0, replies k)).

(** The world after the frames [fs] have gone out and one answer to
    each of them has come in. *)
Definition exchanged (w : world) (fs : list (list Z)) : world :=
  {| sent := sent w ++ fs; received := length fs + received w;
     faults := faults w |}.

(** Closes the two counts of a world reached by [exchanged]. *)
Local Ltac counted :=
  cbn [exchanged sent received faults];
  split; [cbn [length]; lia|split; [rewrite ?length_app; cbn [length]; lia|]].

(** The [m] answers from the [r]-th on are lone ACK bytes. *)
Definition acked (replies : nat → list Z) (r m : nat) : Prop :=
  ∀ i, (i < m)%nat → replies (i + r)%nat = [PRINTER_ACK].

(** Counted from the [r]-th, answer [j] is the first that is not a lone
    ACK byte. *)
Definition refused (replies : nat → list Z) (r j : nat) : Prop :=
  acked replies r j ∧ replies (j + r)%nat ≠ [PRINTER_ACK].

(** A run that puts the frames of [script] on the wire one at a time,
    waits for the answer to each, and gives up with 1 at the first
    answer that is not a lone ACK byte. *)
Definition answered (replies : nat → list Z) (w : world)
    (script : list (list Z)) (o : outcome Z) : Prop :=
  match o with
  | Ret rc w' =>
      (rc = 0 ∧ w' = exchanged w script
       ∧ acked replies (received w) (length script)) ∨
      (rc = 1 ∧ ∃ j, (j < length script)%nat
                     ∧ w' = exchanged w (take (S j) script)
                     ∧ refused replies (received w) j)
  | _ => False
  end.

(** The verdict of [printer_check_status] on an answer. *)
Definition status_verdict (rsp : list Z) : Z :=
  if bool_decide (rsp = status_ok) then 0 else 1.

(** A computation that returns, whatever the world it starts in. *)
Definition returns {A} (m : M A) : Prop := ∀ w, ∃ a w', m w = Ret a w'.

(** Raster blocks that have gone out when [k] bytes have been taken and
    the transfer is not over: 137 for each full page (136 blocks of 60
    bytes and one of 32) and one for every 60 bytes of the page being
    filled. *)
Definition blocks_done (k : Z) : Z := 137 * (k / 8192) + (k mod 8192) / 60.

(** ** The frames of the set-up commands *)

Definition prejob_frame : list Z :=
  [0x02; 0x02; 0x04; 0x00; 0x00; 0x09; 0x09; 0x01] ++ replicate 8 0.
Definition prejob_query_frame : list Z := [0x02; 0x82] ++ replicate 14 0.
Definition tape_frame (t : TAPECODE_T) : list Z :=
  [0x02; 0x17; 0x02; 0x00; tapecode_val t / 256; tapecode_val t mod 256]
    ++ replicate 10 0.
Definition speed_frame : list Z := [0x02; 0x1C; 0x01; 0x00; 0x00] ++ replicate 11 0.
Definition margin_frame (m : MARGINCODE_T) : list Z :=
  [0x02; 0x0D; 0x01; 0x00; margincode_val m] ++ replicate 11 0.
Definition density_frame (d : DENSITYCODE_T) : list Z :=
  [0x02; 0x09; 0x06; 0x00; 0x00; 0x00; 0x01; 0x00; densitycode_val d; 0x00]
    ++ replicate 6 0.
Definition cutter_frame (c : CUTTERCODE_T) : list Z :=
  [0x02; 0x19; 0x01; 0x00; cuttercode_val c] ++ replicate 11 0.

(** What goes out before the raster data in a print job that meets no
    refusal. *)
Definition setup_frames (opts : options) : list (list Z) :=
  [status_frame; reset_frame; prejob_frame; prejob_query_frame;
   tape_frame (opt_tape opts); reset_frame; speed_frame;
   margin_frame (opt_margin opts); density_frame (opt_density opts);
   cutter_frame (opt_cutter opts); status_frame].

(** A transfer size that the printer accepts. *)
Definition frame_sized (f : list Z) : Prop :=
  length f = 1%nat ∨ length f = 16%nat ∨ length f = 64%nat.

(** A computation that only adds frames of these sizes to the log. *)
Definition well_sized {A} (m : M A) : Prop :=
  ∀ w, match m w with
       | Ret _ w' | Abort w' => ∃ fs, sent w' = sent w ++ fs ∧ Forall frame_sized fs
       | Diverge => True
       end.

(** ** The command line *)

(** The options that the usage text lists, with the values it allows. *)
Definition valid_option (a : Z * Z) : bool :=
  let '(opt, oval) := a in
  (opt =? 118) || (opt =? 70) || (opt =? 67) || (opt =? 72)
  || (opt =? 109) && (0 <=? oval) && (oval <=? 3)
  || (opt =? 99) && (0 <=? oval) && (oval <=? 2)
  || (opt =? 100) && (1 <=? oval) && (oval <=? 5)
  || (opt =? 116) && ((oval =? 6) || (oval =? 9) || (oval =? 12)
                      || (oval =? 18) || (oval =? 24)).

(** The options -F, -C and -H, which select an operation. *)
Definition selects_operation (a : Z * Z) : bool :=
  (a.1 =? 70) || (a.1 =? 67) || (a.1 =? 72).

(** The options -m, -c, -d and -t, which take a value. *)
Definition takes_value (opt : Z) : bool :=
  (opt =? 109) || (opt =? 99) || (opt =? 100) || (opt =? 116).

(** The settings of [o1] and [o2] are the same, but for the one that
    the option [opt] sets. *)
Definition similar (opt : Z) (o1 o2 : options) : Prop :=
  (opt ≠ 109 → opt_margin o1 = opt_margin o2)
  ∧ (opt ≠ 99 → opt_cutter o1 = opt_cutter o2)
  ∧ (opt ≠ 100 → opt_density o1 = opt_density o2)
  ∧ (opt ≠ 116 → opt_tape o1 = opt_tape o2)
  ∧ opt_operation o1 = opt_operation o2.

(** Uses or drops the premises [a ≠ b] of the hypotheses. *)
Local Ltac premises :=
  repeat match goal with
         | H : ?a ≠ ?b → _ |- _ =>
             first [specialize (H ltac:(discriminate)) | clear H]
         end.

(** * Proofs *)

(** ** Transport *)

Section Transport.

Variable hw : host.

Lemma recv_ack_verdict (w : world) (rsp : list Z) :
  bulk_in hw (received w) = (0, rsp) →
  printer_recv_ack hw w =
    Ret (ack_verdict rsp)
        {| sent := sent w; received := S (received w); faults := faults w |}.
Proof.
  intros Hin. unfold printer_recv_ack, mbind, M_bind, recv_from_printer.
  rewrite Hin. cbn [Z.eqb]. unfold ack_verdict, mret, M_ret.
  destruct rsp as [|b [|b' rest]].
  - rewrite bool_decide_eq_false_2 by discriminate. reflexivity.
  - cbn. destruct (Z.eqb_spec b PRINTER_ACK) as [->|Hb].
    + reflexivity.
    + rewrite bool_decide_eq_false_2 by congruence. reflexivity.
  - rewrite bool_decide_eq_false_2 by discriminate.
    assert (Hlen : (Z.of_nat (length (take 64 (b :: b' :: rest))) =? 1) = false).
    { apply Z.eqb_neq. rewrite length_take. cbn [length]. lia. }
    rewrite Hlen. reflexivity.
Qed.

Lemma out_frame_length (d : list Z) (cnt : Z) (ep : EPSIZE_T) :
  0 ≤ cnt ≤ epsize_val ep → (Z.to_nat cnt ≤ length d)%nat →
  Z.of_nat (length (out_frame d cnt ep)) = epsize_val ep.
Proof.
  intros Hc Hd. unfold out_frame, KLG2_EPSIZE.
  rewrite length_take, length_app, length_take, length_replicate.
  destruct ep; cbn [epsize_val] in *; lia.
Qed.

End Transport.

(** ** Frames going out *)

Section Traffic.

Variable hw : host.

Lemma sends_refl (w : world) : sends w [] w.
Proof. split; [by rewrite app_nil_r | done]. Qed.

Lemma sends_trans (w1 w2 w3 : world) (fs gs : list (list Z)) :
  sends w1 fs w2 → sends w2 gs w3 → sends w1 (fs ++ gs) w3.
Proof.
  intros [Hs1 Hf1] [Hs2 Hf2]. split.
  - by rewrite Hs2, Hs1, app_assoc.
  - congruence.
Qed.

Lemma exchange_cases (d : list Z) (cnt : Z) (ep : EPSIZE_T) (w : world) :
  0 ≤ cnt ≤ epsize_val ep → (Z.to_nat cnt ≤ length d)%nat →
  (∃ w', exchange hw d cnt ep w = Ret 0 w' ∧ sends w [out_frame d cnt ep] w') ∨
  (∃ w', exchange hw d cnt ep w = Ret 1 w' ∧ ¬ accepting hw
         ∧ sends w [out_frame d cnt ep] w') ∨
  (∃ w', exchange hw d cnt ep w = Abort w' ∧ ¬ accepting hw
         ∧ sends w [out_frame d cnt ep] w').
Proof.
  intros Hc Hd.
  pose proof (out_frame_length d cnt ep Hc Hd) as Hlen.
  unfold exchange, mbind, M_bind, send_to_printer.
  destruct (Z.ltb_spec (epsize_val ep) cnt) as [?|_]; [lia|].
  destruct (bulk_out hw (length (sent w)) (out_frame d cnt ep))
    as [rc txcnt] eqn:Hout.
  assert (Hpush : sends w [out_frame d cnt ep] (push_frame (out_frame d cnt ep) w))
    by (split; reflexivity).
  destruct (Z.eqb_spec rc 0) as [->|Hrc]; cbn [negb].
  2:{ right; right. eexists; split; [reflexivity|]. split; [|done].
      intros [Ho _]. rewrite Ho in Hout. congruence. }
  destruct (Z.eqb_spec txcnt (epsize_val ep)) as [->|Htx]; cbn [negb].
  2:{ right; right. eexists; split; [reflexivity|]. split; [|done].
      intros [Ho _]. rewrite Ho in Hout. congruence. }
  set (w1 := push_frame _ w) in *.
  destruct (bulk_in hw (received w1)) as [rc2 rsp] eqn:Hin.
  destruct (Z.eqb_spec rc2 0) as [->|Hrc2].
  - rewrite (recv_ack_verdict hw w1 rsp Hin). unfold ack_verdict.
    case_bool_decide as Hrsp.
    + left. eexists; split; [reflexivity|]. destruct Hpush; split; done.
    + right; left. eexists; split; [reflexivity|]. split.
      * intros [_ Hi]. rewrite Hi in Hin. congruence.
      * destruct Hpush; split; done.
  - right; right. unfold printer_recv_ack, mbind, M_bind, recv_from_printer.
    rewrite Hin. destruct (Z.eqb_spec rc2 0) as [?|_]; [done|].
    eexists; split; [reflexivity|]. split.
    + intros [_ Hi]. rewrite Hi in Hin. congruence.
    + destruct Hpush; split; done.
Qed.

Lemma raster_block_exchange (blk : list Z) (blksize : Z) (w : world) :
  printer_raster_block hw blk blksize w =
    let blk' := <[3%nat := 0]> (<[2%nat := blksize]>
                  (<[1%nat := 0xFE]> (<[0%nat := PRINTER_STX]> blk))) in
    match exchange hw blk' (u8 (blksize + 4)) EPSIZE_64 w with
    | Ret rc w' => Ret (rc, blk') w'
    | Abort w' => Abort w'
    | Diverge => Diverge
    end.
Proof.
  unfold printer_raster_block, exchange, mbind, M_bind.
  destruct (send_to_printer _ _ _ _ w) as [a w1| |]; [|reflexivity..].
  destruct (printer_recv_ack hw w1); reflexivity.
Qed.

Lemma raster_block_out_frame (blk : list Z) (blksize : Z) :
  length blk = 64%nat → 1 ≤ blksize ≤ 60 →
  out_frame (<[3%nat := 0]> (<[2%nat := blksize]>
               (<[1%nat := 0xFE]> (<[0%nat := PRINTER_STX]> blk))))
            (u8 (blksize + 4)) EPSIZE_64
  = raster_block_frame (take (Z.to_nat blksize) (drop 4 blk)).
Proof.
  intros Hlen Hbs.
  destruct blk as [|b0 [|b1 [|b2 [|b3 rest]]]]; try (cbn in Hlen; lia).
  cbn [length] in Hlen. assert (Hrest : length rest = 60%nat) by lia.
  unfold out_frame, raster_block_frame, u8, KLG2_EPSIZE.
  rewrite Z.mod_small by lia.
  cbn [list_insert insert drop epsize_val].
  replace (Z.to_nat (blksize + 4)) with (S (S (S (S (Z.to_nat blksize))))) by lia.
  cbn [take app]. rewrite drop_0.
  rewrite length_take, Hrest, Nat.min_l by lia.
  replace (Z.to_nat (64 - (blksize + 4))) with (60 - Z.to_nat blksize)%nat by lia.
  change (Z.to_nat 64) with (4 + 60)%nat.
  cbn [Nat.add take]. rewrite Z2Nat.id by lia. do 4 f_equal.
  apply take_ge. rewrite length_app, length_take, length_replicate. lia.
Qed.

Lemma mod_succ_small (a m : Z) :
  0 < m → a mod m + 1 < m → (a + 1) mod m = a mod m + 1.
Proof.
  intros Hm Hlt. symmetry. apply (Z.mod_unique_pos _ _ (a / m)).
  - pose proof (Z.mod_pos_bound a m Hm). lia.
  - pose proof (Z.div_mod a m ltac:(lia)). lia.
Qed.

Lemma mod_succ_wrap (a m : Z) :
  0 < m → a mod m + 1 = m → (a + 1) mod m = 0.
Proof.
  intros Hm Heq. symmetry. apply (Z.mod_unique_pos _ _ (a / m + 1)).
  - lia.
  - pose proof (Z.div_mod a m ltac:(lia)). lia.
Qed.

(** The payload area grows by the byte just taken. *)
Lemma payload_extend (raw blk : list Z) (k : Z) (bs : nat) (b : Z) :
  length blk = 64%nat → (bs < 60)%nat → Z.of_nat bs ≤ k →
  raw !! Z.to_nat k = Some b →
  take bs (drop 4 blk) = take bs (drop (Z.to_nat (k - Z.of_nat bs)) raw) →
  take (S bs) (drop 4 (<[(4 + bs)%nat := b]> blk))
  = take (S bs) (drop (Z.to_nat (k + 1 - Z.of_nat (S bs))) raw).
Proof.
  intros Hlen Hbs Hk Hb Hpay.
  replace (Z.to_nat (k + 1 - Z.of_nat (S bs))) with (Z.to_nat (k - Z.of_nat bs)) by lia.
  set (o := Z.to_nat (k - Z.of_nat bs)) in *.
  assert (Hidx : Z.to_nat k = (o + bs)%nat) by (unfold o; lia).
  rewrite (take_S_r _ _ b).
  2:{ rewrite lookup_drop. apply list_lookup_insert_eq. lia. }
  rewrite (take_S_r (drop o raw) _ b).
  2:{ rewrite lookup_drop, <- Hidx. exact Hb. }
  f_equal. rewrite <- Hpay.
  rewrite drop_insert_ge by lia.
  rewrite take_insert_ge by lia. reflexivity.
Qed.

Lemma raster_iter_spec (raw : list Z) (n : Z) (v : raster_vars) (k : Z)
    (w : world) :
  n = Z.of_nat (length raw) → n < 2 ^ 32 → 0 ≤ k < n → raster_inv raw v k →
  match raster_iter hw raw n v w with
  | Ret (Continue v') w' =>
      sends w (emit raw n (k + 1)) w' ∧ sent_size v' = k + 1 ∧
      (k + 1 < n → raster_inv raw v' (k + 1)) ∧
      (print_page_frame ∈ emit raw n (k + 1) → page_size v' = 0)
  | Ret (Return rc) w' =>
      rc = 1 ∧ ¬ accepting hw ∧ ∃ j, sends w (take j (emit raw n (k + 1))) w'
  | Abort w' => ¬ accepting hw ∧ ∃ j, sends w (take j (emit raw n (k + 1))) w'
  | Diverge => False
  end.
Proof.
  intros Hn Hn32 Hk (Hss & Hps & Hbs & Hlen & Hpay).
  destruct v as [ss ps bs blk]; cbn [sent_size page_size block_size block] in *.
  subst ss.
  pose proof (Z.mod_pos_bound k 8192 ltac:(lia)) as HP.
  pose proof (Z.mod_pos_bound (k mod 8192) 60 ltac:(lia)) as HB.
  pose proof (Z.mod_le k 8192 ltac:(lia) ltac:(lia)) as HPk.
  pose proof (Z.mod_le (k mod 8192) 60 ltac:(lia) ltac:(lia)) as HBP.
  rewrite <- Hps, <- Hbs in *.
  destruct (lookup_lt_is_Some_2 raw (Z.to_nat k) ltac:(lia)) as [b Hb].
  unfold raster_iter, read_raw, store, mbind, M_bind, mret, M_ret.
  cbn [sent_size page_size block_size block].
  rewrite Hb. unfold u32, u8.
  rewrite !(Z.mod_small (4 + bs)), !(Z.mod_small (bs + 1)),
    !(Z.mod_small (k + 1)), !(Z.mod_small (ps + 1)) by lia.
  rewrite Hlen.
  destruct (Z.ltb_spec (4 + bs) (Z.of_nat 64)) as [_|?]; [|lia].
  unfold emit, page_fill, block_fill.
  replace (k + 1 - 1) with k by lia. rewrite <- Hps, <- Hbs.
  set (blk1 := <[Z.to_nat (4 + bs) := b]> blk).
  assert (Hlen1 : length blk1 = 64%nat) by (unfold blk1; by rewrite length_insert).
  assert (Hpay1 : take (Z.to_nat (bs + 1)) (drop 4 blk1)
                  = take (Z.to_nat (bs + 1)) (drop (Z.to_nat (k + 1 - (bs + 1))) raw)).
  { unfold blk1.
    replace (Z.to_nat (bs + 1)) with (S (Z.to_nat bs)) by lia.
    replace (Z.to_nat (4 + bs)) with (4 + Z.to_nat bs)%nat by lia.
    replace (k + 1 - (bs + 1)) with (k + 1 - Z.of_nat (S (Z.to_nat bs))) by lia.
    apply payload_extend; try lia; [done|].
    rewrite Z2Nat.id by lia. exact Hpay. }
  destruct ((bs + 1 =? 60) || (ps + 1 =? 8192) || (k + 1 =? n)) eqn:Hflush.
  2:{ (* no flush *)
    apply orb_false_elim in Hflush as [Hflush Hfn].
    apply orb_false_elim in Hflush as [Hfb Hfp].
    apply Z.eqb_neq in Hfn, Hfb, Hfp.
    split; [apply sends_refl|]. split; [reflexivity|].
    split; [|by intros ?%elem_of_nil]. intros _.
    unfold raster_inv; cbn [sent_size page_size block_size block].
    assert (Hps' : (k + 1) mod 8192 = ps + 1)
      by (rewrite Hps; apply mod_succ_small; lia).
    rewrite Hps'.
    assert (Hbs' : (ps + 1) mod 60 = bs + 1)
      by (rewrite Hbs; apply mod_succ_small; lia).
    rewrite Hbs'. done. }
  rewrite raster_block_exchange. cbv zeta.
  set (blk2 := <[3%nat := 0]> _).
  assert (Hlen2 : length blk2 = 64%nat)
    by (unfold blk2; by rewrite !length_insert).
  assert (Hframe : out_frame blk2 (u8 (bs + 1 + 4)) EPSIZE_64
                   = raster_block_frame
                       (take (Z.to_nat (bs + 1))
                             (drop (Z.to_nat (k + 1 - (bs + 1))) raw))).
  { unfold blk2. rewrite raster_block_out_frame by (done || lia).
    by rewrite Hpay1. }
  set (f := raster_block_frame _) in *.
  assert (Hinv0 : k + 1 < n → (bs + 1 = 60 ∨ ps + 1 = 8192) →
            raster_inv raw {| sent_size := k + 1;
                              page_size := (k + 1) mod 8192;
                              block_size := 0; block := blk2 |} (k + 1)).
  { intros _ Hwhy. unfold raster_inv; cbn [sent_size page_size block_size block].
    repeat split; [|done].
    destruct (Z.eq_dec (ps + 1) 8192) as [Hp|Hp].
    - rewrite Hps in Hp. by rewrite (mod_succ_wrap k 8192) by lia.
    - rewrite (mod_succ_small k 8192) by lia. rewrite <- Hps.
      symmetry. apply mod_succ_wrap; lia. }
  destruct (exchange_cases blk2 (u8 (bs + 1 + 4)) EPSIZE_64 w)
    as [(w1 & Hx & Hs1) | [(w1 & Hx & Hna & Hs1) | (w1 & Hx & Hna & Hs1)]];
    [unfold u8; rewrite Z.mod_small by lia; cbn; lia
    |unfold u8; rewrite Z.mod_small by lia; lia
    | | |]; rewrite Hx; rewrite Hframe in Hs1; cbn [Z.eqb negb].
  2:{ split; [done|]. split; [done|]. by exists 1%nat. }
  2:{ split; [done|]. by exists 1%nat. }
  change (printer_raster_end hw) with (exchange hw [PRINTER_STX; 0x04] 2 EPSIZE_16).
  change (printer_print_page hw) with (exchange hw [0x0C] 1 EPSIZE_1).
  destruct (Z.eqb_spec (k + 1) n) as [Hend|Hend].
  - rewrite orb_true_r.
    destruct (exchange_cases [PRINTER_STX; 0x04] 2 EPSIZE_16 w1)
      as [(w2 & Hx2 & Hs2) | [(w2 & Hx2 & Hna & Hs2) | (w2 & Hx2 & Hna & Hs2)]];
      [cbn; lia|cbn; lia| | |]; rewrite Hx2; cbn [Z.eqb negb];
      pose proof (sends_trans _ _ _ _ _ Hs1 Hs2) as Hs12.
    2:{ split; [done|]. split; [done|]. by exists 2%nat. }
    2:{ split; [done|]. by exists 2%nat. }
    destruct (exchange_cases [0x0C] 1 EPSIZE_1 w2)
      as [(w3 & Hx3 & Hs3) | [(w3 & Hx3 & Hna & Hs3) | (w3 & Hx3 & Hna & Hs3)]];
      [cbn; lia|cbn; lia| | |]; rewrite Hx3; cbn [Z.eqb negb];
      pose proof (sends_trans _ _ _ _ _ Hs12 Hs3) as Hs123.
    + split; [done|]. split; [done|]. split; [lia|done].
    + split; [done|]. split; [done|]. by exists 3%nat.
    + split; [done|]. by exists 3%nat.
  - cbn [negb Z.eqb]. rewrite orb_false_r in *.
    destruct (Z.eqb_spec (ps + 1) 8192) as [Hp|Hp].
    + destruct (exchange_cases [0x0C] 1 EPSIZE_1 w1)
        as [(w3 & Hx3 & Hs3) | [(w3 & Hx3 & Hna & Hs3) | (w3 & Hx3 & Hna & Hs3)]];
        [cbn; lia|cbn; lia| | |]; rewrite Hx3; cbn [Z.eqb negb];
        pose proof (sends_trans _ _ _ _ _ Hs1 Hs3) as Hs13.
      * split; [done|]. split; [done|]. split; [|done]. intros Hlt.
        specialize (Hinv0 Hlt (or_intror Hp)).
        rewrite Hps in Hp. by rewrite (mod_succ_wrap k 8192) in Hinv0 by lia.
      * split; [done|]. split; [done|]. by exists 2%nat.
      * split; [done|]. by exists 2%nat.
    + rewrite orb_false_r in Hflush. apply Z.eqb_eq in Hflush.
      split; [done|]. split; [done|]. split.
      * intros Hlt. specialize (Hinv0 Hlt (or_introl Hflush)).
        rewrite Hps in Hp. rewrite (mod_succ_small k 8192) in Hinv0 by lia.
        by rewrite Hps.
      * unfold f. intros [He|[]%elem_of_nil]%elem_of_cons. discriminate He.
Qed.

Lemma raster_loop_unfold (fuel : nat) (raw : list Z) (n : Z) (v : raster_vars) :
  raster_loop hw fuel raw n v =
    (f ← raster_iter hw raw n v;
     match f with
     | Return rc => mret rc
     | Continue v' =>
         if sent_size v' <? n then
           match fuel with
           | O => diverge
           | S fuel' => raster_loop hw fuel' raw n v'
           end
         else mret 0
     end).
Proof. destruct fuel; reflexivity. Qed.

Lemma take_of_prefix {A} (fs gs : list A) (j : nat) :
  ∃ j', take j fs = take j' (fs ++ gs).
Proof.
  exists (j `min` length fs)%nat.
  rewrite take_app_le by lia.
  destruct (Nat.le_gt_cases j (length fs)).
  - by rewrite Nat.min_l.
  - rewrite Nat.min_r, !take_ge by lia. done.
Qed.

Lemma plays_after (w w1 : world) (fs gs : list (list Z)) (o : outcome Z) :
  sends w fs w1 → plays hw w1 gs o → plays hw w (fs ++ gs) o.
Proof.
  intros Hs Hp.
  assert (Hstop : ∀ w', (∃ j, sends w1 (take j gs) w') →
                        ∃ j, sends w (take j (fs ++ gs)) w').
  { intros w' [j Hj]. exists (length fs + j)%nat.
    rewrite take_app_add. eapply sends_trans; eauto. }
  destruct o as [rc w'|w'|]; cbn in *; [|destruct Hp; eauto|done].
  destruct Hp as [[-> Hp]|(-> & Hna & Hp)].
  - left. split; [done|]. eapply sends_trans; eauto.
  - right. eauto.
Qed.

Lemma raster_loop_plays (raw : list Z) (n : Z) :
  n = Z.of_nat (length raw) → n < 2 ^ 32 →
  ∀ (m fuel : nat) (k : Z) (v : raster_vars) (w : world),
    0 ≤ k → k + Z.of_nat (S m) = n → (m ≤ fuel)%nat → raster_inv raw v k →
    plays hw w (traffic_from raw n k (S m)) (raster_loop hw fuel raw n v w).
Proof.
  intros Hn Hn32. induction m as [|m IH]; intros fuel k v w Hk Hkm Hfuel Hinv.
  all: rewrite raster_loop_unfold; unfold mbind, M_bind.
  all: pose proof (raster_iter_spec raw n v k w Hn Hn32 ltac:(lia) Hinv) as Hit.
  all: destruct (raster_iter hw raw n v w) as [[v'|rc] w'|w'|]; [| | |done].
  all: cbn [traffic_from].
  - destruct Hit as (Hs & Hss & _). rewrite Hss.
    destruct (Z.ltb_spec (k + 1) n) as [?|_]; [lia|].
    left. by rewrite app_nil_r.
  - destruct Hit as (-> & Hna & j & Hj). right. split; [done|]. split; [done|].
    destruct (take_of_prefix (emit raw n (k + 1)) [] j) as [j' Hj'].
    exists j'. by rewrite <- Hj'.
  - destruct Hit as (Hna & j & Hj). split; [done|].
    destruct (take_of_prefix (emit raw n (k + 1)) [] j) as [j' Hj'].
    exists j'. by rewrite <- Hj'.
  - destruct Hit as (Hs & Hss & Hinv' & _). rewrite Hss.
    destruct (Z.ltb_spec (k + 1) n) as [Hlt|?]; [|lia].
    destruct fuel as [|fuel]; [lia|].
    eapply plays_after; [exact Hs|].
    apply IH; [lia|lia|lia|auto].
  - destruct Hit as (-> & Hna & j & Hj). right. split; [done|]. split; [done|].
    destruct (take_of_prefix (emit raw n (k + 1))
                (emit raw n (k + 1 + 1) ++ traffic_from raw n (k + 1 + 1) m) j)
      as [j' Hj'].
    exists j'. by rewrite <- Hj'.
  - destruct Hit as (Hna & j & Hj). split; [done|].
    destruct (take_of_prefix (emit raw n (k + 1))
                (emit raw n (k + 1 + 1) ++ traffic_from raw n (k + 1 + 1) m) j)
      as [j' Hj'].
    exists j'. by rewrite <- Hj'.
Qed.

(** A transfer of a non-empty pattern plays [raster_traffic]. *)
Lemma printer_send_raster_plays (raw : list Z) (w : world) :
  raw ≠ [] → Z.of_nat (length raw) < 2 ^ 32 →
  plays hw w (raster_traffic raw)
        (printer_send_raster hw raw (Z.of_nat (length raw)) w).
Proof.
  intros Hne H32. unfold printer_send_raster, raster_traffic.
  rewrite Nat2Z.id.
  destruct raw as [|b raw']; [done|]. cbn [length] in *.
  apply (raster_loop_plays (b :: raw') (Z.of_nat (S (length raw'))));
    [done|lia|lia|lia|lia|].
  unfold raster_inv; cbn [sent_size page_size block_size block].
  repeat split.
Qed.

(** An empty pattern: one pass, a read past the buffer, no frame. *)
Lemma printer_send_raster_empty (w : world) :
  printer_send_raster hw [] 0 w =
    Ret 0 {| sent := sent w; received := received w;
             faults := faults w ++ [OobRead 0] |}.
Proof. reflexivity. Qed.

(** With a host that takes and acknowledges everything the transfer
    runs to its end. *)
Lemma printer_send_raster_accepted (raw : list Z) (w : world) :
  raw ≠ [] → Z.of_nat (length raw) < 2 ^ 32 → accepting hw →
  ∃ w', printer_send_raster hw raw (Z.of_nat (length raw)) w = Ret 0 w'
        ∧ sends w (raster_traffic raw) w'.
Proof.
  intros Hne H32 Hacc.
  pose proof (printer_send_raster_plays raw w Hne H32) as Hp.
  destruct (printer_send_raster _ _ _ w) as [rc w'|w'|]; cbn in Hp;
    [|by destruct Hp|done].
  destruct Hp as [[-> Hs]|(_ & Hna & _)]; [eauto|done].
Qed.

End Traffic.

(** ** Shape of the raster traffic *)

Lemma block_fill_bounds (k : Z) : 1 ≤ k → 1 ≤ block_fill k ≤ 60 ∧ block_fill k ≤ k.
Proof.
  intros Hk. unfold block_fill.
  pose proof (Z.mod_pos_bound (k - 1) 8192 ltac:(lia)).
  pose proof (Z.mod_pos_bound ((k - 1) mod 8192) 60 ltac:(lia)).
  pose proof (Z.mod_le (k - 1) 8192 ltac:(lia) ltac:(lia)).
  pose proof (Z.mod_le ((k - 1) mod 8192) 60 ltac:(lia) ltac:(lia)).
  lia.
Qed.

Lemma block_frame_size (p : list Z) :
  block_payload_size (raster_block_frame p) = Some (Z.of_nat (length p)).
Proof. reflexivity. Qed.

Lemma block_frame_not_page (p : list Z) : raster_block_frame p ≠ print_page_frame.
Proof. discriminate. Qed.

Lemma block_frame_not_end (p : list Z) : raster_block_frame p ≠ raster_end_frame.
Proof. discriminate. Qed.

Lemma block_frame_not_cancel (p : list Z) : raster_block_frame p ≠ cancel_frame.
Proof. discriminate. Qed.

Lemma count_frame_app (f : list Z) (fs gs : list (list Z)) :
  count_frame f (fs ++ gs) = (count_frame f fs + count_frame f gs)%nat.
Proof. unfold count_frame. by rewrite filter_app, length_app. Qed.

Lemma count_frame_cons (f g : list Z) (fs : list (list Z)) :
  count_frame f (g :: fs) =
    ((if decide (g = f) then 1 else 0) + count_frame f fs)%nat.
Proof. unfold count_frame. rewrite filter_cons. by destruct (decide (g = f)). Qed.

Lemma raster_frame_size (f : list Z) (size : Z) :
  raster_frame f → block_payload_size f = Some size →
  1 ≤ size ≤ 60 ∧ ∃ p, f = raster_block_frame p ∧ Z.of_nat (length p) = size.
Proof.
  intros [(p & -> & Hp)|[->| ->]]; [|discriminate..].
  rewrite block_frame_size. intros [= <-]. split; [lia|by exists p].
Qed.

Lemma raster_frame_not_cancel (f : list Z) : raster_frame f → f ≠ cancel_frame.
Proof. intros [(p & -> & _)|[->| ->]]; discriminate. Qed.

Lemma page_step (k : Z) :
  0 ≤ k →
  (k + 1) / 8192 - k / 8192 = if page_fill (k + 1) =? 8192 then 1 else 0.
Proof.
  intros Hk. unfold page_fill. replace (k + 1 - 1) with k by lia.
  pose proof (Z.div_mod k 8192 ltac:(lia)) as Hd.
  pose proof (Z.mod_pos_bound k 8192 ltac:(lia)) as Hb.
  destruct (Z.eqb_spec (k mod 8192 + 1) 8192) as [He|He].
  - replace (k + 1) with ((k / 8192 + 1) * 8192) by lia.
    rewrite Z.div_mul by lia. lia.
  - replace (k + 1) with (k / 8192 * 8192 + (k mod 8192 + 1)) by lia.
    rewrite Z.div_add_l by lia. rewrite (Z.div_small (k mod 8192 + 1)) by lia.
    lia.
Qed.

Lemma block_payload_frame (p : list Z) :
  block_payload (raster_block_frame p) = p.
Proof.
  unfold raster_block_frame, block_payload. cbn [app].
  rewrite Nat2Z.id. apply take_app_length.
Qed.

Lemma final_block_fill (n : Z) :
  1 ≤ n →
  block_fill n = (if page_fill n mod 60 =? 0 then 60 else page_fill n mod 60)
  ∧ (n ≤ 8192 → block_fill n = if n mod 60 =? 0 then 60 else n mod 60).
Proof.
  intros Hn1. unfold block_fill, page_fill.
  pose proof (Z.mod_pos_bound (n - 1) 8192 ltac:(lia)) as HP.
  set (l := (n - 1) mod 8192) in *.
  pose proof (Z.mod_pos_bound l 60 ltac:(lia)) as HB.
  assert (Hl : l mod 60 + 1 = if (l + 1) mod 60 =? 0 then 60 else (l + 1) mod 60).
  { destruct (Z.eq_dec (l mod 60 + 1) 60) as [He|He].
    - rewrite (mod_succ_wrap l 60) by lia. done.
    - rewrite (mod_succ_small l 60) by lia.
      destruct (Z.eqb_spec (l mod 60 + 1) 0); lia. }
  split; [done|]. intros Hsmall.
  assert (l = n - 1) as Hln by (unfold l; apply Z.mod_small; lia).
  rewrite Hl, Hln. by replace (n - 1 + 1) with n by lia.
Qed.

Section Shape.

Variables (raw : list Z) (n : Z).
Hypothesis Hn : n = Z.of_nat (length raw).

Lemma emit_payload_length (k : Z) :
  1 ≤ k ≤ n →
  Z.of_nat (length (take (Z.to_nat (block_fill k))
                         (drop (Z.to_nat (k - block_fill k)) raw)))
  = block_fill k.
Proof.
  intros Hk. pose proof (block_fill_bounds k ltac:(lia)).
  rewrite length_take, length_drop. lia.
Qed.

(** The last byte flushes the block, ends the raster and prints. *)
Lemma emit_last :
  1 ≤ n →
  emit raw n n =
    [raster_block_frame (take (Z.to_nat (block_fill n))
                              (drop (Z.to_nat (n - block_fill n)) raw));
     raster_end_frame; print_page_frame].
Proof.
  intros _. unfold emit. rewrite Z.eqb_refl, !orb_true_r. reflexivity.
Qed.

(** Before the last byte only blocks and page ends go out. *)
Lemma emit_inner (k : Z) :
  1 ≤ k < n →
  emit raw n k =
    if (block_fill k =? 60) || (page_fill k =? 8192) then
      raster_block_frame (take (Z.to_nat (block_fill k))
                               (drop (Z.to_nat (k - block_fill k)) raw))
      :: (if page_fill k =? 8192 then [print_page_frame] else [])
    else [].
Proof.
  intros Hk. unfold emit.
  destruct (Z.eqb_spec k n) as [?|_]; [lia|].
  by rewrite !orb_false_r.
Qed.

Lemma traffic_from_snoc (k : Z) (m : nat) :
  traffic_from raw n k (S m) =
    traffic_from raw n k m ++ emit raw n (k + Z.of_nat m + 1).
Proof.
  revert k. induction m as [|m IH]; intros k.
  - cbn [traffic_from]. rewrite app_nil_r. cbn. f_equal. lia.
  - change (traffic_from raw n k (S (S m)))
      with (emit raw n (k + 1) ++ traffic_from raw n (k + 1) (S m)).
    rewrite IH. cbn [traffic_from]. rewrite <- app_assoc.
    do 3 f_equal. lia.
Qed.

Lemma emit_frames (k : Z) (f : list Z) :
  1 ≤ k ≤ n → f ∈ emit raw n k → raster_frame f.
Proof.
  intros Hk. unfold emit.
  pose proof (emit_payload_length k Hk) as Hl.
  pose proof (block_fill_bounds k ltac:(lia)) as Hb.
  destruct (_ || _); [|by intros ?%elem_of_nil].
  rewrite elem_of_cons, elem_of_app. intros [->|[Hf|Hf]].
  - left. eexists; split; [reflexivity|]. lia.
  - destruct (k =? n); [|by apply elem_of_nil in Hf].
    apply list_elem_of_singleton in Hf as ->. right; by left.
  - destruct (_ || _); [|by apply elem_of_nil in Hf].
    apply list_elem_of_singleton in Hf as ->. right; by right.
Qed.

Lemma traffic_from_frames (m : nat) (k : Z) (f : list Z) :
  0 ≤ k → k + Z.of_nat m ≤ n → f ∈ traffic_from raw n k m → raster_frame f.
Proof.
  revert k. induction m as [|m IH]; intros k Hk Hkm; cbn [traffic_from].
  - by intros ?%elem_of_nil.
  - rewrite elem_of_app. intros [Hf|Hf].
    + apply (emit_frames (k + 1)); [lia|done].
    + apply (IH (k + 1)); [lia|lia|done].
Qed.

Lemma raster_traffic_split :
  1 ≤ n →
  raster_traffic raw =
    traffic_from raw n 0 (length raw - 1)
    ++ [raster_block_frame (take (Z.to_nat (block_fill n))
                                 (drop (Z.to_nat (n - block_fill n)) raw));
        raster_end_frame; print_page_frame].
Proof.
  intros Hn1. unfold raster_traffic. rewrite <- Hn.
  destruct (length raw) as [|m] eqn:Hlen; [lia|].
  rewrite traffic_from_snoc.
  replace (S m - 1)%nat with m by lia.
  replace (0 + Z.of_nat m + 1) with n by lia.
  by rewrite emit_last.
Qed.

Lemma inner_no_end (m : nat) (k : Z) :
  0 ≤ k → k + Z.of_nat m < n →
  count_frame raster_end_frame (traffic_from raw n k m) = 0%nat.
Proof.
  revert k. induction m as [|m IH]; intros k Hk Hkm; [done|].
  cbn [traffic_from]. rewrite count_frame_app, IH by lia.
  rewrite emit_inner by lia.
  destruct (_ || _); [|done].
  rewrite count_frame_cons. destruct (decide _) as [He|_].
  { by apply block_frame_not_end in He. }
  by destruct (page_fill (k + 1) =? 8192).
Qed.

Lemma inner_page_count (m : nat) (k : Z) :
  0 ≤ k → k + Z.of_nat m < n →
  Z.of_nat (count_frame print_page_frame (traffic_from raw n k m))
  = (k + Z.of_nat m) / 8192 - k / 8192.
Proof.
  revert k. induction m as [|m IH]; intros k Hk Hkm.
  { cbn. rewrite Z.add_0_r. lia. }
  cbn [traffic_from]. rewrite count_frame_app, Nat2Z.inj_add, IH by lia.
  replace (k + 1 + Z.of_nat m) with (k + Z.of_nat (S m)) by lia.
  pose proof (page_step k Hk) as Hstep.
  rewrite emit_inner by lia.
  destruct (page_fill (k + 1) =? 8192) eqn:Hp.
  - rewrite orb_true_r, count_frame_cons.
    destruct (decide _) as [He|_]; [by apply block_frame_not_page in He|].
    change (count_frame print_page_frame [print_page_frame]) with 1%nat. lia.
  - rewrite orb_false_r.
    change (count_frame print_page_frame []) with 0%nat.
    destruct (block_fill (k + 1) =? 60).
    + rewrite count_frame_cons.
      destruct (decide _) as [He|_]; [by apply block_frame_not_page in He|].
      change (count_frame print_page_frame []) with 0%nat. lia.
    + change (count_frame print_page_frame []) with 0%nat. lia.
Qed.

(** Number of page ends of a whole transfer. *)
Lemma raster_traffic_pages :
  1 ≤ n →
  Z.of_nat (count_frame print_page_frame (raster_traffic raw)) = ceil_div n 8192.
Proof.
  intros Hn1. rewrite raster_traffic_split by done.
  rewrite count_frame_app, Nat2Z.inj_add, inner_page_count by lia.
  rewrite count_frame_cons.
  destruct (decide _) as [He|_]; [by apply block_frame_not_page in He|].
  change (Z.of_nat (0 + count_frame print_page_frame
                          [raster_end_frame; print_page_frame])) with 1.
  unfold ceil_div.
  replace (0 + Z.of_nat (length raw - 1)) with (n - 1) by lia.
  replace (n + 8192 - 1) with (n - 1 + 1 * 8192) by lia.
  rewrite Z.div_add by lia. change (0 / 8192) with 0. lia.
Qed.

Lemma raster_traffic_one_end :
  1 ≤ n → count_frame raster_end_frame (raster_traffic raw) = 1%nat.
Proof.
  intros Hn1. rewrite raster_traffic_split by done.
  rewrite count_frame_app, inner_no_end by lia.
  rewrite count_frame_cons.
  destruct (decide _) as [He|_]; [by apply block_frame_not_end in He|].
  reflexivity.
Qed.

Lemma raster_traffic_frames (f : list Z) :
  f ∈ raster_traffic raw → raster_frame f.
Proof.
  unfold raster_traffic. rewrite <- Hn.
  apply (traffic_from_frames (length raw) 0); lia.
Qed.

Lemma payload_emit_inner (k : Z) :
  0 ≤ k → k + 1 < n →
  take (Z.to_nat (k - (k mod 8192) mod 60)) raw
    ++ concat (block_payload <$> emit raw n (k + 1))
  = take (Z.to_nat (k + 1 - ((k + 1) mod 8192) mod 60)) raw.
Proof.
  intros Hk Hlt.
  pose proof (Z.mod_pos_bound k 8192 ltac:(lia)) as HP.
  pose proof (Z.mod_pos_bound (k mod 8192) 60 ltac:(lia)) as HB.
  pose proof (Z.mod_le k 8192 ltac:(lia) ltac:(lia)) as HPk.
  pose proof (Z.mod_le (k mod 8192) 60 ltac:(lia) ltac:(lia)) as HBP.
  rewrite emit_inner by lia. unfold block_fill, page_fill.
  replace (k + 1 - 1) with k by lia.
  set (ps := k mod 8192) in *. set (bs := ps mod 60) in *.
  assert (Hflushed : bs + 1 = 60 ∨ ps + 1 = 8192 → ((k + 1) mod 8192) mod 60 = 0).
  { intros Hwhy. destruct (Z.eq_dec (ps + 1) 8192) as [Hp|Hp].
    - by rewrite (mod_succ_wrap k 8192) by done.
    - rewrite (mod_succ_small k 8192) by (fold ps; lia). fold ps.
      apply mod_succ_wrap; [lia|]. fold bs. lia. }
  assert (Hjoin : take (Z.to_nat (k - bs)) raw
                  ++ take (Z.to_nat (bs + 1)) (drop (Z.to_nat (k + 1 - (bs + 1))) raw)
                  = take (Z.to_nat (k + 1)) raw).
  { replace (k + 1 - (bs + 1)) with (k - bs) by lia.
    rewrite take_take_drop. f_equal. lia. }
  destruct (Z.eqb_spec (bs + 1) 60) as [Hb|Hb];
    destruct (Z.eqb_spec (ps + 1) 8192) as [Hp|Hp]; cbn [orb].
  1-3: rewrite Hflushed by lia; rewrite Z.sub_0_r.
  1-3: rewrite fmap_cons, concat_cons, block_payload_frame.
  - by rewrite app_nil_r.
  - by rewrite app_nil_r.
  - by rewrite app_nil_r.
  - cbn [fmap list_fmap concat]. rewrite app_nil_r.
    rewrite (mod_succ_small k 8192) by (fold ps; lia). fold ps.
    rewrite (mod_succ_small ps 60) by (fold bs; lia). fold bs.
    f_equal. lia.
Qed.

Lemma inner_payload (m : nat) :
  Z.of_nat m < n →
  concat (block_payload <$> traffic_from raw n 0 m)
  = take (Z.to_nat (Z.of_nat m - (Z.of_nat m mod 8192) mod 60)) raw.
Proof.
  induction m as [|m IH]; intros Hm; [done|].
  rewrite traffic_from_snoc, fmap_app, concat_app, IH by lia.
  replace (0 + Z.of_nat m + 1) with (Z.of_nat m + 1) by lia.
  rewrite payload_emit_inner by lia. do 2 f_equal. lia.
Qed.

(** The blocks of a whole transfer carry the pattern, byte for byte. *)
Lemma raster_traffic_payload :
  1 ≤ n → concat (block_payload <$> raster_traffic raw) = raw.
Proof.
  intros Hn1. rewrite raster_traffic_split by done.
  rewrite fmap_app, concat_app, inner_payload by lia.
  rewrite fmap_cons, concat_cons, block_payload_frame.
  cbn [fmap list_fmap concat block_payload raster_end_frame print_page_frame
       PRINTER_STX app]. rewrite app_nil_r.
  unfold block_fill.
  replace (Z.of_nat (length raw - 1)) with (n - 1) by lia.
  pose proof (Z.mod_pos_bound (n - 1) 8192 ltac:(lia)) as HP.
  pose proof (Z.mod_pos_bound ((n - 1) mod 8192) 60 ltac:(lia)) as HB.
  pose proof (Z.mod_le (n - 1) 8192 ltac:(lia) ltac:(lia)) as HPk.
  pose proof (Z.mod_le ((n - 1) mod 8192) 60 ltac:(lia) ltac:(lia)) as HBP.
  set (bs := ((n - 1) mod 8192) mod 60) in *.
  replace (n - (bs + 1)) with (n - 1 - bs) by lia.
  rewrite take_take_drop.
  apply take_ge. lia.
Qed.

End Shape.

(** ** What a run adds to the log *)

Lemma sends_new_frames {A} (w w' : world) (fs : list (list Z)) (o : outcome A) :
  world_of o w = w' → sends w fs w' → new_frames w o = fs.
Proof.
  intros Hw [Hs _]. unfold new_frames. rewrite Hw, Hs. apply drop_app_length.
Qed.

Lemma plays_new_frames (hw : host) (w : world) (script : list (list Z))
    (o : outcome Z) :
  plays hw w script o →
  (∃ j, new_frames w o = take j script) ∧
  faults (world_of o w) = faults w ∧
  (returned o = Some 0 → new_frames w o = script) ∧
  (accepting hw → returned o = Some 0).
Proof.
  destruct o as [rc w'|w'|]; cbn [plays]; [| |done].
  - intros [[-> Hs]|(-> & Hna & j & Hs)].
    + rewrite (sends_new_frames w w' script) by done.
      split; [|by destruct Hs]. exists (length script). by rewrite take_ge.
    + rewrite (sends_new_frames w w' (take j script)) by done.
      split; [by exists j|]. split; [by destruct Hs|]. split; [discriminate|done].
  - intros (Hna & j & Hs).
    rewrite (sends_new_frames w w' (take j script)) by done.
    split; [by exists j|]. split; [by destruct Hs|]. split; [discriminate|done].
Qed.

Lemma exchange_verdict (hw : host) (d : list Z) (cnt : Z) (ep : EPSIZE_T)
    (w : world) (rsp : list Z) :
  0 ≤ cnt ≤ epsize_val ep → (Z.to_nat cnt ≤ length d)%nat →
  (∀ f, bulk_out hw (length (sent w)) f = (0, Z.of_nat (length f))) →
  bulk_in hw (received w) = (0, rsp) →
  returned (exchange hw d cnt ep w) = Some (ack_verdict rsp).
Proof.
  intros Hc Hd Hout Hin.
  unfold exchange, mbind, M_bind, send_to_printer.
  destruct (Z.ltb_spec (epsize_val ep) cnt) as [?|_]; [lia|].
  rewrite Hout, (out_frame_length d cnt ep Hc Hd).
  rewrite !Z.eqb_refl. cbn [negb].
  by rewrite (recv_ack_verdict hw _ rsp).
Qed.

(** ** The claims on commands and on raster streaming *)

(** C8. The validator shared by the ACK-only commands,
    [printer_recv_ack], returns 0 when the answer is the single byte
    0x06 and returns 1 (a recoverable error, the process goes on) for
    any other byte and for any other length; so does every ACK-only
    command whose frame the host has taken. *)
Theorem ack_only_validation (hw : host) (w : world) (rsp : list Z) :
  bulk_in hw (received w) = (0, rsp) →
  returned (printer_recv_ack hw w) = Some (ack_verdict rsp)
  ∧ (ack_verdict rsp = 0 ↔ rsp = [0x06])
  ∧ (ack_verdict rsp = 1 ↔ rsp ≠ [0x06])
  ∧ ((∀ f, bulk_out hw (length (sent w)) f = (0, Z.of_nat (length f))) →
     ∀ c, returned (run_ack_command hw c w) = Some (ack_verdict rsp)).
Proof.
  intros Hin. split; [by rewrite (recv_ack_verdict hw w rsp)|].
  split; [|split].
  - unfold ack_verdict, PRINTER_ACK. case_bool_decide; split; done.
  - unfold ack_verdict, PRINTER_ACK. case_bool_decide; split; done.
  - intros Hout c.
    destruct c as [| | | | |t|m|d|c|a| |]; cbn [run_ack_command];
      (apply exchange_verdict; [cbn; lia|cbn; lia|done|done]).
Qed.

Lemma ack_only_validation_witness :
  returned (printer_recv_ack ack_host boot) = Some 0
  ∧ returned (printer_recv_ack (printer_host (λ _, [PRINTER_NAK])) boot) = Some 1
  ∧ returned (printer_recv_ack (printer_host (λ _, [0x06; 0x06])) boot) = Some 1
  ∧ returned (printer_recv_ack (printer_host (λ _, [])) boot) = Some 1.
Proof.
  split; [|split; [|split]].
  - apply (ack_only_validation ack_host boot [0x06]). reflexivity.
  - apply (ack_only_validation (printer_host (λ _, [PRINTER_NAK])) boot [0x1E]).
    reflexivity.
  - apply (ack_only_validation (printer_host (λ _, [0x06; 0x06])) boot [0x06; 0x06]).
    reflexivity.
  - apply (ack_only_validation (printer_host (λ _, [])) boot []). reflexivity.
Defined.

(** C9. The frame that [printer_set_margin] builds for the small margin
    is 02 0D 01 00 40 followed by zeros up to 16 bytes; these 16 bytes
    are what is handed to the OUT endpoint, and the call goes on to the
    answer only if the host reports 16 bytes transferred. *)
Theorem margin_small_frame (hw : host) (w : world) :
  let frame := [0x02; 0x0D; 0x01; 0x00; 0x40; 0; 0; 0; 0; 0; 0; 0; 0; 0; 0; 0] in
  new_frames w (printer_set_margin hw MARGINCODE_SMALL w) = [frame]
  ∧ length frame = 16%nat
  ∧ ∀ rc w', printer_set_margin hw MARGINCODE_SMALL w = Ret rc w' →
             (bulk_out hw (length (sent w)) frame).2 = 16.
Proof.
  intros frame. split; [|split; [reflexivity|]].
  - change (printer_set_margin hw MARGINCODE_SMALL)
      with (exchange hw [0x02; 0x0D; 0x01; 0x00; 0x40] 5 EPSIZE_16).
    destruct (exchange_cases hw [0x02; 0x0D; 0x01; 0x00; 0x40] 5 EPSIZE_16 w)
      as [(w1 & Hx & Hs) | [(w1 & Hx & _ & Hs) | (w1 & Hx & _ & Hs)]];
      [cbn; lia|cbn; lia| | |]; rewrite Hx;
      by apply (sends_new_frames w w1).
  - intros rc w'.
    unfold printer_set_margin, mbind, M_bind, send_to_printer.
    cbn [epsize_val Z.ltb Z.compare Pos.compare Pos.compare_cont].
    change (out_frame _ 5 EPSIZE_16) with frame.
    destruct (bulk_out hw (length (sent w)) frame) as [rc0 txcnt].
    destruct (Z.eqb_spec rc0 0); [|done]. cbn [negb].
    destruct (Z.eqb_spec txcnt 16); [|done]. done.
Qed.

Lemma margin_small_frame_witness :
  new_frames boot (printer_set_margin ack_host MARGINCODE_SMALL boot)
  = [[0x02; 0x0D; 0x01; 0x00; 0x40; 0; 0; 0; 0; 0; 0; 0; 0; 0; 0; 0]]
  ∧ (bulk_out ack_host 0
       [0x02; 0x0D; 0x01; 0x00; 0x40; 0; 0; 0; 0; 0; 0; 0; 0; 0; 0; 0]).2 = 16.
Proof.
  destruct (margin_small_frame ack_host boot) as (Hframe & _ & Htx).
  split; [exact Hframe|].
  apply (Htx 0 {| sent := [[0x02; 0x0D; 0x01; 0x00; 0x40;
                            0; 0; 0; 0; 0; 0; 0; 0; 0; 0; 0]];
                  received := 1; faults := [] |}).
  reflexivity.
Defined.

(** The tape table of [printer_get_tape]: byte 4 of a five-byte answer
    selects the tape, any other byte means no tape, any other length is
    an error. *)
Lemma get_tape_table (hw : host) (w : world) (rsp : list Z) :
  (∀ f, bulk_out hw (length (sent w)) f = (0, Z.of_nat (length f))) →
  bulk_in hw (received w) = (0, rsp) →
  returned (printer_get_tape hw w) =
    Some (if bool_decide (length rsp = 5%nat) then
            (0, match rsp !!! 4%nat with
                | 0x81 => TAPECODE_6MM
                | 0x85 => TAPECODE_9MM
                | 0x83 => TAPECODE_12MM
                | 0x87 => TAPECODE_18MM
                | 0x86 => TAPECODE_24MM
                | _ => TAPECODE_NOTAPE
                end)
          else (1, TAPECODE_NOTAPE)).
Proof.
  intros Hout Hin.
  unfold printer_get_tape, mbind, M_bind, send_to_printer, recv_from_printer.
  cbn [epsize_val Z.ltb Z.compare Pos.compare Pos.compare_cont].
  rewrite Hout.
  rewrite (out_frame_length [PRINTER_STX; 0x1A] 2 EPSIZE_16) by (cbn; lia).
  cbn [epsize_val Z.eqb Pos.eqb negb push_frame received].
  rewrite Hin. cbn [Z.eqb].
  assert (Hlen : length rsp = 5%nat → take 64 rsp = rsp)
    by (intros Hl; apply take_ge; lia).
  case_bool_decide as H5.
  - rewrite Hlen, H5 by done. cbn [Z.of_nat Pos.of_succ_nat Pos.succ Z.eqb Pos.eqb].
    cbn [returned mret M_ret]. do 2 f_equal.
    destruct (Z.eqb_spec (rsp !!! 4%nat) 0x81) as [->|?]; [done|].
    destruct (Z.eqb_spec (rsp !!! 4%nat) 0x85) as [->|?]; [done|].
    destruct (Z.eqb_spec (rsp !!! 4%nat) 0x83) as [->|?]; [done|].
    destruct (Z.eqb_spec (rsp !!! 4%nat) 0x87) as [->|?]; [done|].
    destruct (Z.eqb_spec (rsp !!! 4%nat) 0x86) as [->|?]; [done|].
    destruct (rsp !!! 4%nat) as [|q|q]; try done.
    do 8 (destruct q as [q|q|]; try done).
  - destruct (Z.eqb_spec (Z.of_nat (length (take 64 rsp))) 5) as [He|_]; [|done].
    rewrite length_take in He. lia.
Qed.

Section RasterClaims.

Variables (hw : host) (raw : list Z) (n : Z) (w : world).
Hypothesis Hn : n = Z.of_nat (length raw).
Hypothesis Hn32 : n < 2 ^ 32.

Let run : outcome Z := printer_send_raster hw raw n w.

Lemma run_plays : 1 ≤ n → plays hw w (raster_traffic raw) run.
Proof.
  intros Hn1. unfold run. rewrite Hn.
  apply printer_send_raster_plays; [|lia]. intros ->. cbn in Hn. lia.
Qed.

Lemma run_frames (f : list Z) : f ∈ new_frames w run → raster_frame f.
Proof.
  destruct (Z.le_gt_cases 1 n) as [Hn1|Hn0].
  - destruct (plays_new_frames _ _ _ _ (run_plays Hn1)) as ([j ->] & _).
    intros Hf%subseteq_take. by apply (raster_traffic_frames raw n).
  - assert (raw = []) as -> by (destruct raw; [done|cbn in Hn; lia]).
    unfold run. rewrite Hn. cbn [length Z.of_nat].
    rewrite printer_send_raster_empty. unfold new_frames. cbn [world_of sent].
    rewrite drop_all. by intros ?%elem_of_nil.
Qed.

Lemma run_whole : 1 ≤ n → returned run = Some 0 → new_frames w run = raster_traffic raw.
Proof.
  intros Hn1. by destruct (plays_new_frames _ _ _ _ (run_plays Hn1)) as (_ & _ & ? & _).
Qed.

Lemma run_accepted : 1 ≤ n → accepting hw → returned run = Some 0.
Proof.
  intros Hn1. by destruct (plays_new_frames _ _ _ _ (run_plays Hn1)) as (_ & _ & _ & ?).
Qed.

Lemma final_block_size_traffic :
  1 ≤ n → final_block_size (raster_traffic raw) = Some (block_fill n).
Proof.
  intros Hn1. rewrite (raster_traffic_split raw n) by done.
  unfold final_block_size. rewrite omap_app.
  match goal with |- context [raster_block_frame ?p] => set (p0 := p) end.
  change (omap block_payload_size [raster_block_frame p0; raster_end_frame; print_page_frame])
    with [Z.of_nat (length p0)].
  rewrite last_snoc. unfold p0. by rewrite (emit_payload_length raw n) by lia.
Qed.

(** With [rawsize] equal to the size of the buffer and at least 1, no
    read leaves the buffer, and when the transfer runs to its end the
    raster blocks carry exactly the bytes of the pattern, in order. *)
Lemma send_raster_safe :
  1 ≤ n →
  faults (world_of run w) = faults w
  ∧ (returned run = Some 0 →
     concat (block_payload <$> new_frames w run) = raw).
Proof.
  intros Hn1.
  destruct (plays_new_frames _ _ _ _ (run_plays Hn1)) as (_ & Hf & _ & _).
  split; [done|]. intros Hret. rewrite run_whole by done.
  by apply (raster_traffic_payload raw n).
Qed.

End RasterClaims.

(** C1 (amended).  Whatever the host does, every raster block that
    [printer_send_raster] sends carries between 1 and 60 bytes.  When
    the transfer of a non-empty pattern runs to its end, the payload of
    the final block is [L mod 60] if that is not zero and 60 otherwise,
    where [L = (n - 1) mod 8192 + 1] is the length of the last page; for
    a pattern of at most 8192 bytes this is [n mod 60], or 60.  With a
    host that takes and acknowledges every frame the transfer does run
    to its end. *)
Theorem raster_block_sizes (hw : host) (raw : list Z) (n : Z) (w : world) :
  n = Z.of_nat (length raw) → n < 2 ^ 32 →
  let run := printer_send_raster hw raw n w in
  (∀ f size, f ∈ new_frames w run → block_payload_size f = Some size →
             1 ≤ size ≤ 60
             ∧ ∃ p, f = raster_block_frame p ∧ Z.of_nat (length p) = size)
  ∧ (1 ≤ n → returned run = Some 0 →
     final_block_size (new_frames w run)
       = Some (if page_fill n mod 60 =? 0 then 60 else page_fill n mod 60)
     ∧ (n ≤ 8192 →
        final_block_size (new_frames w run)
          = Some (if n mod 60 =? 0 then 60 else n mod 60)))
  ∧ (1 ≤ n → accepting hw → returned run = Some 0).
Proof.
  intros Hn Hn32 run. split; [|split].
  - intros f size Hf. apply raster_frame_size.
    by apply (run_frames hw raw n w Hn Hn32).
  - intros Hn1 Hret. unfold run.
    rewrite (run_whole hw raw n w Hn Hn32), (final_block_size_traffic raw n) by done.
    destruct (final_block_fill n Hn1) as [-> Hsmall]. split; [done|].
    intros Hle. by rewrite <- Hsmall.
  - by apply run_accepted.
Qed.

(** C4.  Streaming a pattern of [n > 0] bytes to its end sends the page
    end (PrintPage) exactly [ceil (n / 8192)] times, and a host that
    takes and acknowledges every frame lets the transfer reach its end.
    In every pass of the loop that sends a page end and goes on, the
    page accumulator is 0 afterwards. *)
Theorem print_page_count (hw : host) (raw : list Z) (n : Z) (w : world) :
  n = Z.of_nat (length raw) → n < 2 ^ 32 → 0 < n →
  let run := printer_send_raster hw raw n w in
  (returned run = Some 0 →
   Z.of_nat (count_frame print_page_frame (new_frames w run)) = ceil_div n 8192)
  ∧ (accepting hw → returned run = Some 0)
  ∧ (∀ k v w1 v' w1',
       0 ≤ k < n → raster_inv raw v k →
       raster_iter hw raw n v w1 = Ret (Continue v') w1' →
       print_page_frame ∈ drop (length (sent w1)) (sent w1') →
       page_size v' = 0).
Proof.
  intros Hn Hn32 Hn1 run. split; [|split].
  - intros Hret. unfold run. rewrite (run_whole hw raw n w Hn Hn32) by (done || lia).
    apply raster_traffic_pages; [done|lia].
  - apply run_accepted; (done || lia).
  - intros k v w1 v' w1' Hk Hinv Hit Hin.
    pose proof (raster_iter_spec hw raw n v k w1 Hn Hn32 Hk Hinv) as Hspec.
    rewrite Hit in Hspec. destruct Hspec as ([Hs _] & _ & _ & Hreset).
    apply Hreset. by rewrite Hs, drop_app_length in Hin.
Qed.

(** C5 (amended).  When the transfer of a non-empty pattern runs to its
    end, the last three frames are a raster block, the raster end
    (RasterEnd) and the page end (PrintPage), in this order, and no
    other frame of the transfer is a raster end.  With a host that
    takes and acknowledges every frame the transfer does run to its
    end. *)
Theorem raster_end_once (hw : host) (raw : list Z) (n : Z) (w : world) :
  n = Z.of_nat (length raw) → n < 2 ^ 32 → 1 ≤ n →
  let run := printer_send_raster hw raw n w in
  (returned run = Some 0 →
   ∃ pre last,
     new_frames w run
       = pre ++ [raster_block_frame last; raster_end_frame; print_page_frame]
     ∧ (1 ≤ length last ≤ 60)%nat
     ∧ count_frame raster_end_frame pre = 0%nat
     ∧ count_frame raster_end_frame (new_frames w run) = 1%nat)
  ∧ (accepting hw → returned run = Some 0).
Proof.
  intros Hn Hn32 Hn1 run. split; [|by apply run_accepted].
  intros Hret. unfold run. rewrite (run_whole hw raw n w Hn Hn32) by done.
  eexists _, _. split; [by apply (raster_traffic_split raw n)|].
  pose proof (emit_payload_length raw n Hn n ltac:(lia)) as Hl.
  pose proof (block_fill_bounds n Hn1) as Hb.
  split; [lia|]. split.
  - apply (inner_no_end raw n); lia.
  - by apply (raster_traffic_one_end raw n).
Qed.


(** C10 (amended).  The body of the do-while loop runs before the test,
    so with [rawsize = 0] the function reads index 0 of the empty
    pattern buffer; none of the three flush conditions holds then, so
    it sends no frame at all and returns 0.  With [rawsize >= 1] equal
    to the size of the buffer no read leaves the buffer, and a transfer
    that runs to its end carries exactly the bytes of the pattern. *)
Theorem send_raster_precondition (hw : host) (w : world) :
  printer_send_raster hw [] 0 w
    = Ret 0 {| sent := sent w; received := received w;
               faults := faults w ++ [OobRead 0] |}
  ∧ ∀ raw,
      1 ≤ Z.of_nat (length raw) < 2 ^ 32 →
      faults (world_of (printer_send_raster hw raw (Z.of_nat (length raw)) w) w)
        = faults w
      ∧ (returned (printer_send_raster hw raw (Z.of_nat (length raw)) w) = Some 0 →
         concat (block_payload
                   <$> new_frames w (printer_send_raster hw raw (Z.of_nat (length raw)) w))
           = raw).
Proof.
  split; [apply printer_send_raster_empty|].
  intros raw [Hn1 Hn32]. by apply send_raster_safe.
Qed.

Lemma raster_block_sizes_witness :
  final_block_size (new_frames boot (printer_send_raster ack_host (seqZ 1 130) 130 boot))
  = Some 10.
Proof.
  destruct (raster_block_sizes ack_host (seqZ 1 130) 130 boot) as (_ & Hfinal & _);
    [reflexivity|lia|].
  destruct Hfinal as [_ Hsmall]; [lia|vm_compute; reflexivity|].
  exact (Hsmall ltac:(lia)).
Defined.

(** C1 as stated fails beyond one page: with 8252 bytes the second page
    holds 60 bytes, which go out as one final block of 60 bytes, while
    8252 mod 60 is 32. *)
Lemma final_block_two_pages :
  returned (printer_send_raster ack_host (replicate (Z.to_nat 8252) 0xFF) 8252 boot) = Some 0
  ∧ final_block_size
      (new_frames boot (printer_send_raster ack_host (replicate (Z.to_nat 8252) 0xFF) 8252 boot))
    = Some 60
  ∧ 8252 mod 60 = 32.
Proof. vm_compute. repeat split. Qed.

Lemma print_page_count_witness :
  Z.of_nat (count_frame print_page_frame
              (new_frames boot (printer_send_raster ack_host (seqZ 1 130) 130 boot)))
  = ceil_div 130 8192.
Proof.
  destruct (print_page_count ack_host (seqZ 1 130) 130 boot) as (Hcount & _);
    [reflexivity|lia|lia|].
  apply Hcount. vm_compute; reflexivity.
Defined.

Lemma raster_end_once_witness :
  ∃ pre last,
    new_frames boot (printer_send_raster ack_host (seqZ 1 130) 130 boot)
      = pre ++ [raster_block_frame last; raster_end_frame; print_page_frame]
    ∧ (1 ≤ length last ≤ 60)%nat
    ∧ count_frame raster_end_frame pre = 0%nat
    ∧ count_frame raster_end_frame
        (new_frames boot (printer_send_raster ack_host (seqZ 1 130) 130 boot)) = 1%nat.
Proof.
  destruct (raster_end_once ack_host (seqZ 1 130) 130 boot) as (Hend & _);
    [reflexivity|lia|lia|].
  apply Hend. vm_compute; reflexivity.
Defined.

(** C5 as stated fails for the empty pattern: the transfer returns 0 and
    no raster end has gone out. *)
Lemma empty_transfer_no_raster_end :
  returned (printer_send_raster ack_host [] 0 boot) = Some 0
  ∧ count_frame raster_end_frame
      (new_frames boot (printer_send_raster ack_host [] 0 boot)) = 0%nat.
Proof. split; reflexivity. Qed.

Lemma send_raster_precondition_witness :
  faults (world_of (printer_send_raster ack_host [7; 8; 9] 3 boot) boot) = []
  ∧ (returned (printer_send_raster ack_host [7; 8; 9] 3 boot) = Some 0 →
     concat (block_payload
               <$> new_frames boot (printer_send_raster ack_host [7; 8; 9] 3 boot))
       = [7; 8; 9]).
Proof.
  destruct (send_raster_precondition ack_host boot) as [_ Hsafe].
  apply (Hsafe [7; 8; 9]). cbn. lia.
Defined.

(** C10 as stated fails on what the empty transfer sends: index 0 is
    read outside the buffer, but no raster block, no raster end and no
    page end go out. *)
Lemma empty_transfer_sends_nothing :
  printer_send_raster ack_host [] 0 boot
  = Ret 0 {| sent := []; received := 0; faults := [OobRead 0] |}.
Proof. reflexivity. Qed.

(** ** The canvas *)

Lemma fread_row (bw : Z) (data : list Z) :
  0 < bw → bw ≤ Z.of_nat (length data) →
  fread bw data = Some (take (Z.to_nat bw) data, drop (Z.to_nat bw) data).
Proof.
  intros Hbw Hlen. unfold fread.
  destruct (Z.eqb_spec bw 0) as [?|_]; [lia|].
  destruct (Z.ltb_spec (Z.of_nat (length data)) bw) as [?|_]; [lia|].
  reflexivity.
Qed.

(** Reading [h] rows into the canvas at the rows that follow [above]. *)
Lemma read_rows_spec (bw pad_h : Z) (h : nat) :
  0 < bw →
  ∀ (i : Z) (above below : list (list Z)) (data : list Z),
    0 ≤ i → 0 ≤ pad_h → i + pad_h + Z.of_nat h < 2 ^ 32 →
    Z.of_nat (length above) = i + pad_h →
    Z.of_nat h * bw ≤ Z.of_nat (length data) →
    read_rows h i pad_h bw
      (above ++ replicate h (replicate (Z.to_nat bw) 0) ++ below) data
    = Some (above ++ file_rows (Z.to_nat bw) h data ++ below,
            drop (h * Z.to_nat bw) data).
Proof.
  intros Hbw. induction h as [|h IH]; intros i above below data Hi Hpad H32 Habove Hdata.
  { reflexivity. }
  cbn [read_rows file_rows replicate].
  rewrite fread_row by nia.
  unfold u32. rewrite Z.mod_small by lia.
  replace (Z.to_nat (i + pad_h)) with (length above + 0)%nat by lia.
  rewrite insert_app_r. cbn [app insert list_insert].
  rewrite (cons_middle _ above), (cons_middle _ above (file_rows _ _ _ ++ _)).
  rewrite !app_assoc, <- (app_assoc _ (replicate h _)), IH.
  - rewrite drop_drop, <- !app_assoc. reflexivity.
  - lia.
  - lia.
  - lia.
  - rewrite length_app. cbn [length]. lia.
  - rewrite length_drop. nia.
Qed.

(** [load_pixels] when the file holds the rows: the canvas is the
    centred one, and the pattern is its transposition. *)
Lemma load_pixels_unfold (img_w img_h : Z) (data : list Z) (w : world) :
  0 < img_w < 2 ^ 32 - 7 → 0 ≤ img_h < 2 ^ 32 →
  Z.min img_h 128 * ((img_w + 7) / 8) ≤ Z.of_nat (length data) →
  load_pixels img_w img_h data w =
    let tr := transpose ((img_w + 7) / 8) (centered_canvas img_w img_h data)
                (replicate (Z.to_nat (u32 (16 * img_w))) 0) in
    Ret (Loaded {| image_w := img_w;
                   image_stripes := centered_canvas img_w img_h data;
                   pattern_size := u32 (16 * img_w);
                   pattern := tr.1 |})
        {| sent := sent w; received := received w; faults := faults w ++ tr.2 |}.
Proof.
  intros Hw Hh Hdata. unfold load_pixels, IMAGE_ROWS.
  assert (Hmin : (if 128 <? img_h then 128 else img_h) = Z.min img_h 128)
    by (destruct (Z.ltb_spec 128 img_h); lia).
  rewrite Hmin.
  assert (Hrows :
    read_rows (Z.to_nat (Z.min img_h 128)) 0 (u32 (128 - Z.min img_h 128) / 2)
      (u32 (img_w + 7) / 8)
      (replicate (Z.to_nat 128) (replicate (Z.to_nat (u32 (img_w + 7) / 8)) 0)) data
    = Some (centered_canvas img_w img_h data,
            drop (Z.to_nat (Z.min img_h 128) * Z.to_nat ((img_w + 7) / 8)) data)).
  { unfold centered_canvas. set (h := Z.min img_h 128) in *.
    unfold u32. rewrite !Z.mod_small by lia.
    set (bw := (img_w + 7) / 8) in *.
    set (pad := (128 - h) / 2).
    assert (0 < bw) by (unfold bw; apply Z.div_str_pos; lia).
    assert (0 ≤ pad ∧ pad + h ≤ 128) as [Hpad0 Hpad1].
    { unfold pad. pose proof (Z.div_mod (128 - h) 2 ltac:(lia)).
      pose proof (Z.mod_pos_bound (128 - h) 2 ltac:(lia)). lia. }
    set (zero := replicate (Z.to_nat bw) 0).
    replace (replicate (Z.to_nat 128) zero)
      with (replicate (Z.to_nat pad) zero
            ++ replicate (Z.to_nat h) zero
            ++ replicate (Z.to_nat (128 - h - pad)) zero).
    2:{ rewrite <- !replicate_add. f_equal. lia. }
    rewrite (read_rows_spec bw pad (Z.to_nat h)); try lia; [done|].
    rewrite length_replicate. lia. }
  rewrite Hrows. change (128 / 8 * img_w) with (16 * img_w).
  unfold u32 at 1. rewrite (Z.mod_small (img_w + 7)) by lia.
  by destruct (transpose _ _ _) as [p fl].
Qed.

Lemma centered_canvas_length (img_w img_h : Z) (data : list Z) :
  0 ≤ img_h → length (centered_canvas img_w img_h data) = 128%nat.
Proof.
  intros Hh. unfold centered_canvas.
  rewrite !length_app, !length_replicate.
  assert (Hrows : ∀ bw h d, length (file_rows bw h d) = h).
  { intros bw h. induction h as [|h IH]; intros d; cbn; [done|by rewrite IH]. }
  rewrite Hrows.
  pose proof (Z.div_mod (128 - Z.min img_h 128) 2 ltac:(lia)).
  pose proof (Z.mod_pos_bound (128 - Z.min img_h 128) 2 ltac:(lia)). lia.
Qed.

Lemma load_image_unfold (hw : host) (hdr rest data : list Z)
    (ch img_w img_h : Z) :
  skip_comments false hdr = Some (ch, rest) →
  scan_dims hw (ch :: rest) = Some (img_w, img_h, data) →
  0 ≤ img_w < 2 ^ 32 → 0 ≤ img_h < 2 ^ 32 →
  load_image hw ([80; 52; 10] ++ hdr) = load_pixels img_w img_h data.
Proof.
  intros Hskip Hscan Hw Hh.
  unfold load_image. cbn [app getc Z.eqb Pos.eqb negb].
  rewrite Hskip, Hscan. unfold u32. by rewrite !Z.mod_small by lia.
Qed.

(** The centring, in terms of what [fscanf] delivers: a width
    [img_w > 0], a height [img_h] and the bytes [data] that it leaves in
    the stream.  When [data] holds the rows, [load_image] leaves in the
    canvas the first [min img_h 128] rows of [data], below
    [(128 - min img_h 128) / 2] zero rows and above the zero rows that
    fill the canvas up to 128. *)
Theorem load_image_centers (hw : host) (hdr rest data : list Z)
    (ch img_w img_h : Z) (w : world) :
  skip_comments false hdr = Some (ch, rest) →
  scan_dims hw (ch :: rest) = Some (img_w, img_h, data) →
  0 < img_w < 2 ^ 32 - 7 → 0 ≤ img_h < 2 ^ 32 →
  Z.min img_h 128 * ((img_w + 7) / 8) ≤ Z.of_nat (length data) →
  ∃ img w',
    load_image hw ([80; 52; 10] ++ hdr) w = Ret (Loaded img) w'
    ∧ image_w img = img_w
    ∧ length (image_stripes img) = 128%nat
    ∧ image_stripes img
      = centered_canvas img_w img_h data.
Proof.
  intros Hskip Hscan Hw Hh Hdata.
  rewrite (load_image_unfold hw hdr rest data ch img_w img_h) by (done || lia).
  rewrite load_pixels_unfold by done.
  eexists _, _. split; [reflexivity|]. cbn [image_w image_stripes].
  split; [done|]. split; [|done]. apply centered_canvas_length. lia.
Qed.

Lemma load_image_centers_witness :
  ∃ img w',
    load_image ack_host pbm_4x2 boot = Ret (Loaded img) w'
    ∧ image_w img = 4
    ∧ length (image_stripes img) = 128%nat
    ∧ image_stripes img = centered_canvas 4 2 [0xA0; 0x50].
Proof.
  apply (load_image_centers ack_host [52; 32; 50; 10; 0xA0; 0x50]
           [32; 50; 10; 0xA0; 0x50] [0xA0; 0x50] 52 4 2 boot);
    [reflexivity|reflexivity|lia|lia|vm_compute; discriminate].
Defined.

(** ** What [fscanf] takes from the pixel data *)

Lemma digit_not_blank (c : Z) : is_digit c = true → is_blank c = false.
Proof. unfold is_digit, is_blank. lia. Qed.

Lemma skip_blanks_idemp (fin : list Z) : skip_blanks (skip_blanks fin) = skip_blanks fin.
Proof.
  induction fin as [|c fin IH]; [done|]. cbn [skip_blanks].
  destruct (is_blank c) eqn:Hc; [done|]. cbn [skip_blanks]. by rewrite Hc.
Qed.

(** What is left in the stream never begins with a blank byte. *)
Lemma skip_blanks_head (fin : list Z) (b : Z) (rest : list Z) :
  skip_blanks fin = b :: rest → is_blank b = false.
Proof.
  induction fin as [|c fin IH]; [done|]. cbn [skip_blanks].
  destruct (is_blank c) eqn:Hc; [done|]. by intros [= <- <-].
Qed.

Lemma scan_digits_app (ds rest : list Z) (acc : Z) :
  Forall (λ c, is_digit c = true) ds →
  match rest with c :: _ => is_digit c = false | [] => True end →
  scan_digits acc (ds ++ rest)
  = (foldl (λ acc c, 10 * acc + (c - 48)) acc ds, rest).
Proof.
  intros Hds Hrest. revert acc.
  induction Hds as [|d ds Hd _ IH]; intros acc.
  - destruct rest as [|c rest]; [done|]. cbn [app scan_digits foldl].
    by rewrite Hrest.
  - cbn [app scan_digits foldl]. by rewrite Hd.
Qed.

Lemma scan_unsigned_digits (ds rest : list Z) :
  ds ≠ [] → Forall (λ c, is_digit c = true) ds →
  match rest with c :: _ => is_digit c = false | [] => True end →
  scan_unsigned (ds ++ rest) = Some (decimal ds, rest).
Proof.
  intros Hne Hds Hrest. unfold scan_unsigned, decimal.
  rewrite <- (scan_digits_app ds rest 0 Hds Hrest).
  destruct ds as [|d ds]; [done|].
  apply Forall_cons_1 in Hds as [Hd _]. cbn [app skip_blanks].
  by rewrite (digit_not_blank d Hd), Hd.
Qed.

Lemma scan_plain_header (dw dh data : list Z) :
  dw ≠ [] → dh ≠ [] →
  Forall (λ c, is_digit c = true) dw → Forall (λ c, is_digit c = true) dh →
  scan_plain (dw ++ [32] ++ dh ++ [10] ++ data)
  = Some (u32 (decimal dw), u32 (decimal dh), skip_blanks data).
Proof.
  intros Hw Hh Hdw Hdh. unfold scan_plain.
  rewrite (scan_unsigned_digits dw) by done.
  assert (Hsecond : scan_unsigned ([32] ++ dh ++ [10] ++ data)
                    = Some (decimal dh, [10] ++ data)).
  { rewrite <- (scan_unsigned_digits dh ([10] ++ data)) by done.
    unfold scan_unsigned. cbn [app skip_blanks is_blank Z.eqb orb].
    cbv iota. reflexivity. }
  rewrite Hsecond. reflexivity.
Qed.

Lemma pbm_file_scan (hw : host) (dw dh data : list Z) :
  scan_dims hw = scan_plain →
  dw ≠ [] → dh ≠ [] →
  Forall (λ c, is_digit c = true) dw → Forall (λ c, is_digit c = true) dh →
  ∃ ch rest,
    pbm_file dw dh data = [80; 52; 10] ++ (dw ++ [32] ++ dh ++ [10] ++ data)
    ∧ skip_comments false (dw ++ [32] ++ dh ++ [10] ++ data) = Some (ch, rest)
    ∧ scan_dims hw (ch :: rest)
      = Some (u32 (decimal dw), u32 (decimal dh), skip_blanks data).
Proof.
  intros Hscan Hw Hh Hdw Hdh.
  destruct dw as [|d dw]; [done|].
  pose proof (Forall_cons_1 _ _ _ Hdw) as [Hd _].
  assert (Hd8 : u8 d = d) by (unfold u8, is_digit in *; apply Z.mod_small; lia).
  exists d, (dw ++ [32] ++ dh ++ [10] ++ data). split; [done|]. split.
  - cbn [app skip_comments]. rewrite Hd8.
    destruct (Z.eqb_spec d 35) as [->|_]; [done|]. done.
  - rewrite Hscan. by rewrite <- (scan_plain_header (d :: dw) dh data).
Qed.

(** With libc's scanner, the blank bytes at the head of the pixel data
    never reach the rows: the file loads as if they were not there. *)
Theorem load_image_swallows_blanks (hw : host) (dw dh data : list Z) (w : world) :
  scan_dims hw = scan_plain →
  dw ≠ [] → dh ≠ [] →
  Forall (λ c, is_digit c = true) dw → Forall (λ c, is_digit c = true) dh →
  load_image hw (pbm_file dw dh data) w
  = load_image hw (pbm_file dw dh (skip_blanks data)) w.
Proof.
  intros Hscan Hw Hh Hdw Hdh.
  destruct (pbm_file_scan hw dw dh data Hscan Hw Hh Hdw Hdh)
    as (ch & rest & -> & Hskip & Hdims).
  destruct (pbm_file_scan hw dw dh (skip_blanks data) Hscan Hw Hh Hdw Hdh)
    as (ch' & rest' & -> & Hskip' & Hdims').
  rewrite skip_blanks_idemp in Hdims'.
  unfold load_image. cbn [app getc Z.eqb Pos.eqb negb].
  change (dw ++ 32 :: dh ++ 10 :: data) with (dw ++ [32] ++ dh ++ [10] ++ data).
  change (dw ++ 32 :: dh ++ 10 :: skip_blanks data)
    with (dw ++ [32] ++ dh ++ [10] ++ skip_blanks data).
  by rewrite Hskip, Hskip', Hdims, Hdims'.
Qed.

Lemma load_image_swallows_blanks_witness :
  load_image ack_host (pbm_file [56] [49] [0x20; 0x0A; 0x81]) boot
  = load_image ack_host (pbm_file [56] [49] [0x81]) boot.
Proof.
  apply (load_image_swallows_blanks ack_host [56] [49] [0x20; 0x0A; 0x81] boot);
    (reflexivity || discriminate || by repeat constructor).
Defined.

(** The centring of C7 for the files on which it holds: a width
    [w > 0], and pixel data that holds the rows and does not begin with
    a blank byte.  The canvas has the first [min h 128] rows of the
    file, [(128 - min h 128) / 2] zero rows above them and zero rows
    below up to 128. *)
Theorem load_image_centers_file (hw : host) (dw dh data : list Z) (w : world) :
  scan_dims hw = scan_plain →
  dw ≠ [] → dh ≠ [] →
  Forall (λ c, is_digit c = true) dw → Forall (λ c, is_digit c = true) dh →
  0 < decimal dw < 2 ^ 32 - 7 → decimal dh < 2 ^ 32 →
  skip_blanks data = data →
  Z.min (decimal dh) 128 * ((decimal dw + 7) / 8) ≤ Z.of_nat (length data) →
  ∃ img w',
    load_image hw (pbm_file dw dh data) w = Ret (Loaded img) w'
    ∧ image_w img = decimal dw
    ∧ image_stripes img
      = replicate (Z.to_nat ((128 - Z.min (decimal dh) 128) / 2))
                  (replicate (Z.to_nat ((decimal dw + 7) / 8)) 0)
        ++ file_rows (Z.to_nat ((decimal dw + 7) / 8))
                     (Z.to_nat (Z.min (decimal dh) 128)) data
        ++ replicate (Z.to_nat (128 - Z.min (decimal dh) 128
                                - (128 - Z.min (decimal dh) 128) / 2))
                     (replicate (Z.to_nat ((decimal dw + 7) / 8)) 0).
Proof.
  intros Hscan Hw Hh Hdw Hdh Hwr Hhr Hnb Hdata.
  assert (Hpos : ∀ ds, Forall (λ c, is_digit c = true) ds → 0 ≤ decimal ds).
  { intros ds Hds. unfold decimal.
    assert (Hacc : ∀ acc, 0 ≤ acc →
              0 ≤ foldl (λ acc c, 10 * acc + (c - 48)) acc ds); [|by apply Hacc].
    induction Hds as [|d ds Hd _ IH]; intros acc Hacc; [done|].
    cbn [foldl]. apply IH. unfold is_digit in Hd. lia. }
  destruct (pbm_file_scan hw dw dh data Hscan Hw Hh Hdw Hdh)
    as (ch & rest & -> & Hskip & Hdims).
  rewrite Hnb in Hdims. unfold u32 in Hdims.
  rewrite !Z.mod_small in Hdims by (specialize (Hpos dh Hdh); lia).
  destruct (load_image_centers hw _ rest data ch (decimal dw) (decimal dh) w
              Hskip Hdims Hwr ltac:(specialize (Hpos dh Hdh); lia) Hdata)
    as (img & w' & Hload & Himw & _ & Hcanvas).
  by exists img, w'.
Qed.

Lemma load_image_centers_file_witness :
  ∃ img w',
    load_image ack_host (pbm_file [52] [50] [0xA0; 0x50]) boot = Ret (Loaded img) w'
    ∧ image_w img = 4
    ∧ image_stripes img
      = replicate 63 [0] ++ [[0xA0]; [0x50]] ++ replicate 63 [0].
Proof.
  apply (load_image_centers_file ack_host [52] [50] [0xA0; 0x50] boot);
    try reflexivity; try discriminate; try (by repeat constructor).
Defined.

(** A sign before a number of the header is taken as [%u] takes it:
    "+4 2" is the header of the sample bitmap, and with "-4 2" the
    width wraps to [2^32 - 4], the row size to 0, and no row is read. *)
Example signed_header :
  load_image ack_host [80; 52; 10; 43; 52; 32; 50; 10; 0xA0; 0x50] boot
  = load_image ack_host pbm_4x2 boot
  ∧ load_image ack_host [80; 52; 10; 45; 52; 32; 50; 10; 0xA0; 0x50] boot
    = Ret LoadError boot.
Proof. split; vm_compute; reflexivity. Qed.

(** C7 fails in the code for a bitmap whose pixel data begins with a
    blank byte (space, tab, newline, vertical tab, form feed, carriage
    return): the newline that ends the format of [fscanf] takes such
    bytes from the stream before the rows are read.  The file "P4",
    "8 1" and the row byte 20 holds its one row of eight pixels, and is
    refused for want of a row.  Of the file "P4", "8 129", a row 20 and
    128 rows FF the canvas gets rows 2 to 129, not the first 128. *)
Lemma leading_blank_rows_lost :
  load_image ack_host [80; 52; 10; 56; 32; 49; 10; 0x20] boot = Ret LoadError boot
  ∧ ∃ img,
      load_image ack_host ([80; 52; 10; 56; 32; 49; 50; 57; 10]
                           ++ [0x20] ++ replicate 128 0xFF) boot
      = Ret (Loaded img) boot
      ∧ image_stripes img = replicate 128 [0xFF]
      ∧ image_stripes img !! 0%nat ≠ Some [0x20].
Proof.
  split; [reflexivity|]. eexists. split; [vm_compute; reflexivity|].
  split; [reflexivity|discriminate].
Qed.

(** ** The transposition *)

Lemma foldl_seq_inv {S} (P : nat → S → Prop) (f : S → nat → S) (n : nat) (s0 : S) :
  P 0%nat s0 →
  (∀ j s, (j < n)%nat → P j s → P (Datatypes.S j) (f s j)) →
  P n (foldl f s0 (seq 0 n)).
Proof.
  intros H0 Hstep. induction n as [|n IH]; [done|].
  rewrite seq_S, foldl_app. cbn [foldl Nat.add].
  apply Hstep; [lia|]. apply IH. intros j s Hj. apply Hstep. lia.
Qed.

Lemma land_128 (a : Z) : Z.land a 128 = if Z.testbit a 7 then 128 else 0.
Proof.
  apply Z.bits_inj'. intros j Hj. rewrite Z.land_spec.
  change 128 with (2 ^ 7). rewrite Z.pow2_bits_eqb by lia.
  destruct (Z.eqb_spec 7 j) as [<-|Hne].
  - destruct (Z.testbit a 7); cbn [andb].
    + by rewrite Z.pow2_bits_true by lia.
    + by rewrite Z.bits_0.
  - rewrite andb_false_r. destruct (Z.testbit a 7).
    + by rewrite Z.pow2_bits_false by lia.
    + by rewrite Z.bits_0.
Qed.

(** The test [(cell << b) & 0x80] reads bit [7 - b] of the byte. *)
Lemma shifted_msb (cell b : Z) :
  0 ≤ b ≤ 7 →
  negb (Z.land (Z.shiftl cell b) 0x80 =? 0) = Z.testbit cell (7 - b).
Proof.
  intros Hb. rewrite land_128, Z.shiftl_spec by lia.
  by destruct (Z.testbit cell (7 - b)).
Qed.

Lemma lor_one_bit (a s k : Z) :
  0 ≤ s → 0 ≤ k →
  Z.testbit (Z.lor a (Z.shiftl 1 s)) k = Z.testbit a k || (k =? s).
Proof.
  intros Hs Hk. rewrite Z.lor_spec, Z.shiftl_mul_pow2, Z.mul_1_l by lia.
  rewrite Z.pow2_bits_eqb by lia. by rewrite (Z.eqb_sym s k).
Qed.

Lemma padding_clearb_correct (stripes : list (list Z)) (image_w bw : Z) :
  padding_clearb stripes image_w bw = true → padding_clear stripes image_w bw.
Proof.
  intros Hall i x Hi Hx.
  unfold padding_clearb in Hall. rewrite forallb_forall in Hall.
  specialize (Hall i). rewrite <- list_elem_of_In, elem_of_seqZ in Hall.
  specialize (Hall ltac:(lia)). rewrite forallb_forall in Hall.
  specialize (Hall x). rewrite <- list_elem_of_In, elem_of_seqZ in Hall.
  apply negb_true_iff, Hall. lia.
Qed.

Section Transpose.

Variables (stripes : list (list Z)) (image_w bw : Z).
Hypothesis Hfit : 0 ≤ image_w ∧ 16 * image_w < 2 ^ 32.
Hypothesis Hbw : image_w ≤ 8 * bw ∧ 8 * bw < 2 ^ 32.
Hypothesis Hclear : padding_clear stripes image_w bw.

Lemma transpose_bit_inv (i w b : nat) (st : Z * list Z * list fault) :
  (i < 128)%nat → (b < 8)%nat → Z.of_nat w < bw →
  transposed stripes image_w (Z.of_nat i) (8 * Z.of_nat w + Z.of_nat b) st →
  transposed stripes image_w (Z.of_nat i) (8 * Z.of_nat w + Z.of_nat (S b))
    (transpose_bit (Z.of_nat i) ((stripes !!! i) !!! w) st b).
Proof.
  intros Hi Hb Hw. destruct st as [[xs p] fl].
  intros (Hx & Hfl & Hlen & Hbits); cbn [fst snd] in *. subst xs fl.
  set (x := 8 * Z.of_nat w + Z.of_nat b) in *.
  assert (Hpix : canvas_pixel stripes (Z.of_nat i) x
                 = Z.testbit ((stripes !!! i) !!! w) (7 - Z.of_nat b)).
  { unfold canvas_pixel, x.
    replace ((8 * Z.of_nat w + Z.of_nat b) / 8) with (Z.of_nat w)
      by (apply (Z.div_unique_pos _ _ _ (Z.of_nat b)); lia).
    replace ((8 * Z.of_nat w + Z.of_nat b) mod 8) with (Z.of_nat b)
      by (apply (Z.mod_unique_pos _ _ (Z.of_nat w)); lia).
    by rewrite !Nat2Z.id. }
  pose proof (Z.div_mod (Z.of_nat i) 8 ltac:(lia)) as Hdm.
  pose proof (Z.mod_pos_bound (Z.of_nat i) 8 ltac:(lia)) as Hmb.
  assert (Hq : 0 ≤ Z.of_nat i / 8 < 16).
  { split; [apply Z.div_pos; lia|apply Z.div_lt_upper_bound; lia]. }
  unfold transpose_bit. rewrite shifted_msb, <- Hpix by lia.
  unfold u32. rewrite (Z.mod_small (x + 1)) by lia.
  replace (8 * Z.of_nat w + Z.of_nat (S b)) with (x + 1) by lia.
  destruct (canvas_pixel stripes (Z.of_nat i) x) eqn:Hset.
  - (* the pixel is set: the column is inside the image *)
    assert (Hin : x < image_w).
    { destruct (Z.lt_ge_cases x image_w) as [?|Hge]; [done|].
      rewrite (Hclear (Z.of_nat i) x) in Hset by (unfold IMAGE_ROWS; lia). done. }
    unfold IMAGE_ROWS. change (128 / 8) with 16.
    rewrite (Z.mod_small (x * 16 + Z.of_nat i / 8)) by lia.
    unfold or_cell.
    destruct (lookup_lt_is_Some_2 p (Z.to_nat (x * 16 + Z.of_nat i / 8)) ltac:(lia))
      as [old Hold].
    rewrite Hold. rewrite app_nil_r.
    split; [done|]. split; [done|]. cbn [fst snd].
    split; [by rewrite length_insert|].
    intros c r k Hc Hr Hk. specialize (Hbits c r k Hc Hr Hk).
    rewrite list_lookup_total_insert by lia.
    destruct (decide _) as [Heq|Hne].
    + assert (c = x ∧ r = Z.of_nat i / 8) as [-> ->] by lia.
      rewrite lor_one_bit by lia.
      rewrite <- (list_lookup_total_correct _ _ _ Hold), Hbits.
      destruct (Z.eqb_spec k (Z.of_nat i mod 8)) as [->|Hk'].
      * replace (8 * (Z.of_nat i / 8) + Z.of_nat i mod 8) with (Z.of_nat i) by lia.
        rewrite Hset, Z.eqb_refl, orb_true_r.
        destruct (Z.ltb_spec (Z.of_nat i mod 8) 8); [|lia].
        destruct (Z.ltb_spec x (x + 1)); [|lia].
        by rewrite orb_true_r.
      * rewrite orb_false_r.
        destruct (Z.eqb_spec (8 * (Z.of_nat i / 8) + k) (Z.of_nat i)); [lia|].
        by rewrite !andb_false_l.
    + rewrite Hbits.
      destruct (Z.ltb_spec k 8) as [Hk8|Hk8]; [|done].
      destruct (Z.eqb_spec (8 * r + k) (Z.of_nat i)) as [He|_]; [|done].
      assert (r = Z.of_nat i / 8) by (apply (Z.div_unique_pos _ _ _ k); lia).
      destruct (Z.ltb_spec c x), (Z.ltb_spec c (x + 1)); try lia; try done.
  - (* the pixel is clear: the pattern stays as it is *)
    split; [done|]. split; [done|]. cbn [fst snd]. split; [done|].
    intros c r k Hc Hr Hk. rewrite (Hbits c r k Hc Hr Hk).
    destruct (Z.ltb_spec k 8) as [Hk8|Hk8]; [|done].
    destruct (Z.eqb_spec (8 * r + k) (Z.of_nat i)) as [He|_]; [|done].
    destruct (Z.ltb_spec c x), (Z.ltb_spec c (x + 1)); try lia; try done.
    assert (c = x) as -> by lia. rewrite He, Hset. done.
Qed.

Lemma transpose_byte_inv (i w : nat) (st : Z * list Z * list fault) :
  (i < 128)%nat → Z.of_nat w < bw →
  transposed stripes image_w (Z.of_nat i) (8 * Z.of_nat w) st →
  transposed stripes image_w (Z.of_nat i) (8 * Z.of_nat (S w))
    (transpose_byte (Z.of_nat i) (stripes !!! i) st w).
Proof.
  intros Hi Hw Hst. unfold transpose_byte.
  replace (8 * Z.of_nat (S w)) with (8 * Z.of_nat w + Z.of_nat 8) by lia.
  apply (foldl_seq_inv
           (λ b, transposed stripes image_w (Z.of_nat i) (8 * Z.of_nat w + Z.of_nat b))).
  - by rewrite Z.add_0_r.
  - intros b s Hb Hs. by apply transpose_bit_inv.
Qed.

(** A finished row counts as a row above. *)
Lemma transposed_next_row (i : Z) (x : Z) (p : list Z) :
  image_w ≤ x →
  transposed stripes image_w i x (x, p, []) →
  transposed stripes image_w (i + 1) 0 (0, p, []).
Proof.
  intros Hx (_ & _ & Hlen & Hbits); cbn [fst snd] in *.
  split; [done|]. split; [done|]. split; [done|]. cbn [fst snd].
  intros c r k Hc Hr Hk. rewrite (Hbits c r k Hc Hr Hk). do 1 f_equal.
  destruct (Z.ltb_spec c x); [|lia]. rewrite andb_true_r.
  destruct (Z.ltb_spec c 0); [lia|]. rewrite andb_false_r, orb_false_r.
  destruct (Z.ltb_spec (8 * r + k) i), (Z.eqb_spec (8 * r + k) i),
    (Z.ltb_spec (8 * r + k) (i + 1)); try lia; done.
Qed.

Lemma transpose_row_inv (i : nat) (p : list Z) :
  (i < 128)%nat →
  transposed stripes image_w (Z.of_nat i) 0 (0, p, []) →
  ∃ p', transpose_row bw stripes (p, []) i = (p', [])
        ∧ transposed stripes image_w (Z.of_nat (S i)) 0 (0, p', []).
Proof.
  intros Hi Hst. unfold transpose_row.
  assert (Hrow : transposed stripes image_w (Z.of_nat i) (8 * Z.of_nat (Z.to_nat bw))
                   (foldl (transpose_byte (Z.of_nat i) (stripes !!! i)) (0, p, [])
                          (seq 0 (Z.to_nat bw)))).
  { apply (foldl_seq_inv
             (λ w, transposed stripes image_w (Z.of_nat i) (8 * Z.of_nat w))).
    - done.
    - intros w s Hw Hs. apply transpose_byte_inv; [done|lia|done]. }
  destruct (foldl _ _ _) as [[x p'] fl].
  pose proof Hrow as (Hx & Hfl & _); cbn [fst snd] in Hx, Hfl. subst x fl.
  exists p'. split; [done|].
  replace (Z.of_nat (S i)) with (Z.of_nat i + 1) by lia.
  apply (transposed_next_row _ (8 * Z.of_nat (Z.to_nat bw))); [lia|done].
Qed.

(** For a canvas whose padding bits are clear the transposition commits
    no memory error, and bit [i mod 8] of byte [x * 16 + i / 8] of the
    pattern is the pixel of row [i], column [x]; the other bits of the
    pattern are clear. *)
Lemma transpose_spec :
  ∃ p, transpose bw stripes (replicate (Z.to_nat (16 * image_w)) 0) = (p, [])
       ∧ length p = Z.to_nat (16 * image_w)
       ∧ (∀ i x, 0 ≤ i < 128 → 0 ≤ x < image_w →
                 pattern_pixel p i x = canvas_pixel stripes i x)
       ∧ (∀ j k, (j < length p)%nat → 8 ≤ k → Z.testbit (p !!! j) k = false).
Proof.
  unfold transpose.
  assert (Hall : ∃ p, foldl (transpose_row bw stripes)
                        (replicate (Z.to_nat (16 * image_w)) 0, [])
                        (seq 0 (Z.to_nat IMAGE_ROWS)) = (p, [])
                      ∧ transposed stripes image_w
                          (Z.of_nat (Z.to_nat IMAGE_ROWS)) 0 (0, p, [])).
  { apply (foldl_seq_inv
             (λ i acc, ∃ p, acc = (p, [])
                            ∧ transposed stripes image_w (Z.of_nat i) 0 (0, p, []))).
    - eexists; split; [reflexivity|].
      split; [done|]. split; [done|]. cbn [fst snd].
      split; [by rewrite length_replicate|].
      intros c r k Hc Hr Hk.
      rewrite lookup_total_replicate_2 by lia. rewrite Z.bits_0.
      destruct (Z.ltb_spec (8 * r + k) (Z.of_nat 0)); [lia|].
      destruct (Z.eqb_spec (8 * r + k) (Z.of_nat 0)), (Z.ltb_spec c 0);
        try lia; by rewrite ?andb_false_r.
    - intros i acc Hi (p & -> & Hp).
      apply transpose_row_inv; [unfold IMAGE_ROWS in Hi; lia|done]. }
  destruct Hall as (p & Hp & (_ & _ & Hlen & Hbits)); cbn [fst snd] in *.
  exists p. split; [done|]. split; [done|]. split.
  - intros i x Hi Hx. unfold pattern_pixel.
    pose proof (Z.div_mod i 8 ltac:(lia)) as Hdm.
    pose proof (Z.mod_pos_bound i 8 ltac:(lia)) as Hmb.
    assert (Hq : 0 ≤ i / 8 < 16).
    { split; [apply Z.div_pos; lia|apply Z.div_lt_upper_bound; lia]. }
    rewrite Hbits by lia. rewrite <- Hdm.
    destruct (Z.ltb_spec (i mod 8) 8); [|lia].
    destruct (Z.ltb_spec i (Z.of_nat (Z.to_nat IMAGE_ROWS)));
      [|unfold IMAGE_ROWS in *; lia].
    by rewrite andb_true_r.
  - intros j k Hj Hk.
    pose proof (Z.div_mod (Z.of_nat j) 16 ltac:(lia)) as Hdm.
    pose proof (Z.mod_pos_bound (Z.of_nat j) 16 ltac:(lia)) as Hmb.
    assert (Hq : 0 ≤ Z.of_nat j / 16 < image_w).
    { split; [apply Z.div_pos; lia|apply Z.div_lt_upper_bound; lia]. }
    replace j with (Z.to_nat (Z.of_nat j / 16 * 16 + Z.of_nat j mod 16)) by lia.
    rewrite Hbits by lia.
    destruct (Z.ltb_spec k 8); [lia|done].
Qed.

End Transpose.

(** The round trip of C6, for the bitmaps on which it holds.  For a
    file that holds its rows, whose width fits the 32-bit pattern size
    and whose padding bits are clear, [load_image] commits no memory
    error, and reading the pattern back by the inverse map gives every
    pixel of the centred canvas. *)
Theorem load_image_round_trip (hw : host) (hdr rest data : list Z)
    (ch img_w img_h : Z) (w : world) :
  skip_comments false hdr = Some (ch, rest) →
  scan_dims hw (ch :: rest) = Some (img_w, img_h, data) →
  0 < img_w → 16 * img_w < 2 ^ 32 → 0 ≤ img_h < 2 ^ 32 →
  Z.min img_h 128 * ((img_w + 7) / 8) ≤ Z.of_nat (length data) →
  padding_clear (centered_canvas img_w img_h data) img_w ((img_w + 7) / 8) →
  ∃ img,
    load_image hw ([80; 52; 10] ++ hdr) w = Ret (Loaded img) w
    ∧ image_w img = img_w
    ∧ image_stripes img = centered_canvas img_w img_h data
    ∧ pattern_size img = 16 * img_w
    ∧ length (pattern img) = Z.to_nat (16 * img_w)
    ∧ (∀ i x, 0 ≤ i < 128 → 0 ≤ x < img_w →
              pattern_pixel (pattern img) i x
              = canvas_pixel (image_stripes img) i x)
    ∧ (∀ j k, (j < length (pattern img))%nat → 8 ≤ k →
              Z.testbit (pattern img !!! j) k = false).
Proof.
  intros Hskip Hscan Hw Hw32 Hh Hdata Hclear.
  rewrite (load_image_unfold hw hdr rest data ch img_w img_h) by (done || lia).
  rewrite load_pixels_unfold by (done || lia).
  unfold u32. rewrite (Z.mod_small (16 * img_w)) by lia.
  pose proof (Z.div_mod (img_w + 7) 8 ltac:(lia)) as Hdm.
  pose proof (Z.mod_pos_bound (img_w + 7) 8 ltac:(lia)) as Hmb.
  destruct (transpose_spec (centered_canvas img_w img_h data) img_w
              ((img_w + 7) / 8) ltac:(lia) ltac:(lia) Hclear)
    as (p & Htr & Hlen & Hpix & Hhigh).
  rewrite Htr. cbn [fst snd]. rewrite app_nil_r.
  eexists. split; [by destruct w|]. cbn [image_w image_stripes pattern_size pattern].
  done.
Qed.

Lemma load_image_round_trip_witness :
  ∃ img,
    load_image ack_host pbm_4x2 boot = Ret (Loaded img) boot
    ∧ image_w img = 4
    ∧ image_stripes img = centered_canvas 4 2 [0xA0; 0x50]
    ∧ pattern_size img = 16 * 4
    ∧ length (pattern img) = Z.to_nat (16 * 4)
    ∧ (∀ i x, 0 ≤ i < 128 → 0 ≤ x < 4 →
              pattern_pixel (pattern img) i x
              = canvas_pixel (image_stripes img) i x)
    ∧ (∀ j k, (j < length (pattern img))%nat → 8 ≤ k →
              Z.testbit (pattern img !!! j) k = false).
Proof.
  apply (load_image_round_trip ack_host [52; 32; 50; 10; 0xA0; 0x50]
           [32; 50; 10; 0xA0; 0x50] [0xA0; 0x50] 52 4 2 boot);
    [reflexivity|reflexivity|lia|lia|lia|vm_compute; discriminate|].
  by apply padding_clearb_correct.
Defined.

(** C6 fails in the code for a bitmap whose padding bits are set.  The
    file is "P4", "4 1" and the row byte FF: four pixels and four
    padding bits, all set.  The pattern has 4 * 16 = 64 bytes; the loop
    runs over all eight bits of the row and also writes bytes 71, 87,
    103 and 119, past the end of the pattern. *)
Lemma padding_bits_overflow :
  ∃ img,
    load_image ack_host [80; 52; 10; 52; 32; 49; 10; 0xFF] boot
    = Ret (Loaded img)
          {| sent := []; received := 0;
             faults := [OobWrite 71; OobWrite 87; OobWrite 103; OobWrite 119] |}
    ∧ pattern_size img = 64
    ∧ canvas_pixel (image_stripes img) 63 4 = true.
Proof. eexists. split; [vm_compute; reflexivity|]. split; reflexivity. Qed.

(** ** The job sequence *)

Section Job.

Variable hw : host.

Lemma exchange_one_frame (d : list Z) (cnt : Z) (ep : EPSIZE_T) :
  0 ≤ cnt ≤ epsize_val ep → (Z.to_nat cnt ≤ length d)%nat →
  one_frame (exchange hw d cnt ep) (out_frame d cnt ep).
Proof.
  intros Hc Hd w.
  destruct (exchange_cases hw d cnt ep w Hc Hd)
    as [(w1 & -> & Hs) | [(w1 & -> & _ & Hs) | (w1 & -> & _ & Hs)]]; auto.
Qed.

Lemma check_status_one_frame : one_frame (printer_check_status hw) status_frame.
Proof.
  intros w. unfold printer_check_status, mbind, M_bind, send_to_printer.
  cbn [epsize_val Z.ltb Z.compare Pos.compare Pos.compare_cont].
  change (out_frame _ 2 EPSIZE_16) with status_frame.
  destruct (bulk_out hw (length (sent w)) status_frame) as [rc txcnt].
  assert (Hs : sends w [status_frame] (push_frame status_frame w)) by done.
  destruct (negb (rc =? 0)); [done|].
  destruct (negb (txcnt =? 16)); [done|].
  unfold recv_from_printer. cbn [received sent faults push_frame].
  destruct (bulk_in hw (received w)) as [rc2 rsp].
  destruct (rc2 =? 0); [|done].
  destruct (negb _); [split; [by right|done]|].
  destruct (_ || _); (split; [auto|done]).
Qed.

Lemma cancel_job_frame (w : world) :
  match printer_cancel_job hw w with
  | Ret rc w' => rc = 0 ∧ sends w [cancel_frame] w'
  | Abort w' => sends w [cancel_frame] w'
  | Diverge => False
  end.
Proof.
  unfold printer_cancel_job, mbind, M_bind, send_to_printer.
  cbn [epsize_val Z.ltb Z.compare Pos.compare Pos.compare_cont].
  change (out_frame _ 1 EPSIZE_1) with cancel_frame.
  destruct (bulk_out hw (length (sent w)) cancel_frame) as [rc txcnt].
  destruct (negb (rc =? 0)); [done|].
  destruct (negb (txcnt =? 1)); done.
Qed.

(** *** Steps never send the cancel command *)

Lemma grows_refl (w : world) : grows_without_cancel w w.
Proof. exists []. split; [by rewrite app_nil_r|]. apply not_elem_of_nil. Qed.

Lemma grows_trans (w1 w2 w3 : world) :
  grows_without_cancel w1 w2 → grows_without_cancel w2 w3 →
  grows_without_cancel w1 w3.
Proof.
  intros (fs & Hfs & Hno) (gs & Hgs & Hno'). exists (fs ++ gs). split.
  - by rewrite Hgs, Hfs, app_assoc.
  - rewrite elem_of_app. tauto.
Qed.

Lemma sends_grows (w w' : world) (fs : list (list Z)) :
  sends w fs w' → cancel_frame ∉ fs → grows_without_cancel w w'.
Proof. intros [Hs _] Hno. by exists fs. Qed.

Lemma no_cancel_ret {A} (a : A) : no_cancel (mret a : M A).
Proof. intros w. apply grows_refl. Qed.

Lemma no_cancel_bind {A B} (m : M A) (k : A → M B) :
  no_cancel m → (∀ a, no_cancel (k a)) → no_cancel (m ≫= k).
Proof.
  intros Hm Hk w. unfold mbind, M_bind.
  specialize (Hm w). destruct (m w) as [a w1|w1|]; [|done..].
  specialize (Hk a w1). destruct (k a w1) as [b w2|w2|]; [| |done].
  - by apply (grows_trans w w1 w2).
  - by apply (grows_trans w w1 w2).
Qed.

Lemma one_frame_no_cancel (m : M Z) (f : list Z) :
  one_frame m f → f ≠ cancel_frame → no_cancel m.
Proof.
  intros Hm Hf w. specialize (Hm w).
  assert (cancel_frame ∉ [f]) by (rewrite list_elem_of_singleton; congruence).
  destruct (m w) as [rc w'|w'|]; [|by apply (sends_grows w w' [f])|done].
  destruct Hm as [_ Hs]. by apply (sends_grows w w' [f]).
Qed.

Lemma no_cancel_if {A} (b : bool) (m1 m2 : M A) :
  no_cancel m1 → no_cancel m2 → no_cancel (if b then m1 else m2).
Proof. by destruct b. Qed.

Lemma send_no_cancel (d : list Z) (cnt : Z) (ep : EPSIZE_T) :
  out_frame d cnt ep ≠ cancel_frame → no_cancel (send_to_printer hw d cnt ep).
Proof.
  intros Hf w. unfold send_to_printer.
  destruct (epsize_val ep <? cnt); [apply grows_refl|].
  assert (Hg : grows_without_cancel w (push_frame (out_frame d cnt ep) w)).
  { apply (sends_grows _ _ [out_frame d cnt ep]); [done|].
    rewrite list_elem_of_singleton. congruence. }
  destruct (bulk_out hw _ _) as [rc txcnt].
  destruct (negb (rc =? 0)); [done|]. by destruct (negb (txcnt =? _)).
Qed.

Lemma recv_no_cancel : no_cancel (recv_from_printer hw).
Proof.
  intros w. unfold recv_from_printer.
  destruct (bulk_in hw (received w)) as [rc rsp].
  destruct (rc =? 0); (exists []; split; [by rewrite app_nil_r|apply not_elem_of_nil]).
Qed.

Lemma long_frame_not_cancel (d : list Z) (cnt : Z) (ep : EPSIZE_T) :
  0 ≤ cnt ≤ epsize_val ep → (Z.to_nat cnt ≤ length d)%nat → ep ≠ EPSIZE_1 →
  out_frame d cnt ep ≠ cancel_frame.
Proof.
  intros Hc Hd Hep Heq.
  pose proof (out_frame_length d cnt ep Hc Hd) as Hlen.
  rewrite Heq in Hlen. destruct ep; cbn in Hlen; (done || lia).
Qed.

End Job.

Create HintDb no_cancel.

#[local] Hint Resolve no_cancel_ret recv_no_cancel : no_cancel.
#[local] Hint Extern 2 (no_cancel (if _ then _ else _)) =>
  apply no_cancel_if : no_cancel.
#[local] Hint Extern 2 (no_cancel (mbind _ _)) =>
  apply no_cancel_bind; [|intros ?] : no_cancel.
#[local] Hint Extern 1 (no_cancel (send_to_printer _ _ _ EPSIZE_16)) =>
  apply send_no_cancel, long_frame_not_cancel;
  [cbn; lia|cbn; lia|discriminate] : no_cancel.
#[local] Hint Extern 1 (no_cancel (send_to_printer _ _ _ EPSIZE_1)) =>
  apply send_no_cancel; discriminate : no_cancel.

Section Steps.

Variable hw : host.

Lemma recv_ack_no_cancel : no_cancel (printer_recv_ack hw).
Proof. unfold printer_recv_ack. auto 10 with no_cancel. Qed.

#[local] Hint Resolve recv_ack_no_cancel : no_cancel.

Lemma check_status_no_cancel : no_cancel (printer_check_status hw).
Proof. unfold printer_check_status. auto 10 with no_cancel. Qed.

Lemma reset_no_cancel : no_cancel (printer_reset hw).
Proof. unfold printer_reset. auto 10 with no_cancel. Qed.

Lemma prejob_no_cancel : no_cancel (printer_prejob hw).
Proof. unfold printer_prejob. auto 20 with no_cancel. Qed.

Lemma check_tape_no_cancel (t : TAPECODE_T) : no_cancel (printer_check_tape hw t).
Proof. unfold printer_check_tape. auto 10 with no_cancel. Qed.

Lemma set_speed_no_cancel : no_cancel (printer_set_speed hw).
Proof. unfold printer_set_speed. auto 10 with no_cancel. Qed.

Lemma set_margin_no_cancel (m : MARGINCODE_T) : no_cancel (printer_set_margin hw m).
Proof. unfold printer_set_margin. auto 10 with no_cancel. Qed.

Lemma set_density_no_cancel (d : DENSITYCODE_T) : no_cancel (printer_set_density hw d).
Proof. unfold printer_set_density. auto 10 with no_cancel. Qed.

Lemma set_cutter_no_cancel (c : CUTTERCODE_T) : no_cancel (printer_set_cutter hw c).
Proof. unfold printer_set_cutter. auto 10 with no_cancel. Qed.

End Steps.

(** ** What the loader hands to the job *)

Lemma transpose_bit_length (i cell : Z) (st : Z * list Z * list fault) (b : nat) :
  length (transpose_bit i cell st b).1.2 = length st.1.2.
Proof.
  destruct st as [[x p] fl]. unfold transpose_bit, or_cell. cbn [fst snd].
  destruct (negb _); [|done].
  destruct (p !! _); cbn [fst snd]; [by rewrite length_insert|done].
Qed.

Lemma transpose_length (bw : Z) (stripes : list (list Z)) (p : list Z) :
  length (transpose bw stripes p).1 = length p.
Proof.
  unfold transpose.
  apply (foldl_seq_inv (λ _ (acc : list Z * list fault), length acc.1 = length p));
    [done|].
  intros i [q fl] _ Hq. unfold transpose_row. cbn [fst] in Hq.
  assert (Hrow : length (foldl (transpose_byte (Z.of_nat i) (stripes !!! i))
                           (0, q, fl) (seq 0 (Z.to_nat bw))).1.2 = length p).
  { apply (foldl_seq_inv (λ _ (st : Z * list Z * list fault),
                            length st.1.2 = length p)); [done|].
    intros w st _ Hst. unfold transpose_byte.
    apply (foldl_seq_inv (λ _ (st : Z * list Z * list fault),
                            length st.1.2 = length p)); [done|].
    intros b st' _ Hst'. by rewrite transpose_bit_length. }
  by destruct (foldl _ _ _) as [[x q'] fl'].
Qed.

Lemma load_pixels_loaded (img_w img_h : Z) (data : list Z) (w : world) :
  match load_pixels img_w img_h data w with
  | Ret l w' =>
      sent w' = sent w ∧ received w' = received w ∧
      ∀ img, l = Loaded img →
             pattern_size img = Z.of_nat (length (pattern img))
             ∧ pattern_size img < 2 ^ 32
  | _ => False
  end.
Proof.
  unfold load_pixels.
  destruct (read_rows _ _ _ _ _ _) as [[stripes rest]|]; [|done].
  set (ps := u32 (IMAGE_ROWS / 8 * img_w)).
  pose proof (transpose_length (u32 (img_w + 7) / 8) stripes
                (replicate (Z.to_nat ps) 0)) as Hlen.
  destruct (transpose _ _ _) as [p fl]. cbn [fst] in Hlen.
  split; [reflexivity|]. split; [reflexivity|]. intros img [= <-].
  cbn [pattern_size pattern]. rewrite Hlen, length_replicate.
  assert (0 ≤ ps < 2 ^ 32) by (apply Z.mod_pos_bound; lia).
  lia.
Qed.

Lemma load_image_loaded (hw : host) (fin : list Z) (w : world) :
  match load_image hw fin w with
  | Ret l w' =>
      sent w' = sent w ∧ received w' = received w ∧
      ∀ img, l = Loaded img →
             pattern_size img = Z.of_nat (length (pattern img))
             ∧ pattern_size img < 2 ^ 32
  | Abort _ => False
  | Diverge => True
  end.
Proof.
  unfold load_image.
  destruct (getc fin) as [c1 f1]. destruct (negb (c1 =? 80)); [done|].
  destruct (getc f1) as [c2 f2]. destruct (negb (c2 =? 52)); [done|].
  destruct (getc f2) as [c3 f3]. destruct (negb (c3 =? 10)); [done|].
  destruct (skip_comments false f3) as [[ch f4]|]; [|done].
  destruct (scan_dims hw (ch :: f4)) as [[[img_w img_h] data]|]; [|done].
  pose proof (load_pixels_loaded (u32 img_w) (u32 img_h) data w) as Hl.
  by destruct (load_pixels _ _ _ w).
Qed.

Lemma send_raster_no_cancel (hw : host) (raw : list Z) (n : Z) :
  n = Z.of_nat (length raw) → n < 2 ^ 32 →
  no_cancel (printer_send_raster hw raw n).
Proof.
  intros Hn Hn32 w.
  assert (Hnew : ∀ f, f ∈ new_frames w (printer_send_raster hw raw n w)
                      → f ≠ cancel_frame).
  { intros f Hf. eapply raster_frame_not_cancel, run_frames; eauto. }
  assert (Hpre : ∃ fs, sent (world_of (printer_send_raster hw raw n w) w)
                       = sent w ++ fs).
  { destruct (Z.le_gt_cases 1 n) as [Hn1|Hn0].
    - pose proof (run_plays hw raw n w Hn Hn32 Hn1) as Hp.
      destruct (printer_send_raster hw raw n w) as [rc w'|w'|]; cbn in *.
      + destruct Hp as [[_ [Hs _]]|(_ & _ & j & [Hs _])]; eauto.
      + destruct Hp as (_ & j & [Hs _]); eauto.
      + done.
    - assert (raw = []) as -> by (destruct raw; [done|cbn in Hn; lia]).
      subst n. cbn [length Z.of_nat]. rewrite printer_send_raster_empty.
      exists []. cbn. by rewrite app_nil_r. }
  destruct Hpre as [fs Hfs]. unfold new_frames in Hnew.
  rewrite Hfs, drop_app_length in Hnew.
  assert (cancel_frame ∉ fs) by (intros Hin; by apply (Hnew _ Hin)).
  destruct (printer_send_raster hw raw n w) as [rc w'|w'|]; [| |done];
    by exists fs.
Qed.

(** ** The claims on [main] *)

Section Main.

Variables (hw : host) (opts : options) (fin : list Z).
Hypothesis Hready : usb_ready hw.

Lemma main_ready :
  main hw opts fin =
    (_ ← printer_check_status hw;
     _ ← printer_reset hw;
     match opt_operation opts with
     | OPERATION_FEED => _ ← printer_tape_feed hw; mret 0
     | OPERATION_CUT => _ ← printer_tape_cut hw; mret 0
     | OPERATION_HALFCUT => _ ← printer_tape_halfcut hw; mret 0
     | OPERATION_PRINT =>
         l ← load_image hw fin;
         match l with
         | LoadError => mret 1
         | Loaded img =>
             run_steps (job_steps hw opts img) false
               (λ _, _ ← printer_cancel_job hw; mret 0)
         end
     end).
Proof.
  destruct Hready as (Hinit & Hopen & Hclaim). unfold main.
  destruct (Z.ltb_spec (usb_init hw) 0) as [?|_]; [lia|].
  rewrite Hopen, Hclaim. reflexivity.
Qed.

Lemma sequence_of_three (m1 m2 m3 : M Z) (f1 f2 f3 : list Z) (w : world) :
  one_frame m1 f1 → one_frame m2 f2 → one_frame m3 f3 →
  match (_ ← m1; _ ← m2; _ ← m3; mret 0) w with
  | Ret rc w' => rc = 0 ∧ sends w [f1; f2; f3] w'
  | Abort w' => ∃ j, (1 ≤ j ≤ 3)%nat ∧ sends w (take j [f1; f2; f3]) w'
  | Diverge => False
  end.
Proof.
  intros H1 H2 H3. unfold mbind, M_bind.
  specialize (H1 w). destruct (m1 w) as [r1 w1|w1|]; [| |done].
  2:{ exists 1%nat. split; [lia|done]. }
  destruct H1 as [_ Hs1].
  specialize (H2 w1). destruct (m2 w1) as [r2 w2|w2|]; [| |done].
  2:{ exists 2%nat. split; [lia|]. apply (sends_trans _ _ _ _ _ Hs1 H2). }
  destruct H2 as [_ Hs2]. pose proof (sends_trans _ _ _ _ _ Hs1 Hs2) as Hs12.
  specialize (H3 w2). destruct (m3 w2) as [r3 w3|w3|]; [| |done].
  2:{ exists 3%nat. split; [lia|]. apply (sends_trans _ _ _ _ _ Hs12 H3). }
  destruct H3 as [_ Hs3]. split; [done|].
  apply (sends_trans _ _ _ _ _ Hs12 Hs3).
Qed.

Lemma run_steps_skip {A} (steps : list (M Z)) (k : bool → M A) (w : world) :
  run_steps steps true k w = k true w.
Proof. induction steps as [|s steps IH]; [done|]. cbn. exact IH. Qed.

Lemma run_steps_fail {A} (pre post : list (M Z)) (failing : M Z)
    (k : bool → M A) (w w1 w2 : world) (rc : Z) :
  pass_all pre w = Some w1 → failing w1 = Ret rc w2 → rc ≠ 0 →
  run_steps (pre ++ failing :: post) false k w = k true w2.
Proof.
  revert w. induction pre as [|s pre IH]; intros w Hpass Hfail Hrc.
  - injection Hpass as ->. cbn [app run_steps unless negb].
    unfold mbind, M_bind. rewrite Hfail.
    destruct (Z.eqb_spec rc 0) as [?|_]; [done|]. apply run_steps_skip.
  - cbn [pass_all] in Hpass. cbn [app run_steps unless negb].
    unfold mbind, M_bind.
    destruct (s w) as [r w'|w'|]; [|done..].
    destruct (Z.eqb_spec r 0) as [->|?]; [|done].
    cbn [Z.eqb negb]. by apply IH.
Qed.

Lemma pass_all_grows (steps : list (M Z)) (w w1 : world) :
  Forall no_cancel steps → pass_all steps w = Some w1 →
  grows_without_cancel w w1.
Proof.
  intros Hall. revert w. induction Hall as [|s steps Hs _ IH]; intros w Hpass.
  - injection Hpass as ->. apply grows_refl.
  - cbn [pass_all] in Hpass. specialize (Hs w).
    destruct (s w) as [r w'|w'|]; [|done..].
    destruct (r =? 0); [|done].
    eapply grows_trans; [exact Hs|by apply IH].
Qed.

Lemma job_steps_no_cancel (img : image) :
  pattern_size img = Z.of_nat (length (pattern img)) →
  pattern_size img < 2 ^ 32 →
  Forall no_cancel (job_steps hw opts img).
Proof.
  intros Hsize H32. unfold job_steps.
  repeat apply Forall_cons_2; [..|apply Forall_nil_2].
  - apply prejob_no_cancel.
  - apply check_tape_no_cancel.
  - apply reset_no_cancel.
  - apply set_speed_no_cancel.
  - apply set_margin_no_cancel.
  - apply set_density_no_cancel.
  - apply set_cutter_no_cancel.
  - apply check_status_no_cancel.
  - by apply send_raster_no_cancel.
Qed.

Lemma count_frame_absent (f : list Z) (fs : list (list Z)) :
  f ∉ fs → count_frame f fs = 0%nat.
Proof.
  induction fs as [|g fs IH]; [done|].
  rewrite not_elem_of_cons, count_frame_cons. intros [Hne Hnot].
  destruct (decide (g = f)); [congruence|]. by rewrite IH.
Qed.

Lemma run_steps_pass {A} (steps : list (M Z)) (k : bool → M A) (w w1 : world) :
  pass_all steps w = Some w1 → run_steps steps false k w = k false w1.
Proof.
  revert w. induction steps as [|s steps IH]; intros w Hpass.
  - by injection Hpass as ->.
  - cbn [pass_all] in Hpass. cbn [run_steps unless negb].
    unfold mbind, M_bind.
    destruct (s w) as [r w'|w'|]; [|done..].
    destruct (Z.eqb_spec r 0) as [->|?]; [|done].
    cbn [Z.eqb negb]. by apply IH.
Qed.

(** When every guarded step returns 0 the job ends with the cancel
    command all the same. *)
Lemma job_done_then_cancel (w w0 w1 : world) (img : image) :
  opt_operation opts = OPERATION_PRINT →
  job_preamble hw fin w = Ret (Loaded img) w0 →
  pass_all (job_steps hw opts img) w0 = Some w1 →
  main hw opts fin w = (_ ← printer_cancel_job hw; mret 0) w1.
Proof.
  intros Hop Hpre Hpass.
  rewrite main_ready, Hop. unfold job_preamble in Hpre.
  unfold mbind, M_bind in *.
  destruct (printer_check_status hw w) as [r1 wa|wa|]; [|done..].
  destruct (printer_reset hw wa) as [r2 wb|wb|]; [|done..].
  rewrite Hpre. by rewrite (run_steps_pass _ _ w0 w1).
Qed.

End Main.

(** C3 (amended).  For feed, cut and half-cut [main] first sends the
    status check and the reset that it sends for every operation, their
    results ignored, and then the one command of the operation.  These
    three frames are all it sends when it returns (and what it sends up
    to the point of a fatal transport error otherwise); none of them is
    the cancel command, and nothing of the print job is run. *)
Theorem single_operation (hw : host) (opts : options) (fin : list Z)
    (w : world) :
  usb_ready hw →
  opt_operation opts ≠ OPERATION_PRINT →
  let script := [status_frame; reset_frame] ++ operation_frame (opt_operation opts) in
  length script = 3%nat
  ∧ (cancel_frame ∉ script)
  ∧ match main hw opts fin w with
    | Ret rc w' => rc = 0 ∧ sends w script w'
    | Abort w' => ∃ j, (1 ≤ j ≤ 3)%nat ∧ sends w (take j script) w'
    | Diverge => False
    end.
Proof.
  intros Hready Hop script. rewrite main_ready by done. unfold script.
  pose proof (check_status_one_frame hw) as Hst.
  assert (Hrs : one_frame (printer_reset hw) reset_frame)
    by (apply (exchange_one_frame hw [0x02; 0x01] 2 EPSIZE_16); cbn; lia).
  destruct (opt_operation opts); [done| | |]; cbn [operation_frame app length].
  - split; [done|]. split; [rewrite !not_elem_of_cons; repeat split; (discriminate || apply not_elem_of_nil)|].
    apply sequence_of_three; [done|done|].
    apply (exchange_one_frame hw [0x0A] 1 EPSIZE_1); cbn; lia.
  - split; [done|]. split; [rewrite !not_elem_of_cons; repeat split; (discriminate || apply not_elem_of_nil)|].
    apply sequence_of_three; [done|done|].
    apply (exchange_one_frame hw [0x08] 1 EPSIZE_1); cbn; lia.
  - split; [done|]. split; [rewrite !not_elem_of_cons; repeat split; (discriminate || apply not_elem_of_nil)|].
    apply sequence_of_three; [done|done|].
    apply (exchange_one_frame hw [0x09] 1 EPSIZE_1); cbn; lia.
Qed.

(** C2 (amended).  In a print job the steps that [main] guards are, in
    order, prejob, tape check, the second reset, speed, margin,
    density, cutter, the second status check and the raster transfer.
    When the steps before one of them have returned 0 and that one
    returns an error, [main] runs none of the steps after it: it goes
    straight to the cancel command, which is the next and last frame it
    sends, and the only cancel command of the run.  (The status check
    and the reset at the start of [main] are not guarded: their result
    is dropped.) *)
Theorem fail_fast_then_cancel (hw : host) (opts : options) (fin : list Z)
    (w w0 w1 w2 : world) (img : image)
    (pre post : list (M Z)) (failing : M Z) (rc : Z) :
  usb_ready hw →
  opt_operation opts = OPERATION_PRINT →
  job_preamble hw fin w = Ret (Loaded img) w0 →
  job_steps hw opts img = pre ++ failing :: post →
  pass_all pre w0 = Some w1 →
  failing w1 = Ret rc w2 →
  rc ≠ 0 →
  main hw opts fin w = (_ ← printer_cancel_job hw; mret 0) w2
  ∧ sent (world_of (main hw opts fin w) w) = sent w2 ++ [cancel_frame]
  ∧ count_frame cancel_frame (new_frames w (main hw opts fin w)) = 1%nat.
Proof.
  intros Hready Hop Hpre Hsteps Hpass Hfail Hrc.
  assert (Hmain : main hw opts fin w = (_ ← printer_cancel_job hw; mret 0) w2).
  { rewrite main_ready, Hop by done. unfold job_preamble in Hpre.
    unfold mbind, M_bind in *.
    destruct (printer_check_status hw w) as [r1 wa|wa|]; [|done..].
    destruct (printer_reset hw wa) as [r2 wb|wb|]; [|done..].
    rewrite Hpre, Hsteps.
    by rewrite (run_steps_fail pre post failing _ w0 w1 w2 rc). }
  split; [done|].
  assert (Hend : sent (world_of (main hw opts fin w) w) = sent w2 ++ [cancel_frame]).
  { rewrite Hmain. unfold mbind, M_bind.
    pose proof (cancel_job_frame hw w2) as Hc.
    destruct (printer_cancel_job hw w2) as [r w3|w3|]; [| |done].
    - by destruct Hc as [_ [Hs _]].
    - by destruct Hc as [Hs _]. }
  split; [done|].
  (* no cancel command before the failing step has returned *)
  assert (Hgrow : grows_without_cancel w w2).
  { assert (Hpreamble : no_cancel (job_preamble hw fin)).
    { unfold job_preamble.
      apply no_cancel_bind; [apply check_status_no_cancel|intros _].
      apply no_cancel_bind; [apply reset_no_cancel|intros _].
      intros wx. pose proof (load_image_loaded hw fin wx) as Hl.
      destruct (load_image hw fin wx) as [l wy|wy|]; [|done..].
      destruct Hl as (Hs & _). exists []. rewrite app_nil_r.
      split; [done|apply not_elem_of_nil]. }
    specialize (Hpreamble w). rewrite Hpre in Hpreamble.
    assert (Himg : pattern_size img = Z.of_nat (length (pattern img))
                   ∧ pattern_size img < 2 ^ 32).
    { unfold job_preamble, mbind, M_bind in Hpre.
      destruct (printer_check_status hw w) as [r1 wa|wa|]; [|done..].
      destruct (printer_reset hw wa) as [r2 wb|wb|]; [|done..].
      pose proof (load_image_loaded hw fin wb) as Hl. rewrite Hpre in Hl.
      destruct Hl as (_ & _ & Hl). by apply Hl. }
    destruct Himg as [Hsize H32].
    pose proof (job_steps_no_cancel hw opts img Hsize H32) as Hall.
    rewrite Hsteps, Forall_app, Forall_cons in Hall.
    destruct Hall as (Hall_pre & Hfailing & _).
    eapply grows_trans; [exact Hpreamble|].
    eapply grows_trans; [by apply (pass_all_grows pre w0 w1)|].
    specialize (Hfailing w1). by rewrite Hfail in Hfailing. }
  destruct Hgrow as (fs & Hfs & Hno).
  unfold new_frames. rewrite Hend, Hfs, <- app_assoc, drop_app_length.
  rewrite count_frame_app, count_frame_absent by done. reflexivity.
Qed.


Lemma usb_ready_printer_host (replies : nat → list Z) :
  usb_ready (printer_host replies).
Proof. by repeat split. Qed.

Lemma single_operation_witness :
  match main ack_host feed_options [] boot with
  | Ret rc w' => rc = 0 ∧ sends boot [status_frame; reset_frame; [0x0A]] w'
  | Abort w' =>
      ∃ j, (1 ≤ j ≤ 3)%nat ∧ sends boot (take j [status_frame; reset_frame; [0x0A]]) w'
  | Diverge => False
  end.
Proof.
  apply (single_operation ack_host feed_options [] boot
           (usb_ready_printer_host _)).
  discriminate.
Defined.

(** C3 as stated fails on the number of commands: for a feed the
    printer receives the status check and the reset before the feed
    command, three commands in all. *)
Lemma feed_sends_three_commands :
  new_frames boot (main ack_host feed_options [] boot)
  = [status_frame; reset_frame; [0x0A]].
Proof. reflexivity. Qed.

Lemma fail_fast_then_cancel_witness :
  main wrong_tape_host default_options pbm_4x2 boot
  = (_ ← printer_cancel_job wrong_tape_host; mret 0) tape_refused
  ∧ sent (world_of (main wrong_tape_host default_options pbm_4x2 boot) boot)
    = sent tape_refused ++ [cancel_frame]
  ∧ count_frame cancel_frame
      (new_frames boot (main wrong_tape_host default_options pbm_4x2 boot)) = 1%nat.
Proof.
  eapply (fail_fast_then_cancel wrong_tape_host default_options pbm_4x2
            boot _ _ tape_refused _
            [printer_prejob wrong_tape_host] _
            (printer_check_tape wrong_tape_host TAPECODE_12MM) 1).
  - apply usb_ready_printer_host.
  - reflexivity.
  - vm_compute. reflexivity.
  - reflexivity.
  - vm_compute. reflexivity.
  - vm_compute. reflexivity.
  - discriminate.
Defined.

(** C2 as stated fails for the first two steps of the sequence.  With
    a printer that answers the status check with a single ACK byte the
    check returns 1, and yet [main] goes on to the reset and to both
    frames of the prejob step; only the prejob failure stops the job. *)
Lemma status_failure_not_latched :
  returned (printer_check_status ack_host boot) = Some 1
  ∧ new_frames boot (main ack_host default_options pbm_4x2 boot)
    = [status_frame; reset_frame;
       [0x02; 0x02; 0x04; 0; 0; 0x09; 0x09; 0x01; 0; 0; 0; 0; 0; 0; 0; 0];
       [0x02; 0x82; 0; 0; 0; 0; 0; 0; 0; 0; 0; 0; 0; 0; 0; 0];
       cancel_frame].
Proof. split; vm_compute; reflexivity. Qed.

(** ** The raster loop always ends *)

Lemma ends_ret {A} (a : A) (Q : A → Prop) : Q a → ends (mret a : M A) Q.
Proof. intros Ha w. exact Ha. Qed.

Lemma ends_bind {A B} (m : M A) (k : A → M B) (Q : A → Prop) (R : B → Prop) :
  ends m Q → (∀ a, Q a → ends (k a) R) → ends (m ≫= k) R.
Proof.
  intros Hm Hk w. unfold mbind, M_bind. specialize (Hm w).
  destruct (m w) as [a w'|w'|]; [|done..]. by apply Hk.
Qed.

Lemma ends_if {A} (b : bool) (m1 m2 : M A) (Q : A → Prop) :
  ends m1 Q → ends m2 Q → ends (if b then m1 else m2) Q.
Proof. by destruct b. Qed.

Lemma send_ends (hw : host) (d : list Z) (cnt : Z) (ep : EPSIZE_T) :
  ends (send_to_printer hw d cnt ep) (λ _, True).
Proof.
  intros w. unfold send_to_printer. destruct (_ <? _); [done|].
  destruct (bulk_out hw _ _) as [rc tx].
  destruct (negb (rc =? 0)); [done|]. by destruct (negb (tx =? _)).
Qed.

Lemma recv_ack_ends (hw : host) : ends (printer_recv_ack hw) (λ rc, rc = 0 ∨ rc = 1).
Proof.
  intros w. unfold printer_recv_ack, mbind, M_bind, recv_from_printer.
  destruct (bulk_in hw (received w)) as [rc rsp].
  destruct (rc =? 0); [|done]. destruct (_ || _); cbn; auto.
Qed.

Lemma exchange_ends (hw : host) (d : list Z) (cnt : Z) (ep : EPSIZE_T) :
  ends (exchange hw d cnt ep) (λ rc, rc = 0 ∨ rc = 1).
Proof.
  apply (ends_bind _ _ (λ _, True)); [apply send_ends|].
  intros _ _. apply recv_ack_ends.
Qed.

Lemma raster_iter_ends (hw : host) (raw : list Z) (n : Z) (v : raster_vars) :
  ends (raster_iter hw raw n v)
       (λ f, match f with
             | Continue v' => sent_size v' = u32 (sent_size v + 1)
             | Return rc => rc = 1
             end).
Proof.
  unfold raster_iter.
  apply (ends_bind _ _ (λ _, True)).
  { intros w. unfold read_raw. by destruct (raw !! _). }
  intros b _. apply (ends_bind _ _ (λ _, True)).
  { intros w. unfold store. by destruct (_ <? _). }
  intros blk _. apply ends_if; [|by apply ends_ret].
  apply (ends_bind _ _ (λ _, True)).
  { intros w. rewrite raster_block_exchange. cbv zeta.
    pose proof (exchange_ends hw
      (<[3%nat:=0]> (<[2%nat:=u8 (u32 (block_size v + 1))]>
         (<[1%nat:=254]> (<[0%nat:=PRINTER_STX]> blk))))
      (u8 (u8 (u32 (block_size v + 1)) + 4)) EPSIZE_64 w) as Hx.
    by destruct (exchange _ _ _ _ w). }
  intros [rc blk'] _. apply ends_if; [by apply ends_ret|].
  apply (ends_bind _ _ (λ _, True)).
  { apply ends_if; [|by apply ends_ret].
    intros w. pose proof (exchange_ends hw [PRINTER_STX; 4] 2 EPSIZE_16 w) as Hx.
    change (printer_raster_end hw) with (exchange hw [PRINTER_STX; 4] 2 EPSIZE_16).
    by destruct (exchange _ _ _ _ w). }
  intros rc2 _. apply ends_if; [by apply ends_ret|].
  apply ends_if; [|by apply ends_ret].
  apply (ends_bind _ _ (λ _, True)).
  { intros w. pose proof (exchange_ends hw [0x0C] 1 EPSIZE_1 w) as Hx.
    change (printer_print_page hw) with (exchange hw [0x0C] 1 EPSIZE_1).
    by destruct (exchange _ _ _ _ w). }
  intros rc3 _. apply ends_if; by apply ends_ret.
Qed.

Lemma raster_loop_ends (hw : host) (raw : list Z) (n : Z) :
  n < 2 ^ 32 →
  ∀ (fuel : nat) (v : raster_vars),
    0 ≤ sent_size v → sent_size v + 1 < 2 ^ 32 →
    n - sent_size v - 1 ≤ Z.of_nat fuel →
    ends (raster_loop hw fuel raw n v) (λ rc, rc = 0 ∨ rc = 1).
Proof.
  intros Hn32. induction fuel as [|fuel IH]; intros v Hs Hs32 Hfuel.
  all: rewrite raster_loop_unfold.
  all: eapply ends_bind; [apply raster_iter_ends|].
  all: intros [v'|rc] Hf; [|apply ends_ret; auto].
  all: unfold u32 in Hf; rewrite Z.mod_small in Hf by lia.
  all: destruct (Z.ltb_spec (sent_size v') n) as [Hlt|_]; [|apply ends_ret; auto].
  - lia.
  - apply IH; lia.
Qed.

(** [printer_send_raster] returns 0 or 1, or the process aborts: the
    fuel of the model never runs out. *)
Lemma printer_send_raster_ends (hw : host) (raw : list Z) (n : Z) :
  n < 2 ^ 32 → ends (printer_send_raster hw raw n) (λ rc, rc = 0 ∨ rc = 1).
Proof.
  intros Hn32. unfold printer_send_raster.
  apply raster_loop_ends; cbn [sent_size]; lia.
Qed.

(** ** Reading the canvas back *)

Lemma byte_of_bits (c : Z) :
  0 ≤ c < 256 →
  foldl (λ acc b, 2 * acc + (if Z.testbit c (7 - b) then 1 else 0)) 0 (seqZ 0 8) = c.
Proof.
  intros Hc.
  assert (Hall : forallb
            (λ c, foldl (λ acc b, 2 * acc + (if Z.testbit c (7 - b) then 1 else 0))
                        0 (seqZ 0 8) =? c)
            (seqZ 0 256) = true) by (vm_compute; reflexivity).
  rewrite forallb_forall in Hall. apply Z.eqb_eq, Hall.
  rewrite <- list_elem_of_In, elem_of_seqZ. lia.
Qed.

Lemma foldl_ext_in {A B} (f g : A → B → A) (l : list B) (a : A) :
  (∀ acc b, b ∈ l → f acc b = g acc b) → foldl f a l = foldl g a l.
Proof.
  revert a. induction l as [|b l IH]; intros a Hfg; [done|].
  cbn [foldl]. rewrite Hfg by apply list_elem_of_here.
  apply IH. intros acc b' Hb'. apply Hfg. by apply list_elem_of_further.
Qed.

Lemma untranspose_byte_cell (stripes : list (list Z)) (p : list Z)
    (image_w bw i w : Z) :
  0 ≤ i < 128 → 0 ≤ w < bw → 0 ≤ image_w →
  padding_clear stripes image_w bw →
  (∀ x, 0 ≤ x < image_w → pattern_pixel p i x = canvas_pixel stripes i x) →
  0 ≤ (stripes !!! Z.to_nat i) !!! Z.to_nat w < 256 →
  untranspose_byte p image_w i w = (stripes !!! Z.to_nat i) !!! Z.to_nat w.
Proof.
  intros Hi Hw Himw Hclear Hpix Hcell. unfold untranspose_byte.
  etransitivity; [|apply (byte_of_bits _ Hcell)].
  apply foldl_ext_in. intros acc b Hb%elem_of_seqZ. do 2 f_equal.
  assert (Hcp : canvas_pixel stripes i (8 * w + b)
                = Z.testbit ((stripes !!! Z.to_nat i) !!! Z.to_nat w) (7 - b)).
  { unfold canvas_pixel.
    replace ((8 * w + b) / 8) with w by (apply (Z.div_unique_pos _ _ _ b); lia).
    by replace ((8 * w + b) mod 8) with b by (apply (Z.mod_unique_pos _ _ w); lia). }
  rewrite <- Hcp.
  destruct (Z.ltb_spec (8 * w + b) image_w) as [Hin|Hout]; cbn [andb].
  - rewrite Hpix by lia. reflexivity.
  - rewrite Hclear by (unfold IMAGE_ROWS; lia). reflexivity.
Qed.

Lemma untranspose_canvas (stripes : list (list Z)) (p : list Z) (image_w : Z) :
  0 ≤ image_w →
  canvas_ok stripes ((image_w + 7) / 8) →
  padding_clear stripes image_w ((image_w + 7) / 8) →
  (∀ i x, 0 ≤ i < 128 → 0 ≤ x < image_w →
          pattern_pixel p i x = canvas_pixel stripes i x) →
  untranspose p image_w = stripes.
Proof.
  intros Himw [Hrows Hcells] Hclear Hpix. unfold untranspose, IMAGE_ROWS.
  set (bw := (image_w + 7) / 8) in *.
  assert (0 ≤ bw) by (apply Z.div_pos; lia).
  apply (list_eq_same_length _ _ 128); [done|by rewrite length_fmap, length_seqZ|].
  intros i row' row Hi Hrow' Hrow.
  rewrite list_lookup_fmap, lookup_seqZ_lt in Hrow' by lia.
  injection Hrow' as <-. rewrite Z.add_0_l.
  destruct (Forall_lookup_1 _ _ _ _ Hcells Hrow) as [Hlen Hbytes].
  apply (list_eq_same_length _ _ (Z.to_nat bw)); [done|by rewrite length_fmap, length_seqZ|].
  intros w c' c Hw Hc' Hc.
  rewrite list_lookup_fmap, lookup_seqZ_lt in Hc' by lia.
  injection Hc' as <-. rewrite Z.add_0_l.
  rewrite (untranspose_byte_cell stripes p image_w bw); try lia; try done.
  - rewrite !Nat2Z.id, (list_lookup_total_correct _ _ _ Hrow).
    by rewrite (list_lookup_total_correct _ _ _ Hc).
  - intros x Hx. apply Hpix; lia.
  - rewrite !Nat2Z.id, (list_lookup_total_correct _ _ _ Hrow),
      (list_lookup_total_correct _ _ _ Hc).
    by apply (Forall_lookup_1 _ _ _ _ Hbytes Hc).
Qed.

Lemma file_rows_ok (bw h : nat) (data : list Z) :
  (h * bw ≤ length data)%nat → Forall (λ c, 0 ≤ c < 256) data →
  Forall (λ row, length row = bw ∧ Forall (λ c, 0 ≤ c < 256) row)
         (file_rows bw h data).
Proof.
  revert data. induction h as [|h IH]; intros data Hlen Hdata; cbn [file_rows].
  { apply Forall_nil_2. }
  apply Forall_cons_2.
  - split; [rewrite length_take; lia|by apply Forall_take].
  - apply IH; [rewrite length_drop; lia|by apply Forall_drop].
Qed.

Lemma centered_canvas_ok (img_w img_h : Z) (data : list Z) :
  0 ≤ img_w → 0 ≤ img_h →
  Z.min img_h 128 * ((img_w + 7) / 8) ≤ Z.of_nat (length data) →
  Forall (λ c, 0 ≤ c < 256) data →
  canvas_ok (centered_canvas img_w img_h data) ((img_w + 7) / 8).
Proof.
  intros Hw Hh Hlen Hdata. split; [by apply centered_canvas_length|].
  assert (0 ≤ (img_w + 7) / 8) by (apply Z.div_pos; lia).
  unfold centered_canvas. rewrite !Forall_app.
  assert (Hzero : ∀ k, Forall (λ row, length row = Z.to_nat ((img_w + 7) / 8)
                                      ∧ Forall (λ c, 0 ≤ c < 256) row)
                         (replicate k (replicate (Z.to_nat ((img_w + 7) / 8)) 0))).
  { intros k. apply Forall_replicate. split; [by rewrite length_replicate|].
    apply Forall_replicate. lia. }
  split; [apply Hzero|]. split; [|apply Hzero].
  apply file_rows_ok; [nia|done].
Qed.

(** The round trip of C6 on whole bytes: for a file of bytes that holds
    its rows, with clear padding bits and a width that fits the pattern
    size, the inverse map applied to the pattern that [load_image] built
    gives back the centred canvas, byte for byte. *)
Theorem load_image_round_trip_exact (hw : host) (hdr rest data : list Z)
    (ch img_w img_h : Z) (w : world) :
  skip_comments false hdr = Some (ch, rest) →
  scan_dims hw (ch :: rest) = Some (img_w, img_h, data) →
  0 < img_w → 16 * img_w < 2 ^ 32 → 0 ≤ img_h < 2 ^ 32 →
  Z.min img_h 128 * ((img_w + 7) / 8) ≤ Z.of_nat (length data) →
  Forall (λ c, 0 ≤ c < 256) data →
  padding_clear (centered_canvas img_w img_h data) img_w ((img_w + 7) / 8) →
  ∃ img,
    load_image hw ([80; 52; 10] ++ hdr) w = Ret (Loaded img) w
    ∧ image_stripes img = centered_canvas img_w img_h data
    ∧ untranspose (pattern img) (image_w img) = image_stripes img.
Proof.
  intros Hskip Hscan Hw Hw32 Hh Hdata Hbytes Hclear.
  destruct (load_image_round_trip hw hdr rest data ch img_w img_h w)
    as (img & Hload & Himw & Hcanvas & _ & _ & Hpix & _); try done.
  exists img. split; [done|]. split; [done|].
  rewrite Himw, Hcanvas in *.
  apply untranspose_canvas; [lia| |done|done].
  apply centered_canvas_ok; (done || lia).
Qed.

Lemma load_image_round_trip_exact_witness :
  ∃ img,
    load_image ack_host pbm_4x2 boot = Ret (Loaded img) boot
    ∧ image_stripes img = centered_canvas 4 2 [0xA0; 0x50]
    ∧ untranspose (pattern img) (image_w img) = image_stripes img.
Proof.
  apply (load_image_round_trip_exact ack_host [52; 32; 50; 10; 0xA0; 0x50]
           [32; 50; 10; 0xA0; 0x50] [0xA0; 0x50] 52 4 2 boot);
    [reflexivity|reflexivity|lia|lia|lia|vm_compute; discriminate| |].
  - repeat apply Forall_cons_2; (lia || apply Forall_nil_2).
  - by apply padding_clearb_correct.
Defined.

(** ** The sample bitmap *)

(** The file "P4", "4 2" with the rows A0 and 50: width 4, height 2,
    63 zero rows on top, a pattern of 64 bytes in which only canvas rows
    63 and 64 have bits set. *)
Example sample_bitmap :
  load_image ack_host pbm_4x2 boot
  = Ret (Loaded {| image_w := 4;
                   image_stripes := replicate 63 [0] ++ [[0xA0]; [0x50]]
                                    ++ replicate 63 [0];
                   pattern_size := 64;
                   pattern := replicate 7 0 ++ [0x80] ++ replicate 16 0 ++ [0x01]
                              ++ replicate 14 0 ++ [0x80] ++ replicate 16 0
                              ++ [0x01] ++ replicate 7 0 |})
        boot.
Proof. vm_compute. reflexivity. Qed.

(** A whole print job of that bitmap on a printer that answers as
    expected: eleven set-up frames, two raster blocks of 60 and 4 bytes,
    the raster end, the page end and the cancel command. *)
Example sample_job :
  returned (main job_host default_options pbm_4x2 boot) = Some 0
  ∧ length (new_frames boot (main job_host default_options pbm_4x2 boot)) = 16%nat
  ∧ omap block_payload_size
         (new_frames boot (main job_host default_options pbm_4x2 boot)) = [60; 4]
  ∧ drop 13 (new_frames boot (main job_host default_options pbm_4x2 boot))
    = [raster_end_frame; print_page_frame; cancel_frame].
Proof. vm_compute. repeat split. Qed.

(** * Further properties *)

(** ** Frames *)

Lemma out_frame_padded (d : list Z) (cnt : Z) (ep : EPSIZE_T) :
  0 ≤ cnt ≤ epsize_val ep → (Z.to_nat cnt ≤ length d)%nat →
  out_frame d cnt ep
  = take (Z.to_nat cnt) d ++ replicate (Z.to_nat (epsize_val ep - cnt)) 0.
Proof.
  intros Hc Hd. unfold out_frame, KLG2_EPSIZE.
  rewrite take_app_ge by (rewrite length_take; lia).
  rewrite length_take, Nat.min_l by lia.
  rewrite take_replicate. do 2 f_equal. destruct ep; cbn in *; lia.
Qed.

(** X1.  The frame that [send_to_printer] hands to the OUT endpoint has
    exactly [epsize] bytes, the [cnt] bytes of data followed by zeros;
    the call returns [epsize], and only when the host reports that many
    bytes transferred without error.  Data longer than [epsize] ends the
    process before anything is sent. *)
Theorem send_to_printer_padded (hw : host) (d : list Z) (cnt : Z)
    (ep : EPSIZE_T) (w : world) :
  0 ≤ cnt → (Z.to_nat cnt ≤ length d)%nat →
  let frame := take (Z.to_nat cnt) d
               ++ replicate (Z.to_nat (epsize_val ep - cnt)) 0 in
  match send_to_printer hw d cnt ep w with
  | Ret txcnt w' =>
      cnt ≤ epsize_val ep ∧ txcnt = epsize_val ep
      ∧ Z.of_nat (length frame) = epsize_val ep
      ∧ w' = push_frame frame w
      ∧ bulk_out hw (length (sent w)) frame = (0, epsize_val ep)
  | Abort w' =>
      (epsize_val ep < cnt ∧ w' = w)
      ∨ (cnt ≤ epsize_val ep ∧ w' = push_frame frame w
         ∧ bulk_out hw (length (sent w)) frame ≠ (0, epsize_val ep))
  | Diverge => False
  end.
Proof.
  intros Hc Hd frame. unfold send_to_printer.
  destruct (Z.ltb_spec (epsize_val ep) cnt) as [Hbig|Hfit]; [by left|].
  rewrite out_frame_padded by lia. fold frame.
  destruct (bulk_out hw (length (sent w)) frame) as [rc txcnt].
  destruct (Z.eqb_spec rc 0) as [->|Hrc]; cbn [negb].
  2:{ right. repeat split; [done|congruence]. }
  destruct (Z.eqb_spec txcnt (epsize_val ep)) as [->|Htx]; cbn [negb].
  2:{ right. repeat split; [done|congruence]. }
  repeat split; [done|].
  unfold frame. rewrite length_app, length_take, length_replicate. lia.
Qed.

Lemma send_to_printer_padded_witness :
  send_to_printer ack_host [0x02; 0x1D] 2 EPSIZE_16 boot
  = Ret 16 (push_frame ([0x02; 0x1D] ++ replicate 14 0) boot).
Proof.
  pose proof (send_to_printer_padded ack_host [0x02; 0x1D] 2 EPSIZE_16 boot
                ltac:(lia) ltac:(cbn; lia)) as H.
  cbv zeta in H.
  destruct (send_to_printer ack_host [0x02; 0x1D] 2 EPSIZE_16 boot)
    as [tx w'|w'|]; [|exfalso..].
  - destruct H as (_ & -> & _ & -> & _). reflexivity.
  - destruct H as [[H _]|(_ & _ & H)]; [cbn in H; lia|by apply H].
  - exact H.
Defined.

(** ** Commands on a transport that works *)

Section Answers.

Variables (hw : host) (replies : nat → list Z).
Hypothesis Hok : transport_ok hw replies.

Lemma send_run (d : list Z) (cnt : Z) (ep : EPSIZE_T) (w : world) :
  0 ≤ cnt ≤ epsize_val ep → (Z.to_nat cnt ≤ length d)%nat →
  send_to_printer hw d cnt ep w
  = Ret (epsize_val ep) (push_frame (out_frame d cnt ep) w).
Proof.
  intros Hc Hd. unfold send_to_printer.
  destruct (Z.ltb_spec (epsize_val ep) cnt) as [?|_]; [lia|].
  rewrite (proj1 Hok), (out_frame_length d cnt ep Hc Hd).
  by rewrite !Z.eqb_refl.
Qed.

Lemma recv_run (w : world) :
  recv_from_printer hw w
  = Ret (take 64 (replies (received w)))
        {| sent := sent w; received := S (received w); faults := faults w |}.
Proof. unfold recv_from_printer. by rewrite (proj2 Hok). Qed.

Lemma exchange_run (d : list Z) (cnt : Z) (ep : EPSIZE_T) (w : world) :
  0 ≤ cnt ≤ epsize_val ep → (Z.to_nat cnt ≤ length d)%nat →
  exchange hw d cnt ep w
  = Ret (ack_verdict (replies (received w))) (exchanged w [out_frame d cnt ep]).
Proof.
  intros Hc Hd. unfold exchange, mbind, M_bind.
  rewrite send_run by done.
  by rewrite (recv_ack_verdict hw _ (replies (received w))) by apply (proj2 Hok).
Qed.

Lemma other_length (rsp : list Z) (n : Z) :
  n < 64 → Z.of_nat (length rsp) ≠ n →
  (Z.of_nat (length (take 64 rsp)) =? n) = false.
Proof. intros Hn Hlen. apply Z.eqb_neq. rewrite length_take. lia. Qed.

Lemma check_status_run (w : world) :
  printer_check_status hw w
  = Ret (status_verdict (replies (received w))) (exchanged w [status_frame]).
Proof.
  unfold printer_check_status, mbind, M_bind.
  rewrite send_run by (cbn; lia). rewrite recv_run.
  cbn [push_frame received sent faults].
  change (out_frame _ 2 EPSIZE_16) with status_frame.
  unfold status_verdict, status_ok, exchanged. cbn [length Nat.add].
  set (rsp := replies (received w)).
  destruct (decide (length rsp = 6%nat)) as [H6|H6].
  - destruct rsp as [|a [|b [|c [|d [|e [|f [|g rest]]]]]]]; try discriminate H6.
    cbn [take length Z.of_nat Pos.of_succ_nat Pos.succ Z.eqb Pos.eqb negb
         lookup_total list_lookup_total].
    unfold PRINTER_STX.
    destruct (Z.eqb_spec a 2) as [->|?];
      [|rewrite bool_decide_eq_false_2 by congruence; reflexivity].
    destruct (Z.eqb_spec b 128) as [->|?];
      [|rewrite bool_decide_eq_false_2 by congruence; reflexivity].
    destruct (Z.eqb_spec c 2) as [->|?];
      [|rewrite bool_decide_eq_false_2 by congruence; reflexivity].
    destruct (Z.eqb_spec d 0) as [->|?];
      [|rewrite bool_decide_eq_false_2 by congruence; reflexivity].
    destruct (Z.eqb_spec e 0) as [->|?];
      [|rewrite bool_decide_eq_false_2 by congruence; reflexivity].
    destruct (Z.eqb_spec f 166) as [->|?];
      [|rewrite bool_decide_eq_false_2 by congruence; reflexivity].
    reflexivity.
  - rewrite (other_length rsp 6) by lia. cbn [negb].
    rewrite bool_decide_eq_false_2; [reflexivity|].
    intros Heq. by rewrite Heq in H6.
Qed.

Lemma prejob_run (w : world) :
  printer_prejob hw w
  = if bool_decide (replies (received w) = [PRINTER_ACK]) then
      Ret (if bool_decide (replies (S (received w)) = prejob_ok) then 0 else 1)
          (exchanged w [prejob_frame; prejob_query_frame])
    else Ret 1 (exchanged w [prejob_frame]).
Proof.
  unfold printer_prejob.
  unfold mbind, M_bind.
  rewrite send_run by (cbn; lia).
  rewrite (recv_ack_verdict hw _ (replies (received w))) by apply (proj2 Hok).
  change (out_frame _ 8 EPSIZE_16) with prejob_frame.
  unfold ack_verdict at 1. cbn [push_frame received sent faults].
  case_bool_decide as Hack; cbn [Z.eqb negb]; [|reflexivity].
  rewrite send_run by (cbn; lia). rewrite recv_run.
  change (out_frame _ 2 EPSIZE_16) with prejob_query_frame.
  cbn [push_frame received sent faults].
  unfold prejob_ok, exchanged. cbn [length Nat.add]. rewrite <- !app_assoc.
  cbn [app].
  set (rsp := replies (S (received w))).
  destruct (decide (length rsp = 5%nat)) as [H5|H5].
  - destruct rsp as [|a [|b [|c [|d [|e [|g rest]]]]]]; try discriminate H5.
    cbn [take length Z.of_nat Pos.of_succ_nat Pos.succ Z.eqb Pos.eqb negb
         lookup_total list_lookup_total].
    unfold PRINTER_STX.
    destruct (Z.eqb_spec a 2) as [->|?];
      [|rewrite bool_decide_eq_false_2 by congruence; reflexivity].
    destruct (Z.eqb_spec b 128) as [->|?];
      [|rewrite bool_decide_eq_false_2 by congruence; reflexivity].
    destruct (Z.eqb_spec c 1) as [->|?];
      [|rewrite bool_decide_eq_false_2 by congruence; reflexivity].
    destruct (Z.eqb_spec d 0) as [->|?];
      [|rewrite bool_decide_eq_false_2 by congruence; reflexivity].
    destruct (Z.eqb_spec e 1) as [->|?];
      [|rewrite bool_decide_eq_false_2 by congruence; reflexivity].
    reflexivity.
  - rewrite (other_length rsp 5) by lia. cbn [negb].
    rewrite bool_decide_eq_false_2; [reflexivity|].
    intros Heq. by rewrite Heq in H5.
Qed.

End Answers.

Lemma printer_host_ok (replies : nat → list Z) :
  transport_ok (printer_host replies) replies.
Proof. by split. Qed.

(** X2.  [printer_check_status] accepts one answer only, the six bytes
    02 80 02 00 00 A6: it returns 0 for it and 1 for any other answer,
    shorter, longer or different in a byte.  Either way one frame has
    gone out and one answer has been taken. *)
Theorem check_status_validation (hw : host) (replies : nat → list Z) (w : world) :
  transport_ok hw replies →
  printer_check_status hw w
  = Ret (if bool_decide (replies (received w) = [0x02; 0x80; 0x02; 0x00; 0x00; 0xA6])
         then 0 else 1)
        {| sent := sent w ++ [[0x02; 0x1D; 0; 0; 0; 0; 0; 0; 0; 0; 0; 0; 0; 0; 0; 0]];
           received := S (received w); faults := faults w |}.
Proof. intros Hok. by rewrite (check_status_run hw replies Hok). Qed.

Lemma check_status_validation_witness :
  returned (printer_check_status job_host boot) = Some 0
  ∧ returned (printer_check_status ack_host boot) = Some 1
  ∧ returned (printer_check_status
                (printer_host (λ _, [0x02; 0x80; 0x02; 0x00; 0x00; 0xA6; 0x00])) boot)
    = Some 1.
Proof.
  split; [|split].
  - by rewrite (check_status_validation job_host job_replies boot
                  (printer_host_ok job_replies)).
  - by rewrite (check_status_validation ack_host (λ _, [PRINTER_ACK]) boot
                  (printer_host_ok _)).
  - by rewrite (check_status_validation _ _ boot (printer_host_ok _)).
Defined.

(** X3.  [printer_prejob] returns 0 only when the first frame is answered
    with a lone ACK and the second with 02 80 01 00 01, and 1 otherwise.
    After a first answer that is not an ACK the second frame is not
    sent. *)
Theorem prejob_validation (hw : host) (replies : nat → list Z) (w : world) :
  transport_ok hw replies →
  let r := received w in
  let run := printer_prejob hw w in
  (returned run = Some 0
   ↔ replies r = [0x06] ∧ replies (S r) = [0x02; 0x80; 0x01; 0x00; 0x01])
  ∧ (returned run = Some 0 ∨ returned run = Some 1)
  ∧ new_frames w run = (if bool_decide (replies r = [0x06])
                        then [prejob_frame; prejob_query_frame]
                        else [prejob_frame])
  ∧ received (world_of run w) = (if bool_decide (replies r = [0x06])
                                 then S (S r) else S r).
Proof.
  intros Hok r run. unfold run. rewrite (prejob_run hw replies Hok). fold r.
  unfold PRINTER_ACK, prejob_ok, PRINTER_STX, new_frames.
  case_bool_decide as Hack; [case_bool_decide as Hrsp|];
    cbn [returned world_of exchanged sent received length Nat.add];
    rewrite drop_app_length; repeat split; try tauto; try discriminate;
    try (intros [??]; tauto); auto.
Qed.

Lemma prejob_validation_witness :
  returned (printer_prejob (printer_host (λ k, job_replies (3 + k))) boot) = Some 1
  ∧ new_frames boot (printer_prejob ack_host boot)
    = [prejob_frame; prejob_query_frame]
  ∧ new_frames boot (printer_prejob (printer_host (λ _, [PRINTER_NAK])) boot)
    = [prejob_frame].
Proof.
  split; [|split].
  - destruct (prejob_validation _ _ boot
                (printer_host_ok (λ k, job_replies (3 + k))))
      as (Hiff & [H0|H1] & _); [|exact H1].
    apply Hiff in H0 as [H0 _]. discriminate H0.
  - destruct (prejob_validation _ _ boot (printer_host_ok (λ _, [PRINTER_ACK])))
      as (_ & _ & H & _). exact H.
  - destruct (prejob_validation _ _ boot (printer_host_ok (λ _, [PRINTER_NAK])))
      as (_ & _ & H & _). exact H.
Defined.
Lemma exchange_new_frames (hw : host) (d : list Z) (cnt : Z) (ep : EPSIZE_T)
    (w : world) {B} (g : Z → B) :
  0 ≤ cnt ≤ epsize_val ep → (Z.to_nat cnt ≤ length d)%nat →
  new_frames w (match exchange hw d cnt ep w with
                | Ret rc w' => Ret (g rc) w'
                | Abort w' => Abort w'
                | Diverge => Diverge
                end) = [out_frame d cnt ep].
Proof.
  intros Hc Hd.
  destruct (exchange_cases hw d cnt ep w Hc Hd)
    as [(w1 & -> & Hs) | [(w1 & -> & _ & Hs) | (w1 & -> & _ & Hs)]];
    by apply (sends_new_frames w w1).
Qed.

(** X4.  The tape code makes the round trip: [printer_check_tape] sends the
    high byte of the code at offset 4 of its frame (and the low byte at
    offset 5), and [printer_get_tape] reads the mounted tape from the
    byte at offset 4 of a five-byte answer.  An answer of any other
    length is an error that leaves "no tape". *)
Theorem tape_code_round_trip (hw : host) (w : world) (t : TAPECODE_T)
    (rsp : list Z) :
  (∀ f, bulk_out hw (length (sent w)) f = (0, Z.of_nat (length f))) →
  bulk_in hw (received w) = (0, rsp) →
  new_frames w (printer_check_tape hw t w) = [tape_frame t]
  ∧ (length rsp = 5%nat → rsp !! 4%nat = tape_frame t !! 4%nat →
     returned (printer_get_tape hw w) = Some (0, t))
  ∧ (length rsp ≠ 5%nat →
     returned (printer_get_tape hw w) = Some (1, TAPECODE_NOTAPE)).
Proof.
  intros Hout Hin. split; [|split].
  - assert (Hf : ∃ d, printer_check_tape hw t = exchange hw d 6 EPSIZE_16
                      ∧ out_frame d 6 EPSIZE_16 = tape_frame t
                      ∧ length d = 6%nat).
    { destruct t; eexists; (split; [reflexivity|split; reflexivity]). }
    destruct Hf as (d & -> & <- & Hd).
    pose proof (exchange_new_frames hw d 6 EPSIZE_16 w id) as Hx.
    destruct (exchange hw d 6 EPSIZE_16 w); apply Hx; cbn; lia.
  - intros H5 H4. rewrite (get_tape_table hw w rsp Hout Hin).
    rewrite bool_decide_eq_true_2 by done. do 2 f_equal.
    rewrite (list_lookup_total_correct rsp 4 (tape_frame t !!! 4%nat)).
    + by destruct t.
    + rewrite H4. by destruct t.
  - intros H5. rewrite (get_tape_table hw w rsp Hout Hin).
    by rewrite bool_decide_eq_false_2.
Qed.

Lemma tape_code_round_trip_witness :
  returned (printer_get_tape
              (printer_host (λ _, [0x02; 0x80; 0x02; 0x00; 0x87])) boot)
  = Some (0, TAPECODE_18MM).
Proof.
  apply (tape_code_round_trip
           (printer_host (λ _, [0x02; 0x80; 0x02; 0x00; 0x87])) boot
           TAPECODE_18MM [0x02; 0x80; 0x02; 0x00; 0x87]);
    reflexivity.
Defined.

(** X5.  The 60-byte limit of a raster block is enforced by [abort()]: with
    a block size from 61 to 251 [printer_raster_block] ends the process
    before anything is sent.  From 1 to 60 the frame is the header
    02 FE size 00, the payload and zeros up to 64 bytes.  From 252 on
    the count [blksize + 4] no longer fits its [uint8_t] parameter and
    wraps to 0..3: the size check passes and a frame goes out that
    holds only that many bytes of the header. *)
Theorem raster_block_bounds (hw : host) (blk : list Z) (blksize : Z) (w : world) :
  length blk = 64%nat →
  (1 ≤ blksize ≤ 60 →
   new_frames w (printer_raster_block hw blk blksize w)
   = [[0x02; 0xFE; blksize; 0] ++ take (Z.to_nat blksize) (drop 4 blk)
      ++ replicate (60 - Z.to_nat blksize) 0])
  ∧ (60 < blksize < 252 → printer_raster_block hw blk blksize w = Abort w)
  ∧ (252 ≤ blksize ≤ 255 →
     new_frames w (printer_raster_block hw blk blksize w)
     = [take (Z.to_nat (blksize - 252)) [0x02; 0xFE; blksize; 0]
        ++ replicate (Z.to_nat (64 - (blksize - 252))) 0]).
Proof.
  intros Hlen.
  destruct blk as [|b0 [|b1 [|b2 [|b3 rest]]]]; try (cbn in Hlen; lia).
  split; [|split]; intros Hbs; rewrite raster_block_exchange; cbv zeta.
  - pose proof (raster_block_out_frame (b0 :: b1 :: b2 :: b3 :: rest) blksize
                  Hlen Hbs) as Hf.
    rewrite exchange_new_frames, Hf;
      [|unfold u8; rewrite Z.mod_small by lia; cbn; lia
       |unfold u8; rewrite Z.mod_small by lia; cbn in *; lia].
    unfold raster_block_frame. rewrite length_take, length_drop.
    cbn [length] in *.
    replace (Z.to_nat blksize `min` (S (S (S (S (length rest)))) - 4))%nat
      with (Z.to_nat blksize) by lia.
    by rewrite Z2Nat.id by lia.
  - unfold exchange, mbind, M_bind, send_to_printer, u8.
    rewrite Z.mod_small by lia. cbn [epsize_val].
    destruct (Z.ltb_spec 64 (blksize + 4)) as [_|?]; [reflexivity|lia].
  - assert (Hcnt : u8 (blksize + 4) = blksize - 252).
    { unfold u8. symmetry. apply (Z.mod_unique_pos _ _ 1); lia. }
    rewrite Hcnt.
    set (d := <[3%nat:=0]> _).
    assert (Hf : out_frame d (blksize - 252) EPSIZE_64
                 = take (Z.to_nat (blksize - 252)) [0x02; 0xFE; blksize; 0]
                   ++ replicate (Z.to_nat (64 - (blksize - 252))) 0).
    { rewrite out_frame_padded by (cbn in *; lia). cbn [epsize_val]. f_equal.
      unfold d. cbn [insert list_insert].
      assert (Hc : blksize - 252 = 0 ∨ blksize - 252 = 1 ∨ blksize - 252 = 2
                   ∨ blksize - 252 = 3) by lia.
      destruct Hc as [->|[->|[->| ->]]]; reflexivity. }
    rewrite exchange_new_frames, Hf; [done|cbn; lia|unfold d; cbn in *; lia].
Qed.

Lemma raster_block_bounds_witness :
  printer_raster_block ack_host (replicate 64 0xAA) 61 boot = Abort boot
  ∧ new_frames boot (printer_raster_block ack_host (replicate 64 0xAA) 255 boot)
    = [[0x02; 0xFE; 0xFF] ++ replicate 61 0].
Proof.
  split.
  - apply (raster_block_bounds ack_host (replicate 64 0xAA) 61 boot eq_refl). lia.
  - apply (raster_block_bounds ack_host (replicate 64 0xAA) 255 boot eq_refl). lia.
Defined.

(** ** A raster transfer and the answers it gets *)

Lemma exchanged_nil (w : world) : exchanged w [] = w.
Proof. destruct w. unfold exchanged. cbn. by rewrite app_nil_r. Qed.

Lemma exchanged_app (w : world) (fs gs : list (list Z)) :
  exchanged (exchanged w fs) gs = exchanged w (fs ++ gs).
Proof.
  unfold exchanged. cbn [sent received faults].
  rewrite app_assoc, length_app. f_equal. lia.
Qed.

Lemma acked_app (replies : nat → list Z) (r m1 m2 : nat) :
  acked replies r m1 → acked replies (m1 + r) m2 → acked replies r (m1 + m2).
Proof.
  intros H1 H2 i Hi. destruct (Nat.lt_ge_cases i m1) as [?|?]; [by apply H1|].
  replace (i + r)%nat with ((i - m1) + (m1 + r))%nat by lia. apply H2. lia.
Qed.

Lemma acked_one (replies : nat → list Z) (r : nat) :
  replies r = [PRINTER_ACK] → acked replies r 1.
Proof. intros H i Hi. by replace i with 0%nat by lia. Qed.

Lemma refused_unique (replies : nat → list Z) (r i j : nat) :
  refused replies r i → refused replies r j → i = j.
Proof.
  intros [Hi Hni] [Hj Hnj].
  destruct (Nat.lt_total i j) as [?|[?|?]]; [|done|].
  - destruct Hni. by apply Hj.
  - destruct Hnj. by apply Hi.
Qed.

Section AnsweredRaster.

Variables (hw : host) (replies : nat → list Z).
Hypothesis Hok : transport_ok hw replies.

(** One pass of the loop takes one answer for each frame it sends, and
    goes on only when all of them are ACKs. *)
Lemma raster_iter_counts (raw : list Z) (n : Z) (v : raster_vars) (k : Z)
    (w : world) :
  n = Z.of_nat (length raw) → n < 2 ^ 32 → 0 ≤ k < n → raster_inv raw v k →
  match raster_iter hw raw n v w with
  | Ret f w' =>
      ∃ m, received w' = (m + received w)%nat
           ∧ length (sent w') = (length (sent w) + m)%nat
           ∧ match f with
             | Continue _ => acked replies (received w) m
             | Return _ => ∃ j, m = S j ∧ refused replies (received w) j
             end
  | _ => False
  end.
Proof.
  intros Hn Hn32 Hk (Hss & Hps & Hbs & Hlen & Hpay).
  destruct v as [ss ps bs blk]; cbn [sent_size page_size block_size block] in *.
  subst ss.
  pose proof (Z.mod_pos_bound k 8192 ltac:(lia)) as HP.
  pose proof (Z.mod_pos_bound (k mod 8192) 60 ltac:(lia)) as HB.
  pose proof (Z.mod_le k 8192 ltac:(lia) ltac:(lia)) as HPk.
  rewrite <- Hps, <- Hbs in *.
  destruct (lookup_lt_is_Some_2 raw (Z.to_nat k) ltac:(lia)) as [b Hb].
  unfold raster_iter, read_raw, store, mbind, M_bind, mret, M_ret.
  cbn [sent_size page_size block_size block].
  rewrite Hb. unfold u32, u8.
  rewrite !(Z.mod_small (4 + bs)), !(Z.mod_small (bs + 1)),
    !(Z.mod_small (k + 1)), !(Z.mod_small (ps + 1)) by lia.
  rewrite Hlen.
  destruct (Z.ltb_spec (4 + bs) (Z.of_nat 64)) as [_|?]; [|lia].
  set (blk1 := <[Z.to_nat (4 + bs) := b]> blk).
  assert (Hlen1 : length blk1 = 64%nat) by (unfold blk1; by rewrite length_insert).
  destruct ((bs + 1 =? 60) || (ps + 1 =? 8192) || (k + 1 =? n)).
  2:{ exists 0%nat. counted. intros i Hi. lia. }
  rewrite raster_block_exchange. cbv zeta.
  set (blk2 := <[3%nat := 0]> _).
  assert (Hlen2 : length blk2 = 64%nat)
    by (unfold blk2; by rewrite !length_insert).
  rewrite (exchange_run hw replies Hok)
    by (unfold u8; rewrite Z.mod_small by lia; cbn; lia).
  set (r := received w).
  change (printer_raster_end hw) with (exchange hw [PRINTER_STX; 0x04] 2 EPSIZE_16).
  change (printer_print_page hw) with (exchange hw [0x0C] 1 EPSIZE_1).
  unfold ack_verdict at 1. case_bool_decide as H1; cbn [Z.eqb negb].
  2:{ exists 1%nat. counted. exists 0%nat. split; [done|].
      split; [intros i Hi; lia|done]. }
  destruct (k + 1 =? n).
  - rewrite (exchange_run hw replies Hok) by (cbn; lia).
    cbn [exchanged received length Nat.add]. fold r.
    unfold ack_verdict at 1. case_bool_decide as H2; cbn [Z.eqb negb].
    2:{ exists 2%nat. counted. exists 1%nat. split; [done|].
        split; [by apply acked_one|done]. }
    rewrite orb_true_r.
    rewrite (exchange_run hw replies Hok) by (cbn; lia).
    cbn [exchanged received sent length Nat.add]. fold r.
    unfold ack_verdict at 1. case_bool_decide as H3; cbn [Z.eqb negb].
    all: exists 3%nat; counted.
    + apply (acked_app replies r 1 2); [by apply acked_one|].
      apply (acked_app replies (1 + r) 1 1); by apply acked_one.
    + exists 2%nat. split; [done|]. split; [|done].
      apply (acked_app replies r 1 1); by apply acked_one.
  - cbn [Z.eqb negb]. rewrite orb_false_r.
    destruct (ps + 1 =? 8192).
    + rewrite (exchange_run hw replies Hok) by (cbn; lia).
      cbn [exchanged received sent length Nat.add]. fold r.
      unfold ack_verdict at 1. case_bool_decide as H3; cbn [Z.eqb negb].
      all: exists 2%nat; counted.
      * apply (acked_app replies r 1 1); by apply acked_one.
      * exists 1%nat. split; [done|]. split; [by apply acked_one|done].
    + exists 1%nat. counted. by apply acked_one.
Qed.

Lemma world_exchanged (w w' : world) (fs : list (list Z)) :
  sends w fs w' → received w' = (length fs + received w)%nat →
  w' = exchanged w fs.
Proof.
  intros [Hs Hf] Hr. destruct w'. cbn in *. unfold exchanged. by subst.
Qed.

Lemma raster_iter_answered (raw : list Z) (n : Z) (v : raster_vars) (k : Z)
    (w : world) :
  n = Z.of_nat (length raw) → n < 2 ^ 32 → 0 ≤ k < n → raster_inv raw v k →
  match raster_iter hw raw n v w with
  | Ret (Continue v') w' =>
      w' = exchanged w (emit raw n (k + 1))
      ∧ acked replies (received w) (length (emit raw n (k + 1)))
      ∧ sent_size v' = k + 1
      ∧ (k + 1 < n → raster_inv raw v' (k + 1))
  | Ret (Return rc) w' =>
      rc = 1 ∧ ∃ j, (j < length (emit raw n (k + 1)))%nat
                    ∧ w' = exchanged w (take (S j) (emit raw n (k + 1)))
                    ∧ refused replies (received w) j
  | _ => False
  end.
Proof.
  intros Hn Hn32 Hk Hinv.
  pose proof (raster_iter_spec hw raw n v k w Hn Hn32 Hk Hinv) as Hspec.
  pose proof (raster_iter_counts raw n v k w Hn Hn32 Hk Hinv) as Hcnt.
  destruct (raster_iter hw raw n v w) as [[v'|rc] w'|w'|]; [| |done..].
  - destruct Hspec as (Hs & Hss & Hinv' & _).
    destruct Hcnt as (m & Hr & Hl & Hack).
    assert (Hm : length (emit raw n (k + 1)) = m).
    { destruct Hs as [Hs _]. rewrite Hs, length_app in Hl. lia. }
    rewrite Hm. split; [|done]. apply world_exchanged; [done|]. by rewrite Hm.
  - destruct Hspec as (-> & _ & j0 & Hs).
    destruct Hcnt as (m & Hr & Hl & j & -> & Href).
    split; [done|]. exists j.
    assert (Hj : length (take j0 (emit raw n (k + 1))) = S j).
    { destruct Hs as [Hs _]. rewrite Hs, length_app in Hl. lia. }
    assert (Hlt : (j < length (emit raw n (k + 1)))%nat)
      by (rewrite length_take in Hj; lia).
    assert (Htake : take j0 (emit raw n (k + 1))
                    = take (S j) (emit raw n (k + 1))).
    { rewrite length_take in Hj.
      destruct (Nat.le_gt_cases j0 (length (emit raw n (k + 1)))).
      - f_equal. lia.
      - rewrite !take_ge by lia. done. }
    rewrite <- Htake. split; [done|]. split; [|done].
    apply world_exchanged; [done|]. by rewrite Hj.
Qed.

Lemma answered_after (w : world) (fs gs : list (list Z)) (o : outcome Z) :
  acked replies (received w) (length fs) →
  answered replies (exchanged w fs) gs o → answered replies w (fs ++ gs) o.
Proof.
  intros Hfs. destruct o as [rc w'|w'|]; cbn [answered]; [|done..].
  cbn [exchanged received].
  intros [(-> & -> & Hgs)|(-> & j & Hj & -> & Hgs & Hno)].
  - left. split; [done|]. rewrite exchanged_app, length_app. split; [done|].
    by apply acked_app.
  - right. split; [done|]. exists (length fs + j)%nat.
    rewrite length_app, exchanged_app.
    replace (S (length fs + j)) with (length fs + S j)%nat by lia.
    rewrite take_app_add. split; [lia|]. split; [done|]. split.
    + by apply acked_app.
    + by replace (length fs + j + received w)%nat
        with (j + (length fs + received w))%nat by lia.
Qed.

Lemma answered_stop (w : world) (fs gs : list (list Z)) (j : nat) :
  (j < length fs)%nat → refused replies (received w) j →
  answered replies w (fs ++ gs) (Ret 1 (exchanged w (take (S j) fs))).
Proof.
  intros Hj Href. right. split; [done|]. exists j.
  rewrite length_app, take_app_le by lia. split; [lia|done].
Qed.

Lemma raster_loop_answered (raw : list Z) (n : Z) :
  n = Z.of_nat (length raw) → n < 2 ^ 32 →
  ∀ (m fuel : nat) (k : Z) (v : raster_vars) (w : world),
    0 ≤ k → k + Z.of_nat (S m) = n → (m ≤ fuel)%nat → raster_inv raw v k →
    answered replies w (traffic_from raw n k (S m)) (raster_loop hw fuel raw n v w).
Proof.
  intros Hn Hn32. induction m as [|m IH]; intros fuel k v w Hk Hkm Hfuel Hinv.
  all: rewrite raster_loop_unfold; unfold mbind, M_bind.
  all: pose proof (raster_iter_answered raw n v k w Hn Hn32 ltac:(lia) Hinv) as Hit.
  all: destruct (raster_iter hw raw n v w) as [[v'|rc] w'|w'|]; [| |done..].
  all: cbn [traffic_from].
  - destruct Hit as (-> & Hack & Hss & _). rewrite Hss.
    destruct (Z.ltb_spec (k + 1) n) as [?|_]; [lia|].
    left. by rewrite app_nil_r.
  - destruct Hit as (-> & j & Hj & -> & Href). by apply answered_stop.
  - destruct Hit as (-> & Hack & Hss & Hinv'). rewrite Hss.
    destruct (Z.ltb_spec (k + 1) n) as [Hlt|?]; [|lia].
    destruct fuel as [|fuel]; [lia|].
    apply answered_after; [done|].
    apply IH; [lia|lia|lia|auto].
  - destruct Hit as (-> & j & Hj & -> & Href). by apply answered_stop.
Qed.

Lemma printer_send_raster_answered (raw : list Z) (w : world) :
  raw ≠ [] → Z.of_nat (length raw) < 2 ^ 32 →
  answered replies w (raster_traffic raw)
           (printer_send_raster hw raw (Z.of_nat (length raw)) w).
Proof.
  intros Hne H32. unfold printer_send_raster, raster_traffic.
  rewrite Nat2Z.id.
  destruct raw as [|b raw']; [done|]. cbn [length] in *.
  apply (raster_loop_answered (b :: raw') (Z.of_nat (S (length raw'))));
    [done|lia|lia|lia|lia|].
  unfold raster_inv; cbn [sent_size page_size block_size block].
  repeat split.
Qed.

End AnsweredRaster.

(** X6.  A raster transfer waits for the answer to each frame before it
    sends the next.  When every answer is a lone ACK, all the frames of
    the transfer go out and it returns 0.  Otherwise it stops at the
    first answer that is something else: it returns 1, and the frame
    that got this answer is the last one sent. *)
Theorem raster_stops_at_refusal (hw : host) (replies : nat → list Z)
    (raw : list Z) (w : world) :
  transport_ok hw replies → raw ≠ [] → Z.of_nat (length raw) < 2 ^ 32 →
  let script := raster_traffic raw in
  let run := printer_send_raster hw raw (Z.of_nat (length raw)) w in
  (acked replies (received w) (length script) → run = Ret 0 (exchanged w script))
  ∧ (∀ j, (j < length script)%nat → refused replies (received w) j →
          run = Ret 1 (exchanged w (take (S j) script))).
Proof.
  intros Hok Hne H32 script run.
  pose proof (printer_send_raster_answered hw replies Hok raw w Hne H32) as Ha.
  fold script run in Ha.
  destruct run as [rc w'|w'|]; cbn [answered] in Ha; [|done..].
  destruct Ha as [(-> & -> & Hack)|(-> & j' & Hj' & -> & Href)]; split.
  - done.
  - intros j Hj [_ Hno]. destruct Hno. by apply Hack.
  - intros Hack. destruct Href as [_ Hno]. destruct Hno. by apply Hack.
  - intros j Hj Href'. by rewrite (refused_unique replies _ j j' Href' Href).
Qed.

Lemma raster_stops_at_refusal_witness :
  printer_send_raster (printer_host second_refused) (replicate 100 0xFF) 100 boot
  = Ret 1 (exchanged boot (take 2 (raster_traffic (replicate 100 0xFF)))).
Proof.
  apply (raster_stops_at_refusal (printer_host second_refused) second_refused
           (replicate 100 0xFF) boot (printer_host_ok second_refused)
           ltac:(discriminate) ltac:(cbn; lia)).
  - vm_compute. lia.
  - split; [|discriminate]. intros i Hi.
    by replace i with 0%nat by lia.
Defined.

(** ** The number of raster blocks *)

Lemma block_step (k : Z) :
  0 ≤ k →
  blocks_done (k + 1) - blocks_done k
  = if (block_fill (k + 1) =? 60) || (page_fill (k + 1) =? 8192) then 1 else 0.
Proof.
  intros Hk. unfold blocks_done, block_fill, page_fill.
  replace (k + 1 - 1) with k by lia.
  pose proof (Z.div_mod k 8192 ltac:(lia)) as Hd.
  pose proof (Z.mod_pos_bound k 8192 ltac:(lia)) as Hb.
  set (p := k mod 8192) in *. set (q := k / 8192) in *.
  destruct (Z.eqb_spec (p + 1) 8192) as [He|He].
  - rewrite orb_true_r.
    replace (k + 1) with (0 + (q + 1) * 8192) by lia.
    rewrite Z.div_add, Z.mod_add by lia.
    replace p with 8191 by lia.
    change (0 / 8192) with 0. change (0 mod 8192 / 60) with 0.
    change (8191 / 60) with 136. lia.
  - rewrite orb_false_r.
    replace (k + 1) with (p + 1 + q * 8192) by lia.
    rewrite Z.div_add, Z.mod_add by lia.
    rewrite (Z.div_small (p + 1)), (Z.mod_small (p + 1)) by lia.
    pose proof (Z.div_mod p 60 ltac:(lia)) as Hd'.
    pose proof (Z.mod_pos_bound p 60 ltac:(lia)) as Hb'.
    destruct (Z.eqb_spec (p mod 60 + 1) 60) as [Hw|Hw].
    + replace (p + 1) with ((p / 60 + 1) * 60) by lia.
      rewrite Z.div_mul by lia. lia.
    + replace (p + 1) with (p mod 60 + 1 + p / 60 * 60) by lia.
      rewrite Z.div_add by lia. rewrite (Z.div_small (p mod 60 + 1)) by lia. lia.
Qed.

Lemma inner_block_count (raw : list Z) (n : Z) (m : nat) (k : Z) :
  0 ≤ k → k + Z.of_nat m < n →
  Z.of_nat (length (omap block_payload_size (traffic_from raw n k m)))
  = blocks_done (k + Z.of_nat m) - blocks_done k.
Proof.
  revert k. induction m as [|m IH]; intros k Hk Hkm.
  { cbn. rewrite Z.add_0_r. lia. }
  cbn [traffic_from]. rewrite omap_app, length_app, Nat2Z.inj_add, IH by lia.
  replace (k + 1 + Z.of_nat m) with (k + Z.of_nat (S m)) by lia.
  pose proof (block_step k Hk) as Hstep.
  rewrite emit_inner by lia.
  destruct ((block_fill (k + 1) =? 60) || (page_fill (k + 1) =? 8192)).
  - destruct (page_fill (k + 1) =? 8192); cbn [omap list_omap length]; cbn; lia.
  - cbn. lia.
Qed.

Lemma raster_frames_length (fs : list (list Z)) :
  Forall raster_frame fs →
  length fs = (length (omap block_payload_size fs)
               + count_frame print_page_frame fs
               + count_frame raster_end_frame fs)%nat.
Proof.
  induction 1 as [|f fs Hf _ IH]; [done|].
  rewrite !count_frame_cons. cbn [length omap list_omap]. rewrite IH.
  destruct Hf as [(p & -> & _)|[->| ->]].
  - rewrite block_frame_size. cbn [length].
    destruct (decide (raster_block_frame p = print_page_frame)) as [He|_];
      [by apply block_frame_not_page in He|].
    destruct (decide (raster_block_frame p = raster_end_frame)) as [He|_];
      [by apply block_frame_not_end in He|].
    lia.
  - change (block_payload_size raster_end_frame) with (@None Z).
    destruct (decide (raster_end_frame = print_page_frame)); [done|].
    destruct (decide (raster_end_frame = raster_end_frame)); [lia|done].
  - change (block_payload_size print_page_frame) with (@None Z).
    destruct (decide (print_page_frame = print_page_frame)); [|done].
    destruct (decide (print_page_frame = raster_end_frame)); [done|lia].
Qed.

(** The blocks and the frames of the traffic of a whole transfer. *)
Lemma raster_traffic_blocks (raw : list Z) (n : Z) :
  n = Z.of_nat (length raw) → 1 ≤ n →
  let blocks := Z.of_nat (length (omap block_payload_size (raster_traffic raw))) in
  blocks = 137 * ((n - 1) / 8192) + ((n - 1) mod 8192) / 60 + 1
  ∧ (n ≤ 8192 → blocks = ceil_div n 60)
  ∧ Z.of_nat (length (raster_traffic raw)) = blocks + ceil_div n 8192 + 1.
Proof.
  intros Hn Hn1 blocks.
  assert (Hblocks : blocks = blocks_done (n - 1) + 1).
  { unfold blocks. rewrite (raster_traffic_split raw n Hn Hn1).
    rewrite omap_app, length_app, Nat2Z.inj_add.
    rewrite (inner_block_count raw n) by lia.
    replace (0 + Z.of_nat (length raw - 1)) with (n - 1) by lia.
    change (omap block_payload_size [raster_block_frame ?p; raster_end_frame;
                                     print_page_frame])
      with [Z.of_nat (length p)].
    change (blocks_done 0) with 0. cbn [length]. lia. }
  split; [exact Hblocks|]. split.
  - intros Hsmall. rewrite Hblocks. unfold blocks_done, ceil_div.
    rewrite (Z.div_small (n - 1)), (Z.mod_small (n - 1)) by lia.
    replace (n + 60 - 1) with (n - 1 + 1 * 60) by lia.
    rewrite Z.div_add by lia. lia.
  - rewrite (raster_frames_length (raster_traffic raw)).
    2:{ apply Forall_forall. intros f Hf. by apply (raster_traffic_frames raw n). }
    rewrite !Nat2Z.inj_add, (raster_traffic_pages raw n Hn Hn1).
    rewrite (raster_traffic_one_end raw n Hn Hn1). fold blocks. lia.
Qed.

(** X7.  When [printer_send_raster] has streamed a pattern of [n > 0]
    bytes to its end, it has sent one raster block for every 60 bytes of
    each page of 8192 bytes and one for what is left of the page, 137
    for a full page: [ceil(n / 60)] blocks when the pattern fits one
    page.  With the page ends and the raster end this gives the number
    of frames it has sent.  With a host that takes and acknowledges
    every frame the transfer does run to its end. *)
Theorem raster_block_count (hw : host) (raw : list Z) (n : Z) (w : world) :
  n = Z.of_nat (length raw) → 1 ≤ n → n < 2 ^ 32 →
  let run := printer_send_raster hw raw n w in
  let blocks := Z.of_nat (length (omap block_payload_size (new_frames w run))) in
  (returned run = Some 0 →
   blocks = 137 * ((n - 1) / 8192) + ((n - 1) mod 8192) / 60 + 1
   ∧ (n ≤ 8192 → blocks = ceil_div n 60)
   ∧ Z.of_nat (length (new_frames w run)) = blocks + ceil_div n 8192 + 1)
  ∧ (accepting hw → returned run = Some 0).
Proof.
  intros Hn Hn1 Hn32 run blocks. split.
  - intros Hret. unfold blocks, run in *.
    rewrite (run_whole hw raw n w Hn Hn32 Hn1 Hret).
    exact (raster_traffic_blocks raw n Hn Hn1).
  - by apply run_accepted.
Qed.

Lemma raster_block_count_witness :
  let run := printer_send_raster ack_host (replicate (Z.to_nat 8208) 0xFF)
               8208 boot in
  returned run = Some 0
  ∧ Z.of_nat (length (omap block_payload_size (new_frames boot run))) = 138
  ∧ Z.of_nat (length (new_frames boot run)) = 141.
Proof.
  intros run.
  destruct (raster_block_count ack_host (replicate (Z.to_nat 8208) 0xFF) 8208 boot)
    as (Hcount & Hends).
  - by rewrite length_replicate.
  - lia.
  - lia.
  - assert (Hret : returned run = Some 0) by (apply Hends; by split).
    destruct (Hcount Hret) as (H1 & _ & H2).
    split; [done|]. split; [exact H1|]. fold run in H2. rewrite H2.
    fold run in H1. rewrite H1. reflexivity.
Defined.

(** ** What the loader accepts *)

(** X8.  [load_image] insists on the three bytes "P4" and newline at the
    start of the file: with anything else there (a plain PBM "P1", a
    blank or a carriage return after "P4", a file of fewer than three
    bytes) it returns 1 and looks no further. *)
Theorem load_image_signature (hw : host) (fin : list Z) (w : world) :
  take 3 fin ≠ [80; 52; 10] → load_image hw fin w = Ret LoadError w.
Proof.
  intros Hsig. unfold load_image.
  destruct fin as [|c1 [|c2 [|c3 rest]]]; cbn [getc].
  - reflexivity.
  - destruct (Z.eqb_spec c1 80); reflexivity.
  - destruct (Z.eqb_spec c1 80); [|reflexivity].
    destruct (Z.eqb_spec c2 52); reflexivity.
  - destruct (Z.eqb_spec c1 80) as [->|]; [|reflexivity].
    destruct (Z.eqb_spec c2 52) as [->|]; [|reflexivity].
    destruct (Z.eqb_spec c3 10) as [->|]; [|reflexivity].
    by destruct Hsig.
Qed.

Lemma load_image_signature_witness :
  load_image ack_host [80; 52; 32; 52; 32; 50; 10; 0xA0; 0x50] boot
  = Ret LoadError boot.
Proof.
  apply (load_image_signature ack_host [80; 52; 32; 52; 32; 50; 10; 0xA0; 0x50] boot).
  discriminate.
Defined.

Lemma skip_comment_line (c rest : list Z) :
  Forall (λ x, u8 x ≠ 10) c →
  skip_comments true (c ++ 10 :: rest) = skip_comments false rest.
Proof.
  induction 1 as [|x c Hx _ IH]; [reflexivity|].
  cbn [app skip_comments]. apply Z.eqb_neq in Hx. by rewrite Hx.
Qed.

Lemma skip_comment_open (c : list Z) :
  Forall (λ x, u8 x ≠ 10) c → skip_comments true c = None.
Proof.
  induction 1 as [|x c Hx _ IH]; [reflexivity|].
  cbn [skip_comments]. apply Z.eqb_neq in Hx. by rewrite Hx.
Qed.

(** X9.  A comment line after the signature, from '#' to the next newline,
    makes no difference to what [load_image] does with the file. *)
Theorem load_image_skips_comment (hw : host) (c rest : list Z) (w : world) :
  Forall (λ x, u8 x ≠ 10) c →
  load_image hw ([80; 52; 10] ++ [35] ++ c ++ [10] ++ rest) w
  = load_image hw ([80; 52; 10] ++ rest) w.
Proof.
  intros Hc. unfold load_image. cbn [app getc Z.eqb Pos.eqb negb].
  assert (Hskip : skip_comments false (35 :: c ++ 10 :: rest)
                  = skip_comments false rest)
    by (cbn [skip_comments]; by apply skip_comment_line).
  by rewrite Hskip.
Qed.

Lemma load_image_skips_comment_witness :
  load_image ack_host ([80; 52; 10] ++ [35] ++ [104; 105] ++ [10]
                       ++ [52; 32; 50; 10; 0xA0; 0x50]) boot
  = load_image ack_host pbm_4x2 boot.
Proof.
  apply (load_image_skips_comment ack_host [104; 105] [52; 32; 50; 10; 0xA0; 0x50] boot).
  repeat constructor; discriminate.
Defined.

(** X10.  A comment that the file ends in, with no newline after the '#',
    hangs the loader: at the end of the file [getc] keeps returning
    [EOF], which is never the newline that the comment loop waits
    for. *)
Theorem load_image_open_comment (hw : host) (c : list Z) (w : world) :
  Forall (λ x, u8 x ≠ 10) c →
  load_image hw ([80; 52; 10; 35] ++ c) w = Diverge.
Proof.
  intros Hc. unfold load_image. cbn [app getc Z.eqb Pos.eqb negb].
  cbn [skip_comments]. change (u8 35 =? 35) with true. cbv iota.
  by rewrite skip_comment_open.
Qed.

Lemma load_image_open_comment_witness :
  load_image ack_host [80; 52; 10; 35; 52; 32; 50] boot = Diverge.
Proof.
  apply (load_image_open_comment ack_host [52; 32; 50] boot).
  repeat constructor; discriminate.
Defined.

(** ** Rows that are missing *)

Lemma read_rows_none (pad_h bw : Z) (n : nat) :
  0 ≤ bw →
  ∀ (i : Z) (stripes : list (list Z)) (fin : list Z),
    read_rows n i pad_h bw stripes fin = None
    ↔ (0 < n)%nat ∧ (bw = 0 ∨ Z.of_nat (length fin) < Z.of_nat n * bw).
Proof.
  intros Hbw. induction n as [|n IH]; intros i stripes fin.
  { cbn [read_rows]. split; [done|]. intros [? _]. lia. }
  cbn [read_rows]. unfold fread.
  destruct (Z.eqb_spec bw 0) as [->|Hnz]; cbn [orb].
  { split; [|done]. intros _. split; [lia|by left]. }
  destruct (Z.ltb_spec (Z.of_nat (length fin)) bw) as [Hshort|Hlong].
  { split; [|done]. intros _. split; [lia|]. right. nia. }
  rewrite IH, length_drop. split.
  - intros [Hn [?|Hlt]]; [done|]. split; [lia|]. right. nia.
  - intros [_ [?|Hlt]]; [done|].
    destruct n as [|n]; [lia|]. split; [lia|]. right. nia.
Qed.



(** ** A whole print job *)

Section AnsweredJob.

Variables (hw : host) (replies : nat → list Z).
Hypothesis Hok : transport_ok hw replies.

Lemma reset_run (w : world) :
  printer_reset hw w
  = Ret (ack_verdict (replies (received w))) (exchanged w [reset_frame]).
Proof. apply (exchange_run hw replies Hok [0x02; 0x01] 2 EPSIZE_16); cbn; lia. Qed.

Lemma set_speed_run (w : world) :
  printer_set_speed hw w
  = Ret (ack_verdict (replies (received w))) (exchanged w [speed_frame]).
Proof.
  apply (exchange_run hw replies Hok [PRINTER_STX; 0x1C; 0x01; 0x00; 0x00] 5 EPSIZE_16);
    cbn; lia.
Qed.

Lemma check_tape_run (t : TAPECODE_T) (w : world) :
  printer_check_tape hw t w
  = Ret (ack_verdict (replies (received w))) (exchanged w [tape_frame t]).
Proof.
  destruct t;
    refine (exchange_run hw replies Hok _ 6 EPSIZE_16 w _ _); cbn; lia.
Qed.

Lemma set_margin_run (m : MARGINCODE_T) (w : world) :
  printer_set_margin hw m w
  = Ret (ack_verdict (replies (received w))) (exchanged w [margin_frame m]).
Proof.
  destruct m;
    refine (exchange_run hw replies Hok _ 5 EPSIZE_16 w _ _); cbn; lia.
Qed.

Lemma set_density_run (d : DENSITYCODE_T) (w : world) :
  printer_set_density hw d w
  = Ret (ack_verdict (replies (received w))) (exchanged w [density_frame d]).
Proof.
  destruct d;
    refine (exchange_run hw replies Hok _ 10 EPSIZE_16 w _ _); cbn; lia.
Qed.

Lemma set_cutter_run (c : CUTTERCODE_T) (w : world) :
  printer_set_cutter hw c w
  = Ret (ack_verdict (replies (received w))) (exchanged w [cutter_frame c]).
Proof.
  destruct c;
    refine (exchange_run hw replies Hok _ 5 EPSIZE_16 w _ _); cbn; lia.
Qed.

Lemma cancel_job_run (w : world) :
  printer_cancel_job hw w = Ret 0 (push_frame cancel_frame w).
Proof.
  unfold printer_cancel_job, mbind, M_bind.
  by rewrite (send_run hw replies Hok) by (cbn; lia).
Qed.

End AnsweredJob.

Lemma load_image_any_world (hw : host) (fin : list Z) (w : world) :
  load_image hw fin w
  = match load_image hw fin boot with
    | Ret l w0 => Ret l {| sent := sent w; received := received w;
                           faults := faults w ++ faults w0 |}
    | Abort w0 => Abort w
    | Diverge => Diverge
    end.
Proof.
  assert (Hw : (mret LoadError : M loaded) w
               = Ret LoadError {| sent := sent w; received := received w;
                                  faults := faults w ++ [] |})
    by (destruct w; cbn; by rewrite app_nil_r).
  unfold load_image.
  destruct (getc fin) as [c1 f1]. destruct (negb (c1 =? 80)); [exact Hw|].
  destruct (getc f1) as [c2 f2]. destruct (negb (c2 =? 52)); [exact Hw|].
  destruct (getc f2) as [c3 f3]. destruct (negb (c3 =? 10)); [exact Hw|].
  destruct (skip_comments false f3) as [[ch f4]|]; [|done].
  destruct (scan_dims hw (ch :: f4)) as [[[img_w img_h] data]|]; [|exact Hw].
  unfold load_pixels.
  destruct (read_rows _ _ _ _ _ _) as [[stripes rest]|]; [|exact Hw].
  by destruct (transpose _ _ _) as [p fl].
Qed.

Lemma pass_all_step (s : M Z) (rest : list (M Z)) (w w' : world) :
  s w = Ret 0 w' → pass_all (s :: rest) w = pass_all rest w'.
Proof. intros Hs. cbn [pass_all]. by rewrite Hs. Qed.

Lemma job_replies_acked (r m : nat) : (11 ≤ r)%nat → acked job_replies r m.
Proof.
  intros Hr i _.
  replace (i + r)%nat with (11 + (i + r - 11))%nat by lia. reflexivity.
Qed.



(** ** A print job whatever the printer answers *)

Lemma run_steps_returns {A} (steps : list (M Z)) (k : bool → M A) :
  Forall returns steps → Forall no_cancel steps →
  ∀ (nc : bool) (w : world),
    ∃ nc' w1, run_steps steps nc k w = k nc' w1 ∧ grows_without_cancel w w1.
Proof.
  intros Hret. induction Hret as [|s steps Hs _ IH]; intros Hno nc w.
  { exists nc, w. split; [done|apply grows_refl]. }
  apply Forall_cons_1 in Hno as [Hs' Hno].
  cbn [run_steps]. unfold unless, mbind, M_bind, mret, M_ret.
  destruct nc; cbn [negb].
  - destruct (IH Hno true w) as (nc' & w1 & Hrun & Hg). exists nc', w1.
    by rewrite <- Hrun.
  - destruct (Hs w) as (rc & w0 & Hrun). specialize (Hs' w). rewrite Hrun in *.
    destruct (IH Hno (negb (rc =? 0)) w0) as (nc' & w1 & Hrun' & Hg).
    exists nc', w1. split; [by rewrite <- Hrun'|].
    by apply (grows_trans w w0 w1).
Qed.

Lemma job_steps_return (hw : host) (replies : nat → list Z) (opts : options)
    (img : image) :
  transport_ok hw replies →
  pattern_size img = Z.of_nat (length (pattern img)) →
  pattern_size img < 2 ^ 32 →
  Forall returns (job_steps hw opts img).
Proof.
  intros Hok Hsize H32. unfold job_steps.
  repeat apply Forall_cons_2; [..|apply Forall_nil_2]; intros w.
  - rewrite (prejob_run hw replies Hok). case_bool_decide; by eexists _, _.
  - rewrite (check_tape_run hw replies Hok). by eexists _, _.
  - rewrite (reset_run hw replies Hok). by eexists _, _.
  - rewrite (set_speed_run hw replies Hok). by eexists _, _.
  - rewrite (set_margin_run hw replies Hok). by eexists _, _.
  - rewrite (set_density_run hw replies Hok). by eexists _, _.
  - rewrite (set_cutter_run hw replies Hok). by eexists _, _.
  - rewrite (check_status_run hw replies Hok). by eexists _, _.
  - rewrite Hsize. destruct (decide (pattern img = [])) as [Hnil|Hne].
    + rewrite Hnil. cbn [length Z.of_nat]. rewrite printer_send_raster_empty.
      by eexists _, _.
    + pose proof (printer_send_raster_answered hw replies Hok (pattern img) w
                    Hne ltac:(lia)) as Ha.
      destruct (printer_send_raster _ _ _ w) as [rc w'|w'|]; [|done..].
      by eexists _, _.
Qed.



(** ** Transfer sizes *)

Lemma well_sized_ret {A} (a : A) : well_sized (mret a : M A).
Proof. intros w. exists []. by rewrite app_nil_r. Qed.

Lemma well_sized_bind {A B} (m : M A) (k : A → M B) :
  well_sized m → (∀ a, well_sized (k a)) → well_sized (m ≫= k).
Proof.
  intros Hm Hk w. unfold mbind, M_bind.
  specialize (Hm w). destruct (m w) as [a w1|w1|]; [|done..].
  destruct Hm as (fs & Hfs & Hsz).
  specialize (Hk a w1). destruct (k a w1) as [b w2|w2|]; [| |done].
  all: destruct Hk as (gs & Hgs & Hsz'); exists (fs ++ gs).
  all: split; [by rewrite Hgs, Hfs, app_assoc|by apply Forall_app].
Qed.

Lemma well_sized_if {A} (b : bool) (m1 m2 : M A) :
  well_sized m1 → well_sized m2 → well_sized (if b then m1 else m2).
Proof. by destruct b. Qed.

Lemma epsize_sized (f : list Z) (ep : EPSIZE_T) :
  Z.of_nat (length f) = epsize_val ep → frame_sized f.
Proof. unfold frame_sized. destruct ep; cbn; lia. Qed.

Lemma one_frame_well_sized (m : M Z) (f : list Z) :
  one_frame m f → frame_sized f → well_sized m.
Proof.
  intros Hm Hf w. specialize (Hm w).
  destruct (m w) as [rc w'|w'|]; [| |done]; exists [f].
  - destruct Hm as [_ [Hs _]]. by split; [|apply Forall_singleton].
  - destruct Hm as [Hs _]. by split; [|apply Forall_singleton].
Qed.

Lemma exchange_well_sized (hw : host) (d : list Z) (cnt : Z) (ep : EPSIZE_T) :
  0 ≤ cnt ≤ epsize_val ep → (Z.to_nat cnt ≤ length d)%nat →
  well_sized (exchange hw d cnt ep).
Proof.
  intros Hc Hd.
  apply (one_frame_well_sized _ (out_frame d cnt ep)).
  - by apply exchange_one_frame.
  - apply (epsize_sized _ ep). by apply out_frame_length.
Qed.

Lemma raster_frame_sized (f : list Z) : raster_frame f → frame_sized f.
Proof.
  intros [(p & -> & Hp)|[->| ->]].
  - right; right. unfold raster_block_frame.
    rewrite !length_app, length_replicate. cbn [length]. lia.
  - right; left. reflexivity.
  - left. reflexivity.
Qed.

Lemma send_raster_well_sized (hw : host) (raw : list Z) (n : Z) :
  n = Z.of_nat (length raw) → n < 2 ^ 32 →
  well_sized (printer_send_raster hw raw n).
Proof.
  intros Hn H32 w.
  pose proof (send_raster_no_cancel hw raw n Hn H32 w) as Hg.
  pose proof (run_frames hw raw n w Hn H32) as Hfr.
  unfold new_frames in Hfr.
  destruct (printer_send_raster hw raw n w) as [rc w'|w'|]; [| |done].
  all: destruct Hg as (fs & Hfs & _); exists fs; split; [done|].
  all: cbn [world_of] in Hfr; rewrite Hfs, drop_app_length in Hfr.
  all: apply Forall_forall; intros f Hf; by apply raster_frame_sized, Hfr.
Qed.

Lemma send_well_sized (hw : host) (d : list Z) (cnt : Z) (ep : EPSIZE_T) :
  0 ≤ cnt → (Z.to_nat cnt ≤ length d)%nat →
  well_sized (send_to_printer hw d cnt ep).
Proof.
  intros Hc Hd w. unfold send_to_printer.
  destruct (Z.ltb_spec (epsize_val ep) cnt) as [?|Hfit].
  { exists []. by rewrite app_nil_r. }
  assert (Hf : ∃ fs, sent (push_frame (out_frame d cnt ep) w) = sent w ++ fs
                     ∧ Forall frame_sized fs).
  { exists [out_frame d cnt ep]. split; [done|]. apply Forall_singleton.
    apply (epsize_sized _ ep). apply out_frame_length; [lia|done]. }
  destruct (bulk_out hw _ _) as [rc txcnt].
  destruct (negb (rc =? 0)); [done|]. by destruct (negb (txcnt =? _)).
Qed.

Lemma recv_well_sized (hw : host) : well_sized (recv_from_printer hw).
Proof.
  intros w. unfold recv_from_printer.
  destruct (bulk_in hw (received w)) as [rc rsp].
  destruct (rc =? 0); (exists []; by rewrite app_nil_r).
Qed.

Create HintDb sized.

#[local] Hint Resolve well_sized_ret recv_well_sized : sized.
#[local] Hint Extern 2 (well_sized (if _ then _ else _)) =>
  apply well_sized_if : sized.
#[local] Hint Extern 2 (well_sized (mbind _ _)) =>
  apply well_sized_bind; [|intros ?] : sized.
#[local] Hint Extern 1 (well_sized (send_to_printer _ _ _ _)) =>
  apply send_well_sized; cbn; lia : sized.

Section Sizes.

Variable hw : host.

Lemma recv_ack_well_sized : well_sized (printer_recv_ack hw).
Proof. unfold printer_recv_ack. auto 10 with sized. Qed.

#[local] Hint Resolve recv_ack_well_sized : sized.

Lemma check_status_well_sized : well_sized (printer_check_status hw).
Proof. unfold printer_check_status. auto 10 with sized. Qed.

Lemma reset_well_sized : well_sized (printer_reset hw).
Proof. unfold printer_reset. auto 10 with sized. Qed.

Lemma prejob_well_sized : well_sized (printer_prejob hw).
Proof. unfold printer_prejob. auto 20 with sized. Qed.

Lemma check_tape_well_sized (t : TAPECODE_T) : well_sized (printer_check_tape hw t).
Proof. unfold printer_check_tape. auto 10 with sized. Qed.

Lemma set_speed_well_sized : well_sized (printer_set_speed hw).
Proof. unfold printer_set_speed. auto 10 with sized. Qed.

Lemma set_margin_well_sized (m : MARGINCODE_T) : well_sized (printer_set_margin hw m).
Proof. unfold printer_set_margin. auto 10 with sized. Qed.

Lemma set_density_well_sized (d : DENSITYCODE_T) :
  well_sized (printer_set_density hw d).
Proof. unfold printer_set_density. auto 10 with sized. Qed.

Lemma set_cutter_well_sized (c : CUTTERCODE_T) : well_sized (printer_set_cutter hw c).
Proof. unfold printer_set_cutter. auto 10 with sized. Qed.

Lemma tape_op_well_sized :
  well_sized (printer_tape_feed hw) ∧ well_sized (printer_tape_cut hw)
  ∧ well_sized (printer_tape_halfcut hw) ∧ well_sized (printer_cancel_job hw).
Proof.
  unfold printer_tape_feed, printer_tape_cut, printer_tape_halfcut,
    printer_cancel_job.
  repeat split; auto 10 with sized.
Qed.

Lemma load_image_well_sized (fin : list Z) : well_sized (load_image hw fin).
Proof.
  intros w. pose proof (load_image_loaded hw fin w) as Hl.
  destruct (load_image hw fin w) as [l w'|w'|]; [|done..].
  destruct Hl as (Hs & _). exists []. by rewrite app_nil_r.
Qed.

Lemma unless_well_sized (nc : bool) (step : M Z) :
  well_sized step → well_sized (unless nc step).
Proof. intros Hs. unfold unless. destruct nc; cbn [negb]; auto 10 with sized. Qed.

End Sizes.


(** ** A print job without a bitmap *)

(** X15.  When [load_image] fails, a print job is over before it has begun:
    [main] returns 1 straight away.  By then the status check and the
    reset have been exchanged and nothing else; in particular no cancel
    command follows. *)
Theorem load_error_ends_job (hw : host) (opts : options) (fin : list Z)
    (w w0 : world) :
  usb_ready hw → opt_operation opts = OPERATION_PRINT →
  job_preamble hw fin w = Ret LoadError w0 →
  main hw opts fin w = Ret 1 w0
  ∧ new_frames w (main hw opts fin w) = [status_frame; reset_frame].
Proof.
  intros Hready Hop Hpre.
  assert (Hmain : main hw opts fin w = Ret 1 w0).
  { rewrite (main_ready hw opts fin Hready), Hop.
    unfold job_preamble in Hpre. unfold mbind, M_bind in *.
    destruct (printer_check_status hw w) as [r1 wa|wa|]; [|done..].
    destruct (printer_reset hw wa) as [r2 wb|wb|]; [|done..].
    by rewrite Hpre. }
  split; [done|]. rewrite Hmain.
  unfold job_preamble, mbind, M_bind in Hpre.
  pose proof (check_status_one_frame hw w) as H1.
  destruct (printer_check_status hw w) as [r1 wa|wa|]; [|done..].
  pose proof (exchange_one_frame hw [0x02; 0x01] 2 EPSIZE_16
                ltac:(cbn; lia) ltac:(cbn; lia) wa) as H2.
  change (exchange hw [0x02; 0x01] 2 EPSIZE_16) with (printer_reset hw) in H2.
  destruct (printer_reset hw wa) as [r2 wb|wb|]; [|done..].
  pose proof (load_image_loaded hw fin wb) as H3. rewrite Hpre in H3.
  destruct H1 as [_ [Hs1 _]], H2 as [_ [Hs2 _]], H3 as (Hs3 & _).
  unfold new_frames. cbn [world_of].
  rewrite Hs3, Hs2, Hs1, <- app_assoc. apply drop_app_length.
Qed.

Lemma load_error_ends_job_witness :
  main ack_host default_options [80; 49; 10] boot
  = Ret 1 {| sent := [status_frame; reset_frame]; received := 2; faults := [] |}.
Proof.
  apply (load_error_ends_job ack_host default_options [80; 49; 10] boot).
  - apply usb_ready_printer_host.
  - reflexivity.
  - reflexivity.
Defined.

(** ** The exit status *)

Lemma run_steps_result {A} (steps : list (M Z)) (k : bool → M A)
    (nc : bool) (w w' : world) (a : A) :
  run_steps steps nc k w = Ret a w' → ∃ nc' w1, k nc' w1 = Ret a w'.
Proof.
  revert nc w. induction steps as [|s steps IH]; intros nc w; cbn [run_steps].
  { intros Hk. by exists nc, w. }
  unfold unless, mbind, M_bind, mret, M_ret.
  destruct nc; cbn [negb]; [apply IH|].
  destruct (s w) as [rc w0|w0|]; [apply IH|done..].
Qed.

Lemma main_status_cases (hw : host) (opts : options) (fin : list Z)
    (w w' : world) (rc : Z) :
  main hw opts fin w = Ret rc w' →
  (usb_init hw < 0 ∧ rc = usb_init hw ∧ w' = w)
  ∨ (0 ≤ usb_init hw ∧ (usb_open hw = false ∨ usb_claim hw ≠ 0)
     ∧ rc = 1 ∧ w' = w)
  ∨ (usb_ready hw ∧ opt_operation opts = OPERATION_PRINT
     ∧ job_preamble hw fin w = Ret LoadError w' ∧ rc = 1)
  ∨ (usb_ready hw ∧ rc = 0
     ∧ (opt_operation opts = OPERATION_PRINT →
        ∃ img w0, job_preamble hw fin w = Ret (Loaded img) w0)).
Proof.
  destruct (Z.ltb_spec (usb_init hw) 0) as [Hneg|Hinit].
  { unfold main. destruct (Z.ltb_spec (usb_init hw) 0); [|lia].
    intros [= <- <-]. by left. }
  destruct (usb_open hw) eqn:Hopen.
  2:{ unfold main. destruct (Z.ltb_spec (usb_init hw) 0); [lia|].
      rewrite Hopen. cbn [negb]. intros [= <- <-]. right; left. auto. }
  destruct (Z.eqb_spec (usb_claim hw) 0) as [Hclaim|Hclaim].
  2:{ unfold main. destruct (Z.ltb_spec (usb_init hw) 0); [lia|].
      rewrite Hopen. cbn [negb].
      destruct (Z.eqb_spec (usb_claim hw) 0); [done|]. cbn [negb].
      intros [= <- <-]. right; left. auto. }
  assert (Hready : usb_ready hw) by done.
  rewrite (main_ready hw opts fin Hready).
  unfold job_preamble, mbind, M_bind.
  destruct (printer_check_status hw w) as [r1 wa|wa|]; [|done..].
  destruct (printer_reset hw wa) as [r2 wb|wb|]; [|done..].
  destruct (opt_operation opts) eqn:Hop.
  2: destruct (printer_tape_feed hw wb) as [r3 wc|wc|]; [|done..].
  3: destruct (printer_tape_cut hw wb) as [r3 wc|wc|]; [|done..].
  4: destruct (printer_tape_halfcut hw wb) as [r3 wc|wc|]; [|done..].
  2-4: intros [= <- <-]; right; right; right;
       (split; [done|]); (split; [done|]); discriminate.
  destruct (load_image hw fin wb) as [[|img] wc|wc|]; [| |done..].
  - intros [= <- <-]. right; right; left. auto.
  - intros Hrun. apply run_steps_result in Hrun as (nc & w1 & Hk).
    unfold mbind, M_bind in Hk.
    destruct (printer_cancel_job hw w1) as [r4 w2|w2|]; [|done..].
    injection Hk as <- <-. right; right; right.
    split; [done|]. split; [done|]. intros _. by exists img, wc.
Qed.

(** As long as the transfers themselves work, no answer of the printer
    keeps [main] from returning. *)
Lemma main_returns (hw : host) (replies : nat → list Z) (opts : options)
    (fin : list Z) (w : world) :
  transport_ok hw replies → load_image hw fin boot ≠ Diverge →
  ∃ rc w', main hw opts fin w = Ret rc w'.
Proof.
  intros Hok Hload.
  destruct (Z.ltb_spec (usb_init hw) 0) as [Hneg|Hinit].
  { unfold main. destruct (Z.ltb_spec (usb_init hw) 0); [|lia]. by eexists _, _. }
  destruct (usb_open hw) eqn:Hopen.
  2:{ unfold main. destruct (Z.ltb_spec (usb_init hw) 0); [lia|].
      rewrite Hopen. by eexists _, _. }
  destruct (Z.eqb_spec (usb_claim hw) 0) as [Hclaim|Hclaim].
  2:{ unfold main. destruct (Z.ltb_spec (usb_init hw) 0); [lia|].
      rewrite Hopen. cbn [negb].
      destruct (Z.eqb_spec (usb_claim hw) 0); [done|]. by eexists _, _. }
  assert (Hready : usb_ready hw) by done.
  rewrite (main_ready hw opts fin Hready). unfold mbind, M_bind.
  rewrite (check_status_run hw replies Hok), (reset_run hw replies Hok).
  set (w0 := exchanged _ [reset_frame]).
  destruct (opt_operation opts).
  2:{ change (printer_tape_feed hw) with (exchange hw [0x0A] 1 EPSIZE_1).
      rewrite (exchange_run hw replies Hok) by (cbn; lia). by eexists _, _. }
  2:{ change (printer_tape_cut hw) with (exchange hw [0x08] 1 EPSIZE_1).
      rewrite (exchange_run hw replies Hok) by (cbn; lia). by eexists _, _. }
  2:{ change (printer_tape_halfcut hw) with (exchange hw [0x09] 1 EPSIZE_1).
      rewrite (exchange_run hw replies Hok) by (cbn; lia). by eexists _, _. }
  pose proof (load_image_loaded hw fin boot) as Hfacts.
  rewrite load_image_any_world.
  destruct (load_image hw fin boot) as [l wl| |]; [|done..].
  destruct l as [|img]; [by eexists _, _|].
  destruct Hfacts as (_ & _ & Hfacts).
  destruct (Hfacts img eq_refl) as [Hsize H32].
  set (w1 := {| sent := _; received := _; faults := _ |}).
  destruct (run_steps_returns (job_steps hw opts img)
              (λ _, printer_cancel_job hw ≫= λ _, mret 0)
              (job_steps_return hw replies opts img Hok Hsize H32)
              (job_steps_no_cancel hw opts img Hsize H32) false w1)
    as (nc & w2 & Hrun & _).
  unfold mbind, M_bind in Hrun. rewrite Hrun.
  rewrite (cancel_job_run hw replies Hok). by eexists _, _.
Qed.



(** ** The command line *)

(** The option characters that the [switch] knows. *)
Lemma handle_option_known (opt : Z) :
  opt ∈ [118; 70; 67; 72; 109; 99; 100; 116]
  ∨ (∀ dump o oval, handle_option dump o opt oval = Exit 1)
    ∧ (∀ oval, valid_option (opt, oval) = false)
    ∧ selects_operation (opt, 0) = false ∧ takes_value opt = false.
Proof.
  destruct opt as [|p|p]; [by right|..|by right].
  do 7 (destruct p as [p|p|]; try by right).
  all: left; rewrite !elem_of_cons; tauto.
Qed.

(** An option either ends the process with status 1, when it is not
    valid, or changes the settings. *)
Lemma handle_option_valid (dump : bool) (o : options) (a : Z * Z) :
  match handle_option dump o a.1 a.2 with
  | Exit status => status = 1 ∧ valid_option a = false
  | Parsed _ _ => valid_option a = true
  end.
Proof.
  destruct a as [opt oval]. cbn [fst snd].
  destruct (handle_option_known opt) as [Hin|(Hexit & Hinv & _)].
  2:{ by rewrite Hexit, Hinv. }
  rewrite !elem_of_cons in Hin.
  destruct Hin as [->|[->|[->|[->|[->|[->|[->|[->|?%elem_of_nil]]]]]]]];
    [done|done|done|done| | | | |done].
  all: destruct oval as [|q|q]; try done.
  all: do 5 (destruct q as [q|q|]; try done).
Qed.

Lemma handle_options_app (xs ys : list (Z * Z)) (dump : bool) (o : options) :
  handle_options (xs ++ ys) dump o
  = match handle_options xs dump o with
    | Exit status => Exit status
    | Parsed dump' o' => handle_options ys dump' o'
    end.
Proof.
  revert dump o. induction xs as [|[opt oval] xs IH]; intros dump o; [done|].
  cbn [app handle_options]. by destruct (handle_option dump o opt oval).
Qed.

(** X17.  [handle_options] goes through the options in order and ends the
    process with status 1 at the first that is not valid: a character
    that is not an option (or -h), or a value outside the ones listed
    for -m, -c, -d and -t.  It returns only when all options are
    valid. *)
Theorem handle_options_rejects (args : list (Z * Z)) (dump : bool) (o : options) :
  match handle_options args dump o with
  | Exit status =>
      status = 1 ∧ ∃ xs a ys, args = xs ++ a :: ys
                              ∧ forallb valid_option xs = true
                              ∧ valid_option a = false
  | Parsed _ _ => forallb valid_option args = true
  end.
Proof.
  revert dump o. induction args as [|a args IH]; intros dump o; [done|].
  destruct a as [opt oval]. cbn [handle_options forallb].
  pose proof (handle_option_valid dump o (opt, oval)) as Hone. cbn [fst snd] in Hone.
  destruct (handle_option dump o opt oval) as [status|dump' o'].
  - destruct Hone as [-> Hbad]. split; [done|]. by exists [], (opt, oval), args.
  - specialize (IH dump' o'). rewrite Hone. cbn [andb].
    destruct (handle_options args dump' o') as [status|dump'' o'']; [|done].
    destruct IH as (-> & xs & a & ys & -> & Hxs & Ha). split; [done|].
    exists ((opt, oval) :: xs), a, ys. cbn [forallb]. by rewrite Hone, Hxs.
Qed.

(** X18.  With an option that is not valid, or when the USB set-up fails,
    the process ends with a status that is not 0 and the printer has
    not been sent a byte. *)
Theorem program_fails_before_printer (hw : host) (args : list (Z * Z))
    (fin : list Z) (w : world) :
  forallb valid_option args = false ∨ ¬ usb_ready hw →
  ∃ rc, program hw args fin w = Ret rc w ∧ rc ≠ 0.
Proof.
  intros Hwhy. unfold program.
  pose proof (handle_options_rejects args false default_options) as Hopts.
  destruct (handle_options args false default_options) as [status|dump opts].
  { destruct Hopts as [-> _]. by exists 1. }
  destruct Hwhy as [Hbad|Husb]; [congruence|].
  unfold main.
  destruct (Z.ltb_spec (usb_init hw) 0) as [Hneg|Hinit].
  { exists (usb_init hw). split; [done|lia]. }
  destruct (usb_open hw) eqn:Hopen; cbn [negb]; [|by exists 1].
  destruct (Z.eqb_spec (usb_claim hw) 0) as [Hclaim|?]; cbn [negb]; [|by exists 1].
  destruct Husb. by repeat split.
Qed.

Lemma program_fails_before_printer_witness :
  ∃ rc, program ack_host [(109, 1); (100, 7)] pbm_4x2 boot = Ret rc boot ∧ rc ≠ 0.
Proof.
  apply (program_fails_before_printer ack_host [(109, 1); (100, 7)] pbm_4x2 boot).
  left. reflexivity.
Defined.

Lemma handle_option_operation (dump : bool) (o : options) (a : Z * Z)
    (dump' : bool) (o' : options) :
  handle_option dump o a.1 a.2 = Parsed dump' o' →
  if selects_operation a then opt_operation o' ≠ OPERATION_PRINT
  else opt_operation o' = opt_operation o.
Proof.
  destruct a as [opt oval]. cbn [fst snd].
  destruct (handle_option_known opt) as [Hin|(Hexit & _)].
  2:{ by rewrite Hexit. }
  rewrite !elem_of_cons in Hin.
  destruct Hin as [->|[->|[->|[->|[->|[->|[->|[->|?%elem_of_nil]]]]]]]];
    [| | | | | | | |done].
  1-4: by intros [= <- <-].
  all: destruct oval as [|q|q]; try done; try by intros [= <- <-].
  all: do 5 (destruct q as [q|q|]; try done; try by intros [= <- <-]).
Qed.

(** X19.  The operation is what the option globals start with (printing, in
    [main]) as long as none of -F, -C and -H is given; once one of them
    has been seen no later option brings printing back. *)
Theorem handle_options_operation (args : list (Z * Z)) (dump : bool)
    (o : options) (dump' : bool) (o' : options) :
  handle_options args dump o = Parsed dump' o' →
  if existsb selects_operation args then opt_operation o' ≠ OPERATION_PRINT
  else opt_operation o' = opt_operation o.
Proof.
  revert dump o dump' o'.
  induction args as [|a args IH] using rev_ind; intros dump o dump' o'.
  { by intros [= <- <-]. }
  rewrite handle_options_app, existsb_app.
  destruct (handle_options args dump o) as [|dump1 o1] eqn:H1; [done|].
  specialize (IH dump o dump1 o1 H1).
  destruct a as [opt oval]. cbn [handle_options existsb].
  destruct (handle_option dump1 o1 opt oval) as [|dump2 o2] eqn:H2; [done|].
  intros [= <- <-].
  pose proof (handle_option_operation dump1 o1 (opt, oval) dump2 o2 H2) as Hop.
  rewrite orb_false_r.
  destruct (selects_operation (opt, oval)); [by rewrite orb_true_r|].
  rewrite orb_false_r, Hop. exact IH.
Qed.

Lemma handle_options_operation_witness :
  opt_operation (set_margin MARGINCODE_LARGE (set_operation OPERATION_CUT default_options))
  ≠ OPERATION_PRINT.
Proof.
  apply (handle_options_operation [(67, 0); (109, 3)] false default_options
           false (set_margin MARGINCODE_LARGE
                    (set_operation OPERATION_CUT default_options))).
  reflexivity.
Defined.

Lemma similar_set (opt oval : Z) (dump : bool) (o1 o2 : options) :
  takes_value opt = true → similar opt o1 o2 →
  handle_option dump o1 opt oval = handle_option dump o2 opt oval.
Proof.
  intros Htakes (Hm & Hc & Hd & Ht & Hop).
  destruct (handle_option_known opt) as [Hin|(_ & _ & _ & Hno)]; [|congruence].
  rewrite !elem_of_cons in Hin.
  destruct Hin as [->|[->|[->|[->|[->|[->|[->|[->|?%elem_of_nil]]]]]]]];
    try done; premises.
  all: destruct o1, o2; cbn in *; subst.
  all: destruct oval as [|q|q]; try done.
  all: do 5 (destruct q as [q|q|]; try done).
Qed.

Lemma similar_step (opt : Z) (dump : bool) (o1 o2 : options) (a : Z * Z) :
  similar opt o1 o2 →
  match handle_option dump o1 a.1 a.2, handle_option dump o2 a.1 a.2 with
  | Exit s1, Exit s2 => s1 = s2
  | Parsed d1 o1', Parsed d2 o2' => d1 = d2 ∧ similar opt o1' o2'
  | _, _ => False
  end.
Proof.
  intros (Hm & Hc & Hd & Ht & Hop). destruct a as [b oval]. cbn [fst snd].
  destruct (handle_option_known b) as [Hin|(Hexit & _)].
  2:{ by rewrite !Hexit. }
  rewrite !elem_of_cons in Hin.
  destruct Hin as [->|[->|[->|[->|[->|[->|[->|[->|?%elem_of_nil]]]]]]]];
    [| | | | | | | |done].
  1-4: by cbn.
  all: destruct oval as [|q|q]; try done; try by cbn.
  all: do 5 (destruct q as [q|q|]; try done; try by cbn).
Qed.

Lemma similar_first (opt oval : Z) (dump : bool) (o : options) :
  takes_value opt = true → valid_option (opt, oval) = true →
  ∃ o1, handle_option dump o opt oval = Parsed dump o1 ∧ similar opt o1 o.
Proof.
  intros Htakes Hvalid.
  destruct (handle_option_known opt) as [Hin|(_ & _ & _ & Hno)]; [|congruence].
  rewrite !elem_of_cons in Hin.
  destruct Hin as [->|[->|[->|[->|[->|[->|[->|[->|?%elem_of_nil]]]]]]]];
    try done.
  all: destruct oval as [|q|q]; try done;
    try (eexists; (split; [reflexivity|]); by cbn).
  all: do 5 (destruct q as [q|q|]; try done;
             try (eexists; (split; [reflexivity|]); by cbn)).
Qed.

Lemma similar_rest (opt oval : Z) (ys zs : list (Z * Z)) :
  takes_value opt = true →
  ∀ (dump : bool) (o1 o2 : options),
    similar opt o1 o2 →
    handle_options (ys ++ (opt, oval) :: zs) dump o1
    = handle_options (ys ++ (opt, oval) :: zs) dump o2.
Proof.
  intros Htakes. induction ys as [|[b v] ys IH]; intros dump o1 o2 Hsim.
  - cbn [app handle_options]. by rewrite (similar_set opt oval dump o1 o2).
  - cbn [app handle_options].
    pose proof (similar_step opt dump o1 o2 (b, v) Hsim) as Hstep.
    cbn [fst snd] in Hstep.
    destruct (handle_option dump o1 b v) as [s1|d1 o1'],
             (handle_option dump o2 b v) as [s2|d2 o2']; try done.
    + by subst.
    + destruct Hstep as [-> Hsim']. by apply IH.
Qed.

(** X20.  The options -m, -c, -d and -t each set one thing, and the last one
    given decides: an earlier valid occurrence of the same option can be
    dropped from the command line without any change to the outcome. *)
Theorem later_option_overrides (xs ys zs : list (Z * Z)) (opt v0 v : Z)
    (dump : bool) (o : options) :
  takes_value opt = true → valid_option (opt, v0) = true →
  handle_options (xs ++ (opt, v0) :: ys ++ (opt, v) :: zs) dump o
  = handle_options (xs ++ ys ++ (opt, v) :: zs) dump o.
Proof.
  intros Htakes Hvalid. rewrite !handle_options_app.
  destruct (handle_options xs dump o) as [|dump1 o1]; [done|].
  cbn [handle_options].
  destruct (similar_first opt v0 dump1 o1 Htakes Hvalid) as (o2 & -> & Hsim).
  by apply similar_rest.
Qed.

Lemma later_option_overrides_witness :
  handle_options ([(118, 0)] ++ (116, 24) :: [(70, 0)] ++ (116, 9) :: [(99, 2)])
                 false default_options
  = handle_options ([(118, 0)] ++ [(70, 0)] ++ (116, 9) :: [(99, 2)])
                   false default_options.
Proof.
  apply (later_option_overrides [(118, 0)] [(70, 0)] [(99, 2)] 116 24 9
           false default_options); reflexivity.
Defined.
